(** * jcarbon: the Keras callbacks of [jcarbon/tensorflow/callbacks.py]

    A shallow embedding of the sampling-session callbacks: the digest
    written into the training loop's [logs] dictionary, the start/stop
    lifecycle of the backend session, the two time-chunked aggregators and
    the timestamp-tracking variant.

    Python floats are IEEE binary64 numbers and are modelled by Rocq's
    primitive floats; dictionaries are [gmap]s; a pandas Series is the list of
    its rows in row order; an object is a record of its attributes, and a
    method is a function from the object's state to an outcome that carries
    the state the call left behind, whether it returned or raised. *)

From Stdlib Require Import Floats ZArith.
From stdpp Require Import gmap strings list sorting pretty.

Set Warnings "-inexact-float".

Local Open Scope Z_scope.
Local Open Scope string_scope.
Local Open Scope list_scope.

(** ** Exceptions, outcomes and methods *)

Inductive exn :=
  | AttributeError   (* an attribute is read before any assignment to it *)
  | KeyError         (* a dictionary is indexed at an absent key *)
  | ValueError       (* [pd.concat] of no objects, [int] of a NaN *)
  | OverflowError    (* [int] of an infinity *)
  | RpcError.        (* a call to the backend service failed *)

(** The outcome of a method call on an object of state [S]: the state is kept
    in both cases, since an exception does not undo earlier assignments. *)
Inductive result (S A : Type) :=
  | Returns (a : A) (s : S)
  | Raises (e : exn) (s : S).
Arguments Returns {S A} a s.
Arguments Raises {S A} e s.

Definition M (S A : Type) : Type := S -> result S A.

Definition ret {S A} (a : A) : M S A := fun s => Returns a s.
Definition raise {S A} (e : exn) : M S A := fun s => Raises e s.
Definition bind {S A B} (m : M S A) (k : A -> M S B) : M S B :=
  fun s => match m s with
           | Returns a s' => k a s'
           | Raises e s' => Raises e s'
           end.
Definition get {S} : M S S := fun s => Returns s s.
Definition modify {S} (f : S -> S) : M S unit := fun s => Returns tt (f s).

(** A method of a base class (or of a component) run on the derived object. *)
Definition lift {S T A} (proj : S -> T) (upd : T -> S -> S) (m : M T A) : M S A :=
  fun s => match m (proj s) with
           | Returns a t => Returns a (upd t s)
           | Raises e t => Raises e (upd t s)
           end.

Declare Scope py_scope.
Delimit Scope py_scope with py.
Notation "x <- m ;; k" := (bind m (fun x => k))
  (at level 100, m at next level, right associativity) : py_scope.
Notation "m ;; k" := (bind m (fun _ => k))
  (at level 100, right associativity) : py_scope.

Definition state_of {S A} (r : result S A) : S :=
  match r with Returns _ s => s | Raises _ s => s end.

Definition returned {S A} (r : result S A) : bool :=
  match r with Returns _ _ => true | Raises _ _ => false end.

(** An attribute that [__init__] does not assign: reading it before it is
    first set raises [AttributeError]. *)
Inductive attr (A : Type) :=
  | Unset
  | Value (a : A).
Arguments Unset {A}.
Arguments Value {A} a.

Definition read_attr {S A} (field : S -> attr A) : M S A :=
  fun s => match field s with
           | Value a => Returns a s
           | Unset => Raises AttributeError s
           end.

(** ** Series, frames and the pandas operations the callbacks use *)

(** Modelled from the spec: the rows of the Series built by
    [jcarbon.report.to_dataframe], which is not in the source file. A sample
    carries the four keys [add_jcarbon_log] groups by (index levels
    ['component_type'], ['component_id'], ['unit'], ['source']), its timestamp
    bucket and a numeric value. *)
Record Row := {
  sample_timestamp : Z;
  component_type : string;
  component_id : string;
  sample_unit : string;
  sample_source : string;
  sample_value : float
}.

Abbreviation Series := (list Row).

(** [s.to_frame().assign(epoch=e).set_index('epoch', append=True)]: every row
    of the Series with the epoch appended to its index. *)
Abbreviation Frame := (list (Row * Z)).

Definition to_epoch_frame (s : Series) (epoch : Z) : Frame :=
  map (fun r => (r, epoch)) s.

(** [pd.concat(objs)]: the rows of the objects one after the other, in the
    order of the list; raises [ValueError] when there is nothing to
    concatenate. *)
Definition pd_concat {S R} (objs : list (list R)) : M S (list R) :=
  match objs with
  | [] => raise ValueError
  | _ => ret (concat objs)
  end.

(** The group key of [groupby(['component_type', 'component_id', 'unit',
    'source'])]. *)
Definition key : Type := string * string * string * string.

Definition key_of (r : Row) : key :=
  (component_type r, component_id r, sample_unit r, sample_source r).

Definition key_type (k : key) : string := k.1.1.1.
Definition key_unit (k : key) : string := k.1.2.

(** Python's order on tuples of strings: lexicographic, the strings compared
    character by character. *)
Definition lex (c1 c2 : comparison) : comparison :=
  match c1 with Eq => c2 | _ => c1 end.

Definition key_compare (k1 k2 : key) : comparison :=
  let '(a1, b1, c1, d1) := k1 in
  let '(a2, b2, c2, d2) := k2 in
  lex (String.compare a1 a2)
    (lex (String.compare b1 b2)
       (lex (String.compare c1 c2) (String.compare d1 d2))).

Definition key_le (k1 k2 : key) : Prop := key_compare k1 k2 <> Gt.

Global Instance key_le_dec : RelDecision key_le.
Proof. intros k1 k2. unfold key_le. apply _. Defined.

(** [df.groupby(levels)], iterated: one [(key, group)] pair per distinct key,
    the keys in sorted order, every group holding the rows of that key in
    their original order. *)
Definition groupby (df : Series) : list (key * Series) :=
  map (fun k => (k, filter (fun r => key_of r = k) df))
      (merge_sort key_le (remove_dups (map key_of df))).

(** [a.sum()] for the float values [a] of a Series: pandas hands the array to
    numpy, whose reduction adds the values block by block ([pairwise_sum] in
    numpy's [loops_utils.h]). Fewer than 8 values are added from the left. Up
    to 128 values are added in 8 lanes, lane [i] taking the values at the
    positions congruent to [i] modulo 8; the lanes are then added two by two
    and the values left over after the last full row of 8 are added one by
    one. A longer array is cut in two near its middle, at a multiple of 8, and
    the sums of the two parts are added. *)
Fixpoint sum_lanes (rows : nat) (r a : list float) : list float * list float :=
  match rows with
  | O => (r, a)
  | S rows' => sum_lanes rows' (zip_with PrimFloat.add r (take 8 a)) (drop 8 a)
  end.

Definition eight_lane_sum (a : list float) : float :=
  let '(r, rest) := sum_lanes (length a / 8 - 1) (take 8 a) (drop 8 a) in
  match r with
  | [r0; r1; r2; r3; r4; r5; r6; r7] =>
      fold_left PrimFloat.add rest
        (((r0 + r1) + (r2 + r3)) + ((r4 + r5) + (r6 + r7)))%float
  | _ => fold_left PrimFloat.add a neg_zero
  end.

(** [fuel] bounds the number of cuts; the length of the array is enough. *)
Fixpoint pairwise_sum (fuel : nat) (a : list float) : float :=
  let n := length a in
  if (n <? 8)%nat then fold_left PrimFloat.add a neg_zero
  else if (n <=? 128)%nat then eight_lane_sum a
  else
    match fuel with
    | O => eight_lane_sum a
    | S fuel' =>
        let n2 := (n / 2 - (n / 2) mod 8)%nat in
        (pairwise_sum fuel' (take n2 a) + pairwise_sum fuel' (drop n2 a))%float
    end.

(** The sum of no values is [0.0]. The values summed below are all greater
    than zero, so the sign of the zero the reduction starts from does not
    show in the result. *)
Definition np_sum (a : list float) : float :=
  match a with
  | [] => 0%float
  | _ => pairwise_sum (length a) a
  end.

(** [g[g > 0].sum()]: the sum of the values that compare greater than zero
    (a NaN does not). *)
Definition is_positive (r : Row) : bool := PrimFloat.ltb 0%float (sample_value r).

Definition positive_sum (g : Series) : float :=
  np_sum (map sample_value (List.filter is_positive g)).

(** ** The digest: [add_jcarbon_log] *)

Definition UNITS : list (string * string) :=
  [ ("GRAMS_OF_CO2", "CO2");
    ("JOULES", "J");
    ("ACTIVITY", "%");
    ("NANOSECONDS", "ns");
    ("JIFFIES", "");
    ("WATTS", "W") ].

Fixpoint assoc (tbl : list (string * string)) (k : string) : option string :=
  match tbl with
  | [] => None
  | (k', v) :: tbl' => if String.eqb k k' then Some v else assoc tbl' k
  end.

(** [UNITS[unit]] *)
Definition UNITS_getitem {S} (u : string) : M S string :=
  match assoc UNITS u with
  | Some v => ret v
  | None => raise KeyError
  end.

Abbreviation Logs := (gmap string float).

(** The truth value of the [logs] argument: [None] and the empty dictionary
    are both false. *)
Definition truthy (logs : option Logs) : bool :=
  match logs with
  | None => false
  | Some m => negb (bool_decide (size m = 0%nat))
  end.

(** The body of the [for] loop, for one group. *)
Definition log_group {S} (m : Logs) (kg : key * Series) : M S Logs :=
  if String.eqb (key_unit kg.1) "JOULES" then
    (u <- UNITS_getitem (key_unit kg.1) ;;
     ret (<[ key_type kg.1 +:+ "-" +:+ u := positive_sum kg.2 ]> m))%py
  else ret m.

Fixpoint log_groups {S} (m : Logs) (gs : list (key * Series)) : M S Logs :=
  match gs with
  | [] => ret m
  | kg :: gs' => (m' <- log_group m kg ;; log_groups m' gs')%py
  end.

(** [add_jcarbon_log(df, logs)]; the dictionary is updated in place, so the
    model returns the [logs] the caller holds afterwards. *)
Definition add_jcarbon_log {S} (df : Series) (logs : option Logs) : M S (option Logs) :=
  match logs with
  | Some m =>
      if truthy logs then (m' <- log_groups m (groupby df) ;; ret (Some m'))%py
      else ret logs
  | None => ret logs
  end.

(** ** The backend service, seen through [JCarbonClient] *)

Inductive call :=
  | Purge
  | Start (pid period_ms : Z)
  | Stop (pid : Z)
  | Read (pid : Z) (signals : list string).

(** One call made through the client, and whether it raised. *)
Record entry := { issued : call; failed : bool }.

Definition is_start (e : entry) : bool :=
  match issued e with Start _ _ => true | _ => false end.
Definition is_stop (e : entry) : bool :=
  match issued e with Stop _ => true | _ => false end.
Definition is_purge (e : entry) : bool :=
  match issued e with Purge => true | _ => false end.

Definition count (p : entry -> bool) (h : list entry) : nat :=
  length (List.filter p h).

(** Whether the backend has a session open after the calls of [h]: the last
    [start] or [stop] that went through decides. *)
Definition session_step (open : bool) (e : entry) : bool :=
  if failed e then open
  else match issued e with
       | Start _ _ => true
       | Stop _ => false
       | _ => open
       end.

Definition session_open (h : list entry) : bool := fold_left session_step h false.

(** Every [start] that was issued comes right after a [purge] that went
    through; [purged] tells whether the call before the list was one. *)
Fixpoint purged_from (purged : bool) (h : list entry) : bool :=
  match h with
  | [] => true
  | e :: h' =>
      implb (is_start e) purged && purged_from (is_purge e && negb (failed e)) h'
  end.

Definition purged_starts (h : list entry) : bool := purged_from false h.

(** ** Objects *)

(** [JCarbonCallback]: the process id, the client (the log of the calls made
    through it), the sampling period and the requested signals. *)
Record JCarbonCallback := {
  pid : Z;
  client : list entry;
  period_ms : Z;
  signals : list string
}.

Definition set_client (h : list entry) (self : JCarbonCallback) : JCarbonCallback :=
  {| pid := pid self; client := h; period_ms := period_ms self; signals := signals self |}.

(** The attributes shared by [JCarbonChunkingCallback] (where [last_report]
    holds a Series, [L := Series]) and [JCarbonChunkingCallback2] (where it
    holds the list of the reports collected so far). [time] and [last_report]
    are first assigned by [on_epoch_begin]. *)
Record Chunking (L : Type) := {
  base : JCarbonCallback;
  reports : gmap Z Frame;
  chunking_period_sec : float;
  time : attr float;
  last_report : attr (option L)
}.
Arguments base {L} _.
Arguments reports {L} _.
Arguments chunking_period_sec {L} _.
Arguments time {L} _.
Arguments last_report {L} _.

Definition set_base {L} (b : JCarbonCallback) (self : Chunking L) : Chunking L :=
  {| base := b; reports := reports self; chunking_period_sec := chunking_period_sec self;
     time := time self; last_report := last_report self |}.
Definition set_reports {L} (r : gmap Z Frame) (self : Chunking L) : Chunking L :=
  {| base := base self; reports := r; chunking_period_sec := chunking_period_sec self;
     time := time self; last_report := last_report self |}.
Definition set_time {L} (t : attr float) (self : Chunking L) : Chunking L :=
  {| base := base self; reports := reports self; chunking_period_sec := chunking_period_sec self;
     time := t; last_report := last_report self |}.
Definition set_last_report {L} (l : attr (option L)) (self : Chunking L) : Chunking L :=
  {| base := base self; reports := reports self; chunking_period_sec := chunking_period_sec self;
     time := time self; last_report := l |}.

Abbreviation JCarbonChunkingCallback := (Chunking Series).

(** The calls of the training loop that the chunking callbacks react to, each
    with the clock value [time.time()] returns inside it (where the handler
    reads the clock) and the [logs] argument. *)
Inductive event :=
  | EpochBegin (epoch : Z) (now : float) (logs : option Logs)
  | TrainBatchEnd (batch : Z) (now : float) (logs : option Logs)
  | EpochEnd (epoch : Z) (logs : option Logs).

Definition is_batch_end (ev : event) : bool :=
  match ev with TrainBatchEnd _ _ _ => true | _ => false end.

(** The events of one epoch in the order the training loop raises them. *)
Definition epoch_events (epoch : Z) (t0 : float) (logs0 : option Logs)
    (batches : list (Z * float * option Logs)) (logs1 : option Logs) : list event :=
  EpochBegin epoch t0 logs0
    :: map (fun b => TrainBatchEnd b.1.1 b.1.2 b.2) batches
    ++ [EpochEnd epoch logs1].

(** The events are handled one after the other; the first exception ends the
    run. The result lists the [logs] dictionary each handler left behind. *)
Fixpoint run {S} (handle : event -> M S (option Logs)) (evs : list event)
    : M S (list (option Logs)) :=
  match evs with
  | [] => ret []
  | ev :: evs' =>
      (l <- handle ev ;; ls <- run handle evs' ;; ret (l :: ls))%py
  end.

(** [curr - self.time > self.chunking_period_sec] *)
Definition chunk_elapsed (curr last period : float) : bool :=
  PrimFloat.ltb period (PrimFloat.sub curr last).

(** The number of clock readings of [ts] at which the test above holds, when
    the reference time moves to the reading each time it does. *)
Fixpoint crossings (period last : float) (ts : list float) : nat :=
  match ts with
  | [] => 0%nat
  | t :: ts' =>
      if chunk_elapsed t last period then S (crossings period t ts')
      else crossings period last ts'
  end.

(** One timestamp row [{'batch': b, 'start': s, 'end': e}]. *)
Record BatchRow := {
  bt_batch : Z;
  bt_start : Z;
  bt_end : Z
}.

(** [self.batch_start] holds the float [time.time()] returned until
    [on_train_batch_end] replaces it by an integer number of nanoseconds. *)
Inductive num :=
  | PyFloat (f : float)
  | PyInt (z : Z).

(** [10**9 * x] *)
Definition nanos (x : num) : num :=
  match x with
  | PyFloat f => PyFloat (PrimFloat.mul 1000000000%float f)
  | PyInt z => PyInt (10 ^ 9 * z)
  end.

(** [int(x)]: a float is truncated towards zero; a NaN and the infinities
    have no integer value. *)
Definition py_int {S} (x : num) : M S Z :=
  match x with
  | PyInt z => ret z
  | PyFloat f =>
      match Prim2SF f with
      | S754_zero _ => ret 0
      | S754_infinity _ => raise OverflowError
      | S754_nan => raise ValueError
      | S754_finite sign m e =>
          let mag := if (0 <=? e)%Z then Z.shiftl (Z.pos m) e
                     else Z.shiftr (Z.pos m) (- e) in
          ret (if sign then - mag else mag)
      end
  end.

(** [JCarbonExperimentCallback(JCarbonChunkingCallback)]: [timestamps] and
    [batch_timestamps] are set by [__init__], the other three attributes by
    the handlers. *)
Record JCarbonExperimentCallback := {
  chunking : JCarbonChunkingCallback;
  timestamps : gmap Z (list (BatchRow * Z));
  batch_timestamps : option (list BatchRow);
  curr_batch_timestamps : attr (option (list BatchRow));
  batch_start : attr num;
  batch_end : attr Z
}.

Definition set_chunking (c : JCarbonChunkingCallback) (self : JCarbonExperimentCallback) :=
  {| chunking := c; timestamps := timestamps self; batch_timestamps := batch_timestamps self;
     curr_batch_timestamps := curr_batch_timestamps self;
     batch_start := batch_start self; batch_end := batch_end self |}.
Definition set_timestamps (t : gmap Z (list (BatchRow * Z))) (self : JCarbonExperimentCallback) :=
  {| chunking := chunking self; timestamps := t; batch_timestamps := batch_timestamps self;
     curr_batch_timestamps := curr_batch_timestamps self;
     batch_start := batch_start self; batch_end := batch_end self |}.
Definition set_batch_timestamps (t : option (list BatchRow)) (self : JCarbonExperimentCallback) :=
  {| chunking := chunking self; timestamps := timestamps self; batch_timestamps := t;
     curr_batch_timestamps := curr_batch_timestamps self;
     batch_start := batch_start self; batch_end := batch_end self |}.
Definition set_curr_batch_timestamps (t : attr (option (list BatchRow)))
    (self : JCarbonExperimentCallback) :=
  {| chunking := chunking self; timestamps := timestamps self;
     batch_timestamps := batch_timestamps self; curr_batch_timestamps := t;
     batch_start := batch_start self; batch_end := batch_end self |}.
Definition set_batch_start (t : attr num) (self : JCarbonExperimentCallback) :=
  {| chunking := chunking self; timestamps := timestamps self;
     batch_timestamps := batch_timestamps self;
     curr_batch_timestamps := curr_batch_timestamps self;
     batch_start := t; batch_end := batch_end self |}.
Definition set_batch_end (t : attr Z) (self : JCarbonExperimentCallback) :=
  {| chunking := chunking self; timestamps := timestamps self;
     batch_timestamps := batch_timestamps self;
     curr_batch_timestamps := curr_batch_timestamps self;
     batch_start := batch_start self; batch_end := t |}.

(** [pd.DataFrame.from_dict(rows)]: the rows of the list; no rows for [None]. *)
Definition from_dict (rows : option (list BatchRow)) : list BatchRow :=
  match rows with
  | Some l => l
  | None => []
  end.

(** [df.assign(epoch=e)] *)
Definition assign_epoch (df : list BatchRow) (epoch : Z) : list (BatchRow * Z) :=
  map (fun r => (r, epoch)) df.

(** The calls the timestamp-tracking callback reacts to. Its
    [on_train_batch_end] reads the clock twice: once itself ([now]) and once
    in the handler it inherits ([now']). *)
Inductive xevent :=
  | XEpochBegin (epoch : Z) (now : float)
  | XBatchBegin (batch : Z) (now : float)
  | XBatchEnd (batch : Z) (now now' : float)
  | XEpochEnd (epoch : Z).

Fixpoint xrun {S} (handle : xevent -> M S unit) (evs : list xevent) : M S unit :=
  match evs with
  | [] => ret tt
  | ev :: evs' => (handle ev ;; xrun handle evs')%py
  end.

(** ** Construction *)

Definition DEFAULT_PERIOD_MS : Z := 10.
Definition DEFAULT_PERIOD_SECS : float := 2%float.
Definition DEFAULT_SIGNALS : list string :=
  ["nvml"; "linux_process"; "JOULES"; "GRAMS_OF_CO2"].

(** [JCarbonCallback.__init__]; [getpid] is what [os.getpid()] returns. *)
Definition new_callback (getpid period : Z) (sigs : list string) : JCarbonCallback :=
  {| pid := getpid; client := []; period_ms := period; signals := sigs |}.

(** [__init__] of the two chunking classes. *)
Definition new_chunking {L} (getpid period : Z) (sigs : list string) (chunk : float)
    : Chunking L :=
  {| base := new_callback getpid period sigs; reports := ∅;
     chunking_period_sec := chunk; time := Unset; last_report := Unset |}.

(** [JCarbonExperimentCallback.__init__] does not hand its
    [chunking_period_sec] to the class it extends, whose default applies. *)
Definition new_experiment (getpid period : Z) (sigs : list string) (chunk : float)
    : JCarbonExperimentCallback :=
  {| chunking := new_chunking getpid period sigs DEFAULT_PERIOD_SECS;
     timestamps := ∅; batch_timestamps := None;
     curr_batch_timestamps := Unset; batch_start := Unset; batch_end := Unset |}.

(** ** Vocabulary of the properties *)

(** The digest as its description has it: for one group, the sum of the
    strictly positive values goes under the key made of the component type
    and the label of the energy unit; other groups write nothing. *)
Definition write_energy_sum (m : Logs) (kg : key * Series) : Logs :=
  if bool_decide (key_unit kg.1 = "JOULES")
  then <[ key_type kg.1 +:+ "-J" := positive_sum kg.2 ]> m
  else m.

Definition digest (df : Series) (logs : option Logs) : option Logs :=
  if truthy logs then fold_left write_energy_sum (groupby df) <$> logs else logs.

(** The energy samples of one component type, whatever their component id
    and source. *)
Definition energy_of_type (ct : string) (df : Series) : Series :=
  filter (fun r => component_type r = ct /\ sample_unit r = "JOULES") df.

(** Calls that went through, and calls that raised. *)
Definition ok (c : call) : entry := {| issued := c; failed := false |}.
Definition ko (c : call) : entry := {| issued := c; failed := true |}.

(** The calls of [start_jcarbon] and of [stop_jcarbon] when none fails. *)
Definition opening (self : JCarbonCallback) : list entry :=
  [ok Purge; ok (Start (pid self) (period_ms self))].
Definition closing (self : JCarbonCallback) : list entry :=
  [ok (Stop (pid self)); ok (Read (pid self) (signals self))].

(** The calls of an epoch with [n] chunk boundaries. *)
Definition epoch_calls (self : JCarbonCallback) (n : nat) : list entry :=
  (opening self ++ concat (replicate n (closing self ++ opening self)) ++ closing self)%list.

(** The object after the calls [d] were made through its client. *)
Definition after_calls {L} (d : list entry) (self : Chunking L) : Chunking L :=
  set_base (set_client (client (base self) ++ d)%list (base self)) self.

(** The accumulation after one more window. *)
Definition merged (lr : option Series) (window : Series) : Series :=
  match lr with
  | None => window
  | Some acc => (acc ++ window)%list
  end.

(** Starts and stops alternate, beginning with a start when [open] is false,
    and leave no session open. *)
Fixpoint alternates (open : bool) (h : list entry) : bool :=
  match h with
  | [] => negb open
  | e :: h' =>
      if is_start e then negb open && alternates true h'
      else if is_stop e then open && alternates false h'
      else alternates open h'
  end.

(** For each clock reading of [ts], whether the chunk boundary is crossed
    there. *)
Fixpoint boundary_flags (period last : float) (ts : list float) : list bool :=
  match ts with
  | [] => []
  | t :: ts' =>
      let crossed := chunk_elapsed t last period in
      crossed :: boundary_flags period (if crossed then t else last) ts'
  end.

Definition batch_events (batches : list (Z * float * option Logs)) : list event :=
  map (fun b => TrainBatchEnd b.1.1 b.1.2 b.2) batches.

Definition batch_times (batches : list (Z * float * option Logs)) : list float :=
  map (fun b => b.1.2) batches.

(** A method only adds calls to the log, and every [start] among them follows
    a [purge] that went through. *)
Definition adds_purged_starts {S A} (log : S -> list entry) (m : M S A) : Prop :=
  forall s, exists d, log (state_of (m s)) = log s ++ d /\ purged_from false d = true.

(** For every event handled, whether its handler issued a call to the
    backend; the chunk boundary is the only place where the handler of a
    batch end does. The run ends with the first exception. *)
Fixpoint firings {S} (log : S -> list entry) (handle : event -> M S (option Logs))
    (evs : list event) (s : S) : list bool :=
  match evs with
  | [] => []
  | ev :: evs' =>
      let r := handle ev s in
      negb (length (log (state_of r)) =? length (log s))%nat
        :: (if returned r then firings log handle evs' (state_of r) else [])
  end.

Definition events_logs (evs : list event) : list (option Logs) :=
  map (fun ev => match ev with
                 | EpochBegin _ _ l | TrainBatchEnd _ _ l | EpochEnd _ l => l
                 end) evs.

(** ** Sample data *)

Definition sample (ct cid : string) (v : float) : Row :=
  {| sample_timestamp := 0; component_type := ct; component_id := cid;
     sample_unit := "JOULES"; sample_source := "rapl"; sample_value := v |}.

Definition cpu_samples : Series :=
  [sample "CPU" "0" 3%float; sample "CPU" "0" (-1)%float; sample "CPU" "0" 2%float].

(** The second socket also reports a negative reading, a reading that is not
    a number and a reading of zero. *)
Definition two_socket_samples : Series :=
  [sample "CPU" "1" 3%float; sample "GPU" "0" 7%float;
   sample "CPU" "1" (-5)%float; sample "CPU" "0" 2%float;
   sample "CPU" "1" PrimFloat.nan; sample "CPU" "1" 4%float;
   sample "CPU" "1" 0%float].

(** Readings of which only two are greater than zero. *)
Definition mixed_samples : Series :=
  [sample "CPU" "0" 3%float; sample "CPU" "0" 0%float;
   sample "CPU" "0" PrimFloat.nan; sample "CPU" "0" (-1)%float;
   sample "CPU" "0" PrimFloat.neg_infinity; sample "CPU" "0" 2%float].

(** Ten readings of 0.1 J. *)
Definition tenths : Series := map (sample "CPU" "0") (replicate 10 0.1%float).

(** A window of one sample of 1 J, told apart from the other windows by its
    timestamp. *)
Definition window_sample (n : Z) : Row :=
  {| sample_timestamp := n; component_type := "CPU"; component_id := "0";
     sample_unit := "JOULES"; sample_source := "rapl"; sample_value := 1%float |}.

Definition keras_logs : Logs := {[ "loss" := 0.25%float ]}.

(** Backends whose reports are Series already. *)
Definition never_fails : list entry -> call -> bool := fun _ _ => false.
Definition fails_nth (n : nat) : list entry -> call -> bool :=
  fun h _ => (length h =? n)%nat.
Definition reads_cpu : list entry -> Series := fun _ => cpu_samples.

(** A backend whose report carries the number of calls made before the
    [read]. *)
Definition reads_numbered : list entry -> Series :=
  fun h => [window_sample (Z.of_nat (length h))].

(** Freshly constructed callbacks, with the default settings. *)
Definition chunker : JCarbonChunkingCallback :=
  new_chunking 4242 DEFAULT_PERIOD_MS DEFAULT_SIGNALS DEFAULT_PERIOD_SECS.
Definition chunker2 : Chunking (list Series) :=
  new_chunking 4242 DEFAULT_PERIOD_MS DEFAULT_SIGNALS DEFAULT_PERIOD_SECS.
Definition tracker : JCarbonExperimentCallback :=
  new_experiment 4242 DEFAULT_PERIOD_MS DEFAULT_SIGNALS DEFAULT_PERIOD_SECS.

(** Five batches ending at clock 0.5, 1.0, 1.5, 2.1 and 2.6. *)
Definition five_batches : list (Z * float * option Logs) :=
  [ (0, 0.5%float, Some keras_logs); (1, 1%float, Some keras_logs);
    (2, 1.5%float, Some keras_logs); (3, 2.1%float, Some keras_logs);
    (4, 2.6%float, Some keras_logs) ].

(** Two epochs of one batch each, as the timestamp-tracking callback sees
    them. *)
Definition two_epochs : list xevent :=
  [ XEpochBegin 0 100%float;
    XBatchBegin 0 100.25%float; XBatchEnd 0 100.5%float 100.5%float;
    XEpochEnd 0;
    XEpochBegin 1 101%float;
    XBatchBegin 7 101.25%float; XBatchEnd 7 101.5%float 101.5%float;
    XEpochEnd 1 ].

(** The value under key [k] of the [logs] dictionary the last handler of a
    run left behind. *)
Definition logged_at_end {S} (r : result S (list (option Logs))) (k : string)
    : option float :=
  match r with
  | Returns outs _ =>
      match last outs with
      | Some (Some m) => m !! k
      | _ => None
      end
  | Raises _ _ => None
  end.

(** ** The callbacks without chunking *)

(** [JCarbonEpochCallback] and [JCarbonBatchCallback]: a [JCarbonCallback]
    with a [reports] dictionary, which holds one Series per key in the first
    class and a list of Series per key in the second. *)
Record Reporting (R : Type) := {
  r_base : JCarbonCallback;
  r_reports : gmap Z R
}.
Arguments r_base {R} _.
Arguments r_reports {R} _.

Definition set_r_base {R} (b : JCarbonCallback) (self : Reporting R) : Reporting R :=
  {| r_base := b; r_reports := r_reports self |}.
Definition set_r_reports {R} (r : gmap Z R) (self : Reporting R) : Reporting R :=
  {| r_base := r_base self; r_reports := r |}.

(** [__init__] of the two classes. *)
Definition new_reporting {R} (getpid period : Z) (sigs : list string) : Reporting R :=
  {| r_base := new_callback getpid period sigs; r_reports := ∅ |}.

(** [d[k]] for a dictionary attribute [d] of the object. *)
Definition getitem {S V} (d : S -> gmap Z V) (k : Z) : M S V :=
  fun s => match d s !! k with
           | Some v => Returns v s
           | None => Raises KeyError s
           end.

(** [add_jcarbon_log(df, logs)] when [df] is a Python list, as
    [JCarbonBatchCallback] calls it: a list has no [groupby], so the loop
    header raises as soon as [logs] lets the body run. *)
Definition add_jcarbon_log_list {S} (df : list Series) (logs : option Logs)
    : M S (option Logs) :=
  if truthy logs then raise AttributeError else ret logs.

(** The calls of the training loop the epoch and batch callbacks react to. *)
Inductive revent :=
  | REpochBegin (epoch : Z) (logs : option Logs)
  | REpochEnd (epoch : Z) (logs : option Logs)
  | RBatchBegin (batch : Z) (logs : option Logs)
  | RBatchEnd (batch : Z) (logs : option Logs).

(** ** [JCarbonDumpingEpochCallback] *)

(** One [client.dump(pid, path, signals)]: its arguments, how many calls the
    client had made before it, and whether it raised. *)
Record dump := {
  dump_after : nat;
  dump_pid : Z;
  dump_path : string;
  dump_signals : list string;
  dump_failed : bool
}.

Record JCarbonDumpingEpochCallback := {
  d_base : JCarbonCallback;
  output_path : string;
  dumps : list dump
}.

Definition set_d_base (b : JCarbonCallback) (self : JCarbonDumpingEpochCallback) :=
  {| d_base := b; output_path := output_path self; dumps := dumps self |}.
Definition set_dumps (d : list dump) (self : JCarbonDumpingEpochCallback) :=
  {| d_base := d_base self; output_path := output_path self; dumps := d |}.

(** [f'/tmp/jcarbon-{os.getpid()}'] *)
Definition default_output_path (getpid : Z) : string :=
  "/tmp/jcarbon-" +:+ pretty getpid.

(** [__init__]; [output_path] is [None] by default. *)
Definition new_dumping (getpid period : Z) (sigs : list string)
    (path : option string) : JCarbonDumpingEpochCallback :=
  {| d_base := new_callback getpid period sigs;
     output_path := match path with
                    | None => default_output_path getpid
                    | Some p => p
                    end;
     dumps := [] |}.

(** [f'{self.output_path}/report-{epoch}.pb'] *)
Definition report_path (dir : string) (epoch : Z) : string :=
  dir +:+ "/report-" +:+ pretty epoch +:+ ".pb".

(** ** [JCarbonNvmlCallback] *)

(** The object holds a sampler of type [Sm] and, in [last_report], reports of
    type [NR]; [last_report] is first assigned by [on_epoch_begin]. *)
Record Nvml (Sm NR : Type) := {
  n_reports : gmap Z Frame;
  n_sampler : Sm;
  n_last_report : attr (option (list NR))
}.
Arguments n_reports {Sm NR} _.
Arguments n_sampler {Sm NR} _.
Arguments n_last_report {Sm NR} _.

Definition set_n_sampler {Sm NR} (sm : Sm) (self : Nvml Sm NR) : Nvml Sm NR :=
  {| n_reports := n_reports self; n_sampler := sm; n_last_report := n_last_report self |}.
Definition set_n_last_report {Sm NR} (l : attr (option (list NR))) (self : Nvml Sm NR)
    : Nvml Sm NR :=
  {| n_reports := n_reports self; n_sampler := n_sampler self; n_last_report := l |}.

(** [__init__], given the sampler [NvmlSampler()] returns. *)
Definition new_nvml {Sm NR} (sm : Sm) : Nvml Sm NR :=
  {| n_reports := ∅; n_sampler := sm; n_last_report := Unset |}.

(** The events of the epochs [epochs], one after the other, each epoch with
    the [logs] of its begin and of its end. *)
Definition plain_epochs (epochs : list (Z * option Logs * option Logs)) : list revent :=
  concat (map (fun e => [REpochBegin e.1.1 e.1.2; REpochEnd e.1.1 e.2]) epochs).

(** ** Vocabulary of the further properties *)

(** A method leaves a part of the state as it found it, whether it returns
    or raises. *)
Definition keeps {S A X} (f : S -> X) (m : M S A) : Prop :=
  forall s, f (state_of (m s)) = f s.

(** The settings given to [JCarbonCallback.__init__]. *)
Definition settings (b : JCarbonCallback) : Z * Z * list string :=
  (pid b, period_ms b, signals b).

Definition is_epoch_begin (ev : event) : bool :=
  match ev with EpochBegin _ _ _ => true | _ => false end.

Definition is_read (e : entry) : bool :=
  match issued e with Read _ _ => true | _ => false end.

(** What the chunking handlers are called with when the timestamp-tracking
    class passes an event on to the class it extends: no [logs], and for a
    batch end the clock read by the inherited handler. *)
Definition inherited (ev : xevent) : list event :=
  match ev with
  | XEpochBegin epoch now => [EpochBegin epoch now None]
  | XBatchBegin _ _ => []
  | XBatchEnd batch _ now' => [TrainBatchEnd batch now' None]
  | XEpochEnd epoch => [EpochEnd epoch None]
  end.

(** The events of one epoch as the timestamp-tracking class sees them: for
    every batch its index, the clock at its begin, and the two clocks read at
    its end. *)
Definition xepoch_events (epoch : Z) (t0 : float)
    (batches : list (Z * float * float * float)) : list xevent :=
  XEpochBegin epoch t0
    :: concat (map (fun b => [XBatchBegin b.1.1.1 b.1.1.2;
                              XBatchEnd b.1.1.1 b.1.2 b.2]) batches)
    ++ [XEpochEnd epoch].

(** [int(10**9 * t)] for a clock reading [t], when it has a value. *)
Definition clock_nanos (t : float) : option Z :=
  match py_int (nanos (PyFloat t)) tt with
  | Returns z _ => Some z
  | Raises _ _ => None
  end.

(** The row recorded for a batch. *)
Definition batch_row (b : Z * float * float * float) : BatchRow :=
  {| bt_batch := b.1.1.1;
     bt_start := default 0 (clock_nanos b.1.1.2);
     bt_end := default 0 (clock_nanos b.1.2) |}.

(** The value the digest loop writes last under the key [K], if it writes
    one. *)
Definition written (gs : list (key * Series)) (K : string) : option float :=
  fold_left
    (fun acc kg =>
       if bool_decide (key_unit kg.1 = "JOULES" /\ key_type kg.1 +:+ "-J" = K)
       then Some (positive_sum kg.2) else acc)
    gs None.

(** Samples of CPU activity, in percent. *)
Definition activity_samples : Series :=
  [ {| sample_timestamp := 0; component_type := "CPU"; component_id := "0";
       sample_unit := "ACTIVITY"; sample_source := "linux_process";
       sample_value := 0.5%float |};
    {| sample_timestamp := 1; component_type := "CPU"; component_id := "0";
       sample_unit := "ACTIVITY"; sample_source := "linux_process";
       sample_value := 0.75%float |} ].

(** Two batches that end before the chunking period has elapsed. *)
Definition quiet_batches : list (Z * float * option Logs) :=
  [ (0, 0.5%float, Some keras_logs); (1, 1%float, Some keras_logs) ].

(** Two batches with the clocks at their begin and at their end. *)
Definition tracked_batches : list (Z * float * float * float) :=
  [ (0, 100.25%float, 100.5%float, 100.5%float);
    (7, 101.25%float, 101.5%float, 101.5%float) ].

(** Freshly constructed epoch and batch callbacks. *)
Definition epoch_callback : Reporting Series :=
  new_reporting 4242 DEFAULT_PERIOD_MS DEFAULT_SIGNALS.
Definition batch_callback : Reporting (list Series) :=
  new_reporting 4242 DEFAULT_PERIOD_MS DEFAULT_SIGNALS.

Section Callbacks.

(** The report type of [jcarbon.client] and [jcarbon.report.to_dataframe]
    are not part of this file; the backend is any function from the calls
    made so far to whether the next call fails and to the report a [read]
    returns. *)
Variable Report : Type.
Variable to_dataframe : Report -> Series.
Variable fails : list entry -> call -> bool.
Variable reads : list entry -> Report.

(** A backend none of whose calls fails. *)
Definition reliable : Prop := forall h c, fails h c = false.

(** *** [JCarbonCallback] *)

Definition invoke (c : call) : M JCarbonCallback unit :=
  fun self =>
    let bad := fails (client self) c in
    let self' := set_client (client self ++ [{| issued := c; failed := bad |}]) self in
    if bad then Raises RpcError self' else Returns tt self'.

Definition client_read (p : Z) (sigs : list string) : M JCarbonCallback Report :=
  (self <- get ;;
   invoke (Read p sigs) ;;
   ret (reads (client self)))%py.

Definition start_jcarbon : M JCarbonCallback unit :=
  (invoke Purge ;;
   self <- get ;;
   invoke (Start (pid self) (period_ms self)))%py.

Definition stop_jcarbon : M JCarbonCallback Report :=
  (self <- get ;;
   invoke (Stop (pid self)) ;;
   client_read (pid self) (signals self))%py.

Definition in_base {L A} (m : M JCarbonCallback A) : M (Chunking L) A :=
  lift base set_base m.

(** *** [JCarbonChunkingCallback] *)

(** [on_epoch_begin] has the same text in both chunking classes. *)
Definition on_epoch_begin {L} (epoch : Z) (now : float) (logs : option Logs)
    : M (Chunking L) unit :=
  (modify (set_time (Value now)) ;;
   modify (set_last_report (Value None)) ;;
   in_base start_jcarbon)%py.

(** The [if self.last_report is None ... else ...] statement of
    [on_train_batch_end] and [on_epoch_end]: the new value of
    [self.last_report]. In the [else] branch the old accumulation is read
    before the session is stopped. *)
Definition absorb_report : M JCarbonChunkingCallback Series :=
  (lr <- read_attr last_report ;;
   s <- match lr with
        | None => r <- in_base stop_jcarbon ;; ret (to_dataframe r)
        | Some acc => r <- in_base stop_jcarbon ;; pd_concat [acc; to_dataframe r]
        end ;;
   modify (set_last_report (Value (Some s))) ;;
   ret s)%py.

Definition on_train_batch_end (epoch : Z) (curr : float) (logs : option Logs)
    : M JCarbonChunkingCallback (option Logs) :=
  (t <- read_attr time ;;
   self <- get ;;
   if chunk_elapsed curr t (chunking_period_sec self) then
     modify (set_time (Value curr)) ;;
     s <- absorb_report ;;
     logs' <- add_jcarbon_log s logs ;;
     in_base start_jcarbon ;;
     ret logs'
   else ret logs)%py.

Definition on_epoch_end (epoch : Z) (logs : option Logs)
    : M JCarbonChunkingCallback (option Logs) :=
  (s <- absorb_report ;;
   logs' <- add_jcarbon_log s logs ;;
   self <- get ;;
   modify (set_reports (<[epoch := to_epoch_frame s epoch]> (reports self))) ;;
   ret logs')%py.

Definition handle (ev : event) : M JCarbonChunkingCallback (option Logs) :=
  match ev with
  | EpochBegin epoch now logs => (on_epoch_begin epoch now logs ;; ret logs)%py
  | TrainBatchEnd batch now logs => on_train_batch_end batch now logs
  | EpochEnd epoch logs => on_epoch_end epoch logs
  end.

(** *** [JCarbonChunkingCallback2] *)

Definition absorb_report2 : M (Chunking (list Report)) (list Report) :=
  (lr <- read_attr last_report ;;
   l <- match lr with
        | None => r <- in_base stop_jcarbon ;; ret [r]
        | Some acc => r <- in_base stop_jcarbon ;; ret (acc ++ [r])%list
        end ;;
   modify (set_last_report (Value (Some l))) ;;
   ret l)%py.

Definition on_train_batch_end2 (epoch : Z) (curr : float) (logs : option Logs)
    : M (Chunking (list Report)) (option Logs) :=
  (t <- read_attr time ;;
   self <- get ;;
   if chunk_elapsed curr t (chunking_period_sec self) then
     modify (set_time (Value curr)) ;;
     absorb_report2 ;;
     in_base start_jcarbon ;;
     ret logs
   else ret logs)%py.

Definition on_epoch_end2 (epoch : Z) (logs : option Logs)
    : M (Chunking (list Report)) (option Logs) :=
  (l <- absorb_report2 ;;
   s <- pd_concat (map to_dataframe l) ;;
   self <- get ;;
   modify (set_reports (<[epoch := to_epoch_frame s epoch]> (reports self))) ;;
   ret logs)%py.

Definition handle2 (ev : event) : M (Chunking (list Report)) (option Logs) :=
  match ev with
  | EpochBegin epoch now logs => (on_epoch_begin epoch now logs ;; ret logs)%py
  | TrainBatchEnd batch now logs => on_train_batch_end2 batch now logs
  | EpochEnd epoch logs => on_epoch_end2 epoch logs
  end.

(** *** [JCarbonExperimentCallback] *)

Definition in_chunking {A} (m : M JCarbonChunkingCallback A)
    : M JCarbonExperimentCallback A :=
  lift chunking set_chunking m.

Definition x_on_epoch_begin (epoch : Z) (now : float) : M JCarbonExperimentCallback unit :=
  (in_chunking (on_epoch_begin epoch now None) ;;
   modify (set_curr_batch_timestamps (Value None)))%py.

Definition x_on_train_batch_begin (batch : Z) (now : float)
    : M JCarbonExperimentCallback unit :=
  modify (set_batch_start (Value (PyFloat now))).

Definition x_on_train_batch_end (batch : Z) (curr curr' : float)
    : M JCarbonExperimentCallback unit :=
  (in_chunking (on_train_batch_end batch curr' None) ;;
   e <- py_int (nanos (PyFloat curr)) ;;
   modify (set_batch_end (Value e)) ;;
   b <- read_attr batch_start ;;
   s <- py_int (nanos b) ;;
   modify (set_batch_start (Value (PyInt s))) ;;
   cur <- read_attr curr_batch_timestamps ;;
   let row := {| bt_batch := batch; bt_start := s; bt_end := e |} in
   match cur with
   | None => modify (set_curr_batch_timestamps (Value (Some [row])))
   | Some l => modify (set_curr_batch_timestamps (Value (Some (l ++ [row])%list)))
   end)%py.

Definition x_on_epoch_end (epoch : Z) : M JCarbonExperimentCallback unit :=
  (in_chunking (on_epoch_end epoch None) ;;
   self <- get ;;
   df <- match batch_timestamps self with
         | None =>
             cur <- read_attr curr_batch_timestamps ;;
             ret (from_dict cur)
         | Some _ =>
             cur <- read_attr curr_batch_timestamps ;;
             pd_concat [from_dict cur]
         end ;;
   modify (set_batch_timestamps (Some df)) ;;
   self' <- get ;;
   modify (set_timestamps (<[epoch := assign_epoch df epoch]> (timestamps self'))))%py.

Definition xhandle (ev : xevent) : M JCarbonExperimentCallback unit :=
  match ev with
  | XEpochBegin epoch now => x_on_epoch_begin epoch now
  | XBatchBegin batch now => x_on_train_batch_begin batch now
  | XBatchEnd batch now now' => x_on_train_batch_end batch now now'
  | XEpochEnd epoch => x_on_epoch_end epoch
  end.


(** *** The two chunking classes side by side *)

(** The Series of the first class holds the rows of the reports the second
    class has in its list. *)
Definition same_accumulation (lr1 : attr (option Series))
    (lr2 : attr (option (list Report))) : Prop :=
  match lr1, lr2 with
  | Unset, Unset => True
  | Value None, Value None => True
  | Value (Some s), Value (Some l) => l <> [] /\ s = concat (map to_dataframe l)
  | _, _ => False
  end.

Definition same_state (s1 : JCarbonChunkingCallback) (s2 : Chunking (list Report))
    : Prop :=
  base s1 = base s2
  /\ reports s1 = reports s2
  /\ chunking_period_sec s1 = chunking_period_sec s2
  /\ time s1 = time s2
  /\ same_accumulation (last_report s1) (last_report s2).

(** Two calls end the same way (both return, or both raise the same
    exception), in states that agree, with results related by [RA]. *)
Definition sim {A B} (RA : A -> B -> Prop)
    (r1 : result JCarbonChunkingCallback A) (r2 : result (Chunking (list Report)) B)
    : Prop :=
  match r1, r2 with
  | Returns a s1, Returns b s2 => RA a b /\ same_state s1 s2
  | Raises e1 s1, Raises e2 s2 => e1 = e2 /\ same_state s1 s2
  | _, _ => False
  end.

(** *** [JCarbonEpochCallback] *)

Definition in_rbase {R A} (m : M JCarbonCallback A) : M (Reporting R) A :=
  lift r_base set_r_base m.

Definition e_on_epoch_begin (epoch : Z) (logs : option Logs)
    : M (Reporting Series) unit :=
  in_rbase start_jcarbon.

Definition e_on_epoch_end (epoch : Z) (logs : option Logs)
    : M (Reporting Series) (option Logs) :=
  (r <- in_rbase stop_jcarbon ;;
   self <- get ;;
   modify (set_r_reports (<[epoch := to_dataframe r]> (r_reports self))) ;;
   df <- getitem r_reports epoch ;;
   add_jcarbon_log df logs)%py.

(** The class defines no handler for the batch events. *)
Definition ehandle (ev : revent) : M (Reporting Series) (option Logs) :=
  match ev with
  | REpochBegin epoch logs => (e_on_epoch_begin epoch logs ;; ret logs)%py
  | REpochEnd epoch logs => e_on_epoch_end epoch logs
  | RBatchBegin _ logs | RBatchEnd _ logs => ret logs
  end.

(** *** [JCarbonBatchCallback] *)

(** The parameter the source calls [epoch] receives the batch index. *)
Definition b_on_train_batch_begin (epoch : Z) (logs : option Logs)
    : M (Reporting (list Series)) unit :=
  (in_rbase start_jcarbon ;;
   self <- get ;;
   modify (set_r_reports (<[epoch := []]> (r_reports self))))%py.

(** In [self.reports[epoch].append(to_dataframe(self.stop_jcarbon()))] the
    list is looked up before the argument is evaluated. *)
Definition b_on_train_batch_end (epoch : Z) (logs : option Logs)
    : M (Reporting (list Series)) (option Logs) :=
  (l <- getitem r_reports epoch ;;
   r <- in_rbase stop_jcarbon ;;
   self <- get ;;
   modify (set_r_reports (<[epoch := l ++ [to_dataframe r]]> (r_reports self))) ;;
   l' <- getitem r_reports epoch ;;
   add_jcarbon_log_list l' logs)%py.

(** The class defines no handler for the epoch events. *)
Definition bhandle (ev : revent) : M (Reporting (list Series)) (option Logs) :=
  match ev with
  | RBatchBegin batch logs => (b_on_train_batch_begin batch logs ;; ret logs)%py
  | RBatchEnd batch logs => b_on_train_batch_end batch logs
  | REpochBegin _ logs | REpochEnd _ logs => ret logs
  end.

Fixpoint rrun {S} (h : revent -> M S (option Logs)) (evs : list revent)
    : M S (list (option Logs)) :=
  match evs with
  | [] => ret []
  | ev :: evs' => (l <- h ev ;; ls <- rrun h evs' ;; ret (l :: ls))%py
  end.

(** *** [JCarbonDumpingEpochCallback] *)

(** Whether a [dump] fails, given the calls made so far and the path. *)
Variable dump_fails : list entry -> string -> bool.

Definition in_dbase {A} (m : M JCarbonCallback A) : M JCarbonDumpingEpochCallback A :=
  lift d_base set_d_base m.

Definition client_dump (p : Z) (path : string) (sigs : list string)
    : M JCarbonDumpingEpochCallback unit :=
  fun self =>
    let h := client (d_base self) in
    let bad := dump_fails h path in
    let self' :=
      set_dumps (dumps self ++ [{| dump_after := length h; dump_pid := p;
                                   dump_path := path; dump_signals := sigs;
                                   dump_failed := bad |}]) self in
    if bad then Raises RpcError self' else Returns tt self'.

Definition d_on_epoch_begin (epoch : Z) : M JCarbonDumpingEpochCallback unit :=
  in_dbase start_jcarbon.

Definition d_on_epoch_end (epoch : Z) : M JCarbonDumpingEpochCallback unit :=
  (self <- get ;;
   in_dbase (invoke (Stop (pid (d_base self)))) ;;
   client_dump (pid (d_base self)) (report_path (output_path self) epoch)
     (signals (d_base self)))%py.

(** *** Windows *)

(** The reports the client has returned during the calls [new] made after
    the calls [h], in the order of the reads. *)
Fixpoint windows_read (h new : list entry) : list Report :=
  match new with
  | [] => []
  | e :: new' =>
      (if is_read e && negb (failed e) then [reads h] else [])
        ++ windows_read (h ++ [e]) new'
  end.

(** The accumulation of the first chunking class after the windows [ws],
    starting from [lr]. *)
Definition absorb_all (lr : option Series) (ws : list Report) : option Series :=
  fold_left (fun acc w => Some (merged acc (to_dataframe w))) ws lr.

(** *** [JCarbonNvmlCallback] *)

(** [jcarbon.nvml.sampler] is not part of this file: [sample] is what
    [NvmlSampler.sample()] does to the sampler, [samples] its [samples]
    attribute, and [create_report] the function of that name. *)
Variable Sampler : Type.
Variable Samples : Type.
Variable NvmlReport : Type.
Variable sample_nvml : Sampler -> Sampler.
Variable samples : Sampler -> Samples.
Variable create_report : Samples -> NvmlReport.

Definition n_on_epoch_begin (epoch : Z) (logs : option Logs)
    : M (Nvml Sampler NvmlReport) unit :=
  (modify (set_n_last_report (Value None)) ;;
   self <- get ;;
   modify (set_n_sampler (sample_nvml (n_sampler self))))%py.

Definition n_on_epoch_end (epoch : Z) (logs : option Logs)
    : M (Nvml Sampler NvmlReport) unit :=
  (self <- get ;;
   modify (set_n_sampler (sample_nvml (n_sampler self))) ;;
   lr <- read_attr n_last_report ;;
   self' <- get ;;
   let r := create_report (samples (n_sampler self')) in
   match lr with
   | None => modify (set_n_last_report (Value (Some [r])))
   | Some l => modify (set_n_last_report (Value (Some (l ++ [r]))))
   end)%py.

(** The class extends nothing and defines the two epoch handlers only:
    looking up [on_train_batch_begin] or [on_train_batch_end] on it raises
    [AttributeError]. *)
Definition nhandle (ev : revent) : M (Nvml Sampler NvmlReport) (option Logs) :=
  match ev with
  | REpochBegin epoch logs => (n_on_epoch_begin epoch logs ;; ret logs)%py
  | REpochEnd epoch logs => (n_on_epoch_end epoch logs ;; ret logs)%py
  | RBatchBegin _ _ | RBatchEnd _ _ => raise AttributeError
  end.

(** ** The digest *)

Lemma assoc_UNITS_JOULES : assoc UNITS "JOULES" = Some "J".
Proof. reflexivity. Qed.

Lemma log_group_returns {S} (m : Logs) (kg : key * Series) (s : S) :
  log_group m kg s = Returns (write_energy_sum m kg) s.
Proof.
  unfold log_group, write_energy_sum.
  destruct (String.eqb_spec (key_unit kg.1) "JOULES") as [Hu | Hu].
  - rewrite bool_decide_eq_true_2 by done.
    unfold bind, UNITS_getitem. rewrite Hu. reflexivity.
  - rewrite bool_decide_eq_false_2 by done. reflexivity.
Qed.

Lemma log_groups_returns {S} (gs : list (key * Series)) (m : Logs) (s : S) :
  log_groups m gs s = Returns (fold_left write_energy_sum gs m) s.
Proof.
  revert m. induction gs as [| kg gs IH]; intros m; simpl.
  - reflexivity.
  - unfold bind. rewrite log_group_returns. apply IH.
Qed.

Lemma add_jcarbon_log_digest {S} (df : Series) (logs : option Logs) (s : S) :
  add_jcarbon_log df logs s = Returns (digest df logs) s.
Proof.
  unfold add_jcarbon_log, digest. destruct logs as [m |]; [| reflexivity].
  destruct (truthy (Some m)); [| reflexivity].
  unfold bind. rewrite log_groups_returns. reflexivity.
Qed.


Lemma truthy_nonempty (m : Logs) : truthy (Some m) = true <-> m <> ∅.
Proof.
  unfold truthy. rewrite negb_true_iff, bool_decide_eq_false.
  rewrite map_size_empty_iff. reflexivity.
Qed.

Lemma digest_nonempty (df : Series) (m : Logs) :
  m <> ∅ -> digest df (Some m) = Some (fold_left write_energy_sum (groupby df) m).
Proof.
  intros Hm. unfold digest. apply truthy_nonempty in Hm. rewrite Hm. reflexivity.
Qed.

(** *** Summation *)

Lemma pairwise_sum_S (fuel : nat) (a : list float) :
  pairwise_sum (S fuel) a =
  if (length a <? 8)%nat then fold_left PrimFloat.add a neg_zero
  else if (length a <=? 128)%nat then eight_lane_sum a
  else
    let n2 := (length a / 2 - (length a / 2) mod 8)%nat in
    (pairwise_sum fuel (take n2 a) + pairwise_sum fuel (drop n2 a))%float.
Proof. reflexivity. Qed.

(** The fuel never runs out: any bound on the length gives the same sum. *)
Lemma pairwise_sum_fuel (f1 f2 : nat) (a : list float) :
  (length a <= f1)%nat -> (length a <= f2)%nat ->
  pairwise_sum f1 a = pairwise_sum f2 a.
Proof.
  revert f2 a. induction f1 as [| f1 IH]; intros f2 a H1 H2.
  - destruct a; [| simpl in H1; lia]. by destruct f2.
  - destruct f2 as [| f2].
    { destruct a; [reflexivity | simpl in H2; lia]. }
    rewrite !pairwise_sum_S. destruct (length a <? 8)%nat eqn:E8; [reflexivity |].
    destruct (length a <=? 128)%nat eqn:E128; [reflexivity |].
    apply Nat.leb_gt in E128. cbv zeta.
    assert (Hd : (64 <= length a / 2 < length a)%nat).
    { split; [apply Nat.div_le_lower_bound; lia | apply Nat.div_lt; lia]. }
    assert (Hm : ((length a / 2) mod 8 < 8)%nat) by (apply Nat.mod_upper_bound; lia).
    f_equal; apply IH; rewrite ?length_take, ?length_drop; lia.
Qed.

(** A reading that does not compare greater than zero (a negative one, a
    zero, a NaN) adds nothing to the sum of its group, wherever it stands. *)
Lemma positive_sum_skips (g1 g2 : Series) (r : Row) :
  PrimFloat.ltb 0%float (sample_value r) = false ->
  positive_sum (g1 ++ r :: g2) = positive_sum (g1 ++ g2).
Proof.
  intros Hr. unfold positive_sum. rewrite !List.filter_app. simpl.
  unfold is_positive at 2. rewrite Hr. reflexivity.
Qed.

(** *** Frames *)

Lemma to_epoch_frame_rows (s : Series) (epoch : Z) : (to_epoch_frame s epoch).*1 = s.
Proof. unfold to_epoch_frame. induction s as [| r s IH]; simpl; [reflexivity | f_equal; exact IH]. Qed.

Lemma to_epoch_frame_stamped (s : Series) (epoch : Z) :
  Forall (fun x => x.2 = epoch) (to_epoch_frame s epoch).
Proof. unfold to_epoch_frame. induction s as [| r s IH]; simpl; by constructor. Qed.

Lemma assign_epoch_rows (df : list BatchRow) (epoch : Z) : (assign_epoch df epoch).*1 = df.
Proof. unfold assign_epoch. induction df as [| r df IH]; simpl; [reflexivity | f_equal; exact IH]. Qed.

Lemma assign_epoch_stamped (df : list BatchRow) (epoch : Z) :
  Forall (fun x => x.2 = epoch) (assign_epoch df epoch).
Proof. unfold assign_epoch. induction df as [| r df IH]; simpl; by constructor. Qed.

(** *** Grouping *)

Lemma groupby_keys (df : Series) :
  (groupby df).*1 = merge_sort key_le (remove_dups (map key_of df)).
Proof.
  unfold groupby. rewrite <- list_fmap_compose.
  induction (merge_sort key_le (remove_dups (map key_of df))) as [| k ks IH];
    simpl; [reflexivity | f_equal; exact IH].
Qed.

Lemma elem_of_groupby (df : Series) (k : key) (g : Series) :
  (k, g) ∈ groupby df <->
  k ∈ map key_of df /\ g = filter (fun r => key_of r = k) df.
Proof.
  unfold groupby. rewrite list_elem_of_fmap. split.
  - intros (k' & Heq & Hin). inversion Heq; subst. split; [| reflexivity].
    rewrite merge_sort_Permutation in Hin. by apply elem_of_remove_dups.
  - intros [Hin ->]. exists k. split; [reflexivity |].
    rewrite merge_sort_Permutation. by apply elem_of_remove_dups.
Qed.

Lemma NoDup_groupby (df : Series) : NoDup (groupby df).*1.
Proof.
  rewrite groupby_keys, merge_sort_Permutation. apply NoDup_remove_dups.
Qed.

Lemma lex_opp (c1 c2 : comparison) :
  CompOpp (lex c1 c2) = lex (CompOpp c1) (CompOpp c2).
Proof. by destruct c1. Qed.

Lemma key_compare_antisym (k1 k2 : key) :
  key_compare k1 k2 = CompOpp (key_compare k2 k1).
Proof.
  destruct k1 as [[[a1 b1] c1] d1], k2 as [[[a2 b2] c2] d2]. simpl.
  rewrite !lex_opp.
  by rewrite <- !String.compare_antisym.
Qed.

Global Instance key_le_total : Total key_le.
Proof.
  intros k1 k2. unfold key_le. rewrite (key_compare_antisym k2 k1).
  destruct (key_compare k1 k2); simpl; [left | left | right]; congruence.
Qed.

(** The groups come in the order of their keys. *)
Lemma groupby_sorted (df : Series) : Sorted key_le (groupby df).*1.
Proof. rewrite groupby_keys. apply Sorted_merge_sort, _. Qed.

(** Every sample is in the group of its key, and in no other. *)
Lemma groupby_partition (df : Series) (r : Row) :
  r ∈ df ->
  exists g, (key_of r, g) ∈ groupby df /\ r ∈ g /\
    forall k' g', (k', g') ∈ groupby df -> r ∈ g' -> k' = key_of r.
Proof.
  intros Hr. exists (filter (fun r' => key_of r' = key_of r) df). split; [| split].
  - apply elem_of_groupby. split; [| reflexivity]. by apply list_elem_of_fmap_2.
  - by apply list_elem_of_filter.
  - intros k' g' Hg' Hin. apply elem_of_groupby in Hg' as [_ ->].
    apply list_elem_of_filter in Hin as [Hk _]. by symmetry.
Qed.

(** *** The keys of the digest *)

Lemma length_append (s t : string) :
  String.length (s +:+ t) = (String.length s + String.length t)%nat.
Proof. induction s as [| c s IH]; simpl; [reflexivity | by rewrite IH]. Qed.

Lemma append_suffix_inj (s1 s2 t : string) : s1 +:+ t = s2 +:+ t -> s1 = s2.
Proof.
  revert s2. induction s1 as [| c s1 IH]; intros [| c' s2] H;
    try (apply (f_equal String.length) in H; simpl in H;
         rewrite ?length_append in H; simpl in H; lia).
  - reflexivity.
  - simpl in H. inversion H; subst. f_equal. by apply IH.
Qed.

Lemma write_energy_sum_other (m : Logs) (kg : key * Series) (ct : string) :
  ~ (key_unit kg.1 = "JOULES" /\ key_type kg.1 = ct) ->
  write_energy_sum m kg !! (ct +:+ "-J") = m !! (ct +:+ "-J").
Proof.
  intros Hn. unfold write_energy_sum. case_bool_decide as Hu; [| reflexivity].
  apply lookup_insert_ne. intros Heq. apply append_suffix_inj in Heq. tauto.
Qed.

Lemma fold_write_energy_sum_other (gs : list (key * Series)) (m : Logs) (ct : string) :
  (forall kg, kg ∈ gs -> ~ (key_unit kg.1 = "JOULES" /\ key_type kg.1 = ct)) ->
  fold_left write_energy_sum gs m !! (ct +:+ "-J") = m !! (ct +:+ "-J").
Proof.
  revert m. induction gs as [| kg gs IH]; intros m Hgs; simpl; [reflexivity |].
  rewrite IH.
  - apply write_energy_sum_other, Hgs. left.
  - intros kg' Hin. apply Hgs. by right.
Qed.

(** The group that writes a key last decides the value logged under it. *)
Lemma fold_write_energy_sum_last (gs1 gs2 : list (key * Series)) (k : key)
    (g : Series) (m : Logs) :
  key_unit k = "JOULES" ->
  (forall kg, kg ∈ gs2 ->
     ~ (key_unit kg.1 = "JOULES" /\ key_type kg.1 = key_type k)) ->
  fold_left write_energy_sum (gs1 ++ (k, g) :: gs2) m !! (key_type k +:+ "-J")
  = Some (positive_sum g).
Proof.
  intros Hu Hlast. rewrite fold_left_app. simpl.
  rewrite fold_write_energy_sum_other by exact Hlast.
  unfold write_energy_sum. simpl. rewrite bool_decide_eq_true_2 by exact Hu.
  apply lookup_insert_eq.
Qed.


(** ** Runs and call logs *)

Lemma run_cons {S} (h : event -> M S (option Logs)) (ev : event) (evs : list event)
    (s : S) :
  run h (ev :: evs) s =
  match h ev s with
  | Returns l s1 =>
      match run h evs s1 with
      | Returns ls s2 => Returns (l :: ls) s2
      | Raises e s2 => Raises e s2
      end
  | Raises e s1 => Raises e s1
  end.
Proof.
  simpl. unfold bind. destruct (h ev s) as [l s1 | e s1]; [| reflexivity].
  destruct (run h evs s1); reflexivity.
Qed.

Lemma run_length {S} (h : event -> M S (option Logs)) (evs : list event) :
  forall (s s' : S) (outs : list (option Logs)),
    run h evs s = Returns outs s' -> length outs = length evs.
Proof.
  induction evs as [| ev evs IH]; intros s s' outs Hrun.
  - inversion Hrun. reflexivity.
  - rewrite run_cons in Hrun. destruct (h ev s) as [l s1 | e s1]; [| discriminate].
    destruct (run h evs s1) as [ls s2 | e s2] eqn:Hevs; [| discriminate].
    inversion Hrun; subst. simpl. f_equal. eapply IH. exact Hevs.
Qed.

Lemma run_app {S} (h : event -> M S (option Logs)) (evs1 evs2 : list event) (s : S) :
  run h (evs1 ++ evs2) s =
  match run h evs1 s with
  | Returns o1 s1 =>
      match run h evs2 s1 with
      | Returns o2 s2 => Returns (o1 ++ o2) s2
      | Raises e s2 => Raises e s2
      end
  | Raises e s1 => Raises e s1
  end.
Proof.
  revert s. induction evs1 as [| ev evs1 IH]; intros s; simpl.
  - destruct (run h evs2 s); reflexivity.
  - unfold bind. destruct (h ev s) as [l s1 | e s1]; [| reflexivity].
    rewrite IH. destruct (run h evs1 s1) as [o1 s2 | e s2]; [| reflexivity].
    unfold ret. destruct (run h evs2 s2); reflexivity.
Qed.

Lemma count_app (p : entry -> bool) (h1 h2 : list entry) :
  count p (h1 ++ h2) = (count p h1 + count p h2)%nat.
Proof. unfold count. rewrite List.filter_app. apply length_app. Qed.

Lemma count_chunks (p : entry -> bool) (blk : list entry) (n : nat) :
  count p (concat (replicate n blk)) = (n * count p blk)%nat.
Proof.
  induction n as [| n IH]; simpl; [reflexivity |].
  rewrite count_app, IH. reflexivity.
Qed.

Lemma session_open_app (h d : list entry) :
  session_open (h ++ d) = fold_left session_step d (session_open h).
Proof. unfold session_open. apply fold_left_app. Qed.

Lemma session_closed_after (b : JCarbonCallback) (open : bool) (d : list entry) :
  fold_left session_step (d ++ closing b) open = false.
Proof. rewrite fold_left_app. reflexivity. Qed.

Lemma alternates_chunks (b : JCarbonCallback) (n : nat) (d : list entry) :
  alternates true (concat (replicate n (closing b ++ opening b)) ++ d)
  = alternates true d.
Proof. induction n as [| n IH]; simpl; [reflexivity | exact IH]. Qed.

Lemma alternates_epoch_calls (b : JCarbonCallback) (n : nat) :
  alternates false (epoch_calls b n) = true.
Proof.
  unfold epoch_calls.
  change (alternates false (opening b ++ ?d)) with (alternates true d).
  rewrite alternates_chunks. reflexivity.
Qed.

Lemma count_epoch_calls (b : JCarbonCallback) (n : nat) :
  count is_start (epoch_calls b n) = S n
  /\ count is_stop (epoch_calls b n) = S n
  /\ count is_purge (epoch_calls b n) = S n.
Proof.
  unfold epoch_calls. rewrite !count_app, !count_chunks.
  unfold count; simpl. repeat split; lia.
Qed.

(** ** A purge before every start, whatever the backend does *)

Lemma purged_from_mono (d : list entry) :
  purged_from false d = true -> forall b, purged_from b d = true.
Proof.
  destruct d as [| e d]; intros H b; [reflexivity |]. simpl in *.
  apply andb_true_iff in H as [He Hd]. rewrite Hd, andb_true_r.
  destruct (is_start e); [discriminate | reflexivity].
Qed.

Lemma purged_from_app (d1 d2 : list entry) (b : bool) :
  purged_from b d1 = true -> purged_from false d2 = true ->
  purged_from b (d1 ++ d2) = true.
Proof.
  revert b. induction d1 as [| e d1 IH]; intros b H1 H2; simpl in *.
  - by apply purged_from_mono.
  - apply andb_true_iff in H1 as [He Hd]. rewrite He. simpl. by apply IH.
Qed.

Section Purged.

Context {S : Type} (log : S -> list entry).

Lemma purged_ret {A} (a : A) : adds_purged_starts log (ret a).
Proof. intros s. exists []. by rewrite app_nil_r. Qed.

Lemma purged_raise {A} (e : exn) : adds_purged_starts log (raise (A:=A) e).
Proof. intros s. exists []. by rewrite app_nil_r. Qed.

Lemma purged_get : adds_purged_starts log get.
Proof. intros s. exists []. by rewrite app_nil_r. Qed.

Lemma purged_read_attr {A} (field : S -> attr A) :
  adds_purged_starts log (read_attr field).
Proof.
  intros s. exists []. unfold read_attr. rewrite app_nil_r.
  by destruct (field s).
Qed.

Lemma purged_modify (f : S -> S) :
  (forall s, log (f s) = log s) -> adds_purged_starts log (modify f).
Proof. intros Hf s. exists []. simpl. by rewrite app_nil_r, Hf. Qed.

Lemma purged_bind {A B} (m : M S A) (k : A -> M S B) :
  adds_purged_starts log m -> (forall a, adds_purged_starts log (k a)) ->
  adds_purged_starts log (bind m k).
Proof.
  intros Hm Hk s. destruct (Hm s) as (d1 & Hd1 & Hp1). unfold bind.
  destruct (m s) as [a s1 | e s1]; simpl in Hd1.
  - destruct (Hk a s1) as (d2 & Hd2 & Hp2). exists (d1 ++ d2).
    rewrite Hd2, Hd1, app_assoc. split; [reflexivity |].
    by apply purged_from_app.
  - exists d1. by split.
Qed.

Lemma purged_lift {T A} (proj : S -> T) (upd : T -> S -> S) (log' : T -> list entry)
    (m : M T A) :
  (forall s, log s = log' (proj s)) ->
  (forall t s, log (upd t s) = log' t) ->
  adds_purged_starts log' m -> adds_purged_starts log (lift proj upd m).
Proof.
  intros Hproj Hupd Hm s. destruct (Hm (proj s)) as (d & Hd & Hp).
  exists d. split; [| exact Hp]. unfold lift.
  destruct (m (proj s)) as [a t | e t]; simpl in *; by rewrite Hupd, Hproj.
Qed.

Lemma purged_pd_concat {R} (objs : list (list R)) :
  adds_purged_starts log (pd_concat objs).
Proof. destruct objs; [apply purged_raise | apply purged_ret]. Qed.

Lemma purged_add_jcarbon_log (df : Series) (logs : option Logs) :
  adds_purged_starts log (add_jcarbon_log df logs).
Proof.
  intros s. exists []. rewrite add_jcarbon_log_digest. by rewrite app_nil_r.
Qed.

Lemma purged_run (h : event -> M S (option Logs)) (evs : list event) :
  (forall ev, adds_purged_starts log (h ev)) -> adds_purged_starts log (run h evs).
Proof.
  intros Hh. induction evs as [| ev evs IH]; simpl.
  - apply purged_ret.
  - apply purged_bind; [apply Hh |]. intros l.
    apply purged_bind; [exact IH |]. intros ls. apply purged_ret.
Qed.

End Purged.

Lemma purged_invoke (c : call) :
  (forall p q, c <> Start p q) -> adds_purged_starts client (invoke c).
Proof.
  intros Hc self. exists [{| issued := c; failed := fails (client self) c |}].
  split.
  - unfold invoke. by destruct (fails (client self) c).
  - destruct c; try reflexivity. by destruct (Hc pid0 period_ms0).
Qed.

Lemma purged_start_jcarbon : adds_purged_starts client start_jcarbon.
Proof.
  intros self. unfold start_jcarbon, bind, invoke, get. simpl.
  destruct (fails (client self) Purge) eqn:Hp; simpl.
  - by exists [ko Purge].
  - set (c := Start _ _).
    exists [ok Purge; {| issued := c; failed := fails (client self ++ [ok Purge]) c |}].
    split; [| reflexivity].
    unfold ok. destruct (fails _ c); simpl; by rewrite <- app_assoc.
Qed.

Lemma purged_stop_jcarbon : adds_purged_starts client stop_jcarbon.
Proof.
  unfold stop_jcarbon, client_read.
  apply purged_bind; [apply purged_get |]. intros self.
  apply purged_bind; [by apply purged_invoke |]. intros _.
  apply purged_bind; [apply purged_get |]. intros self'.
  apply purged_bind; [by apply purged_invoke |]. intros _. apply purged_ret.
Qed.

Lemma purged_in_base {L A} (m : M JCarbonCallback A) :
  adds_purged_starts client m ->
  adds_purged_starts (fun s : Chunking L => client (base s)) (in_base m).
Proof. intros Hm. by apply (purged_lift _ base set_base client). Qed.

Lemma purged_handle (ev : event) :
  adds_purged_starts (fun s : JCarbonChunkingCallback => client (base s)) (handle ev).
Proof.
  assert (Habs : adds_purged_starts
                   (fun s : JCarbonChunkingCallback => client (base s)) absorb_report).
  { unfold absorb_report.
    apply purged_bind; [apply purged_read_attr |]. intros lr.
    apply purged_bind.
    - destruct lr as [acc |];
        (apply purged_bind; [apply purged_in_base, purged_stop_jcarbon |]);
        intros r; [apply purged_pd_concat | apply purged_ret].
    - intros s. apply purged_bind; [by apply purged_modify |].
      intros _. apply purged_ret. }
  destruct ev as [epoch now logs | batch now logs | epoch logs]; simpl.
  - apply purged_bind; [| intros; apply purged_ret]. unfold on_epoch_begin.
    apply purged_bind; [by apply purged_modify |]. intros _.
    apply purged_bind; [by apply purged_modify |]. intros _.
    apply purged_in_base, purged_start_jcarbon.
  - unfold on_train_batch_end.
    apply purged_bind; [apply purged_read_attr |]. intros t.
    apply purged_bind; [apply purged_get |]. intros self.
    destruct (chunk_elapsed now t (chunking_period_sec self)); [| apply purged_ret].
    apply purged_bind; [by apply purged_modify |]. intros _.
    apply purged_bind; [exact Habs |]. intros s.
    apply purged_bind; [apply purged_add_jcarbon_log |]. intros logs'.
    apply purged_bind; [apply purged_in_base, purged_start_jcarbon |].
    intros _. apply purged_ret.
  - unfold on_epoch_end.
    apply purged_bind; [exact Habs |]. intros s.
    apply purged_bind; [apply purged_add_jcarbon_log |]. intros logs'.
    apply purged_bind; [apply purged_get |]. intros self.
    apply purged_bind; [by apply purged_modify |]. intros _. apply purged_ret.
Qed.

(** ** Eager concatenation and list accumulation *)

Lemma sim_bind {A B A' B'} (RA : A -> B -> Prop) (RB : A' -> B' -> Prop)
    (m1 : M JCarbonChunkingCallback A) (m2 : M (Chunking (list Report)) B)
    (k1 : A -> M JCarbonChunkingCallback A') (k2 : B -> M (Chunking (list Report)) B')
    (s1 : JCarbonChunkingCallback) (s2 : Chunking (list Report)) :
  sim RA (m1 s1) (m2 s2) ->
  (forall a b s1' s2', RA a b -> same_state s1' s2' -> sim RB (k1 a s1') (k2 b s2')) ->
  sim RB (bind m1 k1 s1) (bind m2 k2 s2).
Proof.
  intros Hm Hk. unfold bind.
  destruct (m1 s1) as [a t1 | e1 t1], (m2 s2) as [b t2 | e2 t2]; simpl in Hm;
    try contradiction.
  - destruct Hm as [Hab Hs]. by apply Hk.
  - exact Hm.
Qed.

Lemma sim_in_base {A} (m : M JCarbonCallback A) (s1 : JCarbonChunkingCallback)
    (s2 : Chunking (list Report)) :
  same_state s1 s2 -> sim eq (in_base m s1) (in_base m s2).
Proof.
  intros (Hb & Hr & Hp & Ht & Hl). unfold in_base, lift. rewrite Hb.
  destruct (m (base s2)) as [a b' | e b']; simpl; (split; [reflexivity |]);
    repeat split; assumption.
Qed.

Lemma sim_read_time (s1 : JCarbonChunkingCallback) (s2 : Chunking (list Report)) :
  same_state s1 s2 -> sim eq (read_attr time s1) (read_attr time s2).
Proof.
  intros Hs. pose proof Hs as (Hb & Hr & Hp & Ht & Hl). unfold read_attr.
  rewrite Ht. destruct (time s2); simpl; by split.
Qed.

Lemma sim_get (s1 : JCarbonChunkingCallback) (s2 : Chunking (list Report)) :
  same_state s1 s2 -> sim same_state (get s1) (get s2).
Proof. intros Hs. simpl. by split. Qed.

Lemma sim_set_time (t : attr float) (s1 : JCarbonChunkingCallback)
    (s2 : Chunking (list Report)) :
  same_state s1 s2 ->
  sim eq (modify (set_time t) s1) (modify (set_time t) s2).
Proof.
  intros (Hb & Hr & Hp & Ht & Hl). simpl. split; [reflexivity |].
  repeat split; assumption.
Qed.

Lemma pd_concat_nonempty {S R} (objs : list (list R)) (s : S) :
  objs <> [] -> pd_concat objs s = Returns (concat objs) s.
Proof. destruct objs; [congruence | reflexivity]. Qed.

Lemma absorb_report_eq (s : JCarbonChunkingCallback) :
  absorb_report s =
  match last_report s with
  | Unset => Raises AttributeError s
  | Value lr =>
      match in_base stop_jcarbon s with
      | Returns r t =>
          let x := merged lr (to_dataframe r) in
          Returns x (set_last_report (Value (Some x)) t)
      | Raises e t => Raises e t
      end
  end.
Proof.
  unfold absorb_report, bind, read_attr.
  destruct (last_report s) as [| [acc |]]; try reflexivity; cbv beta;
    destruct (in_base stop_jcarbon s); simpl; rewrite ?app_nil_r; reflexivity.
Qed.

Lemma absorb_report2_eq (s : Chunking (list Report)) :
  absorb_report2 s =
  match last_report s with
  | Unset => Raises AttributeError s
  | Value lr =>
      match in_base stop_jcarbon s with
      | Returns r t =>
          let l := match lr with None => [r] | Some acc => acc ++ [r] end in
          Returns l (set_last_report (Value (Some l)) t)
      | Raises e t => Raises e t
      end
  end.
Proof.
  unfold absorb_report2, bind, read_attr.
  destruct (last_report s) as [| [acc |]]; try reflexivity; cbv beta;
    destruct (in_base stop_jcarbon s); reflexivity.
Qed.

(** After one more window the Series is still the concatenation of the
    list. *)
Lemma sim_absorb (s1 : JCarbonChunkingCallback) (s2 : Chunking (list Report)) :
  same_state s1 s2 ->
  sim (fun s l => l <> [] /\ s = concat (map to_dataframe l))
      (absorb_report s1) (absorb_report2 s2).
Proof.
  intros Hs. pose proof Hs as (Hb & Hr & Hp & Ht & Hl).
  rewrite absorb_report_eq, absorb_report2_eq.
  pose proof (sim_in_base stop_jcarbon s1 s2 Hs) as Hstop.
  destruct (last_report s1) as [| lr1], (last_report s2) as [| lr2];
    simpl in Hl; try contradiction; try (by destruct lr1); [by split |].
  destruct (in_base stop_jcarbon s1) as [r t1 | e t1],
           (in_base stop_jcarbon s2) as [r' t2 | e' t2];
    simpl in Hstop; try contradiction; [| exact Hstop].
  destruct Hstop as [<- (Hb' & Hr' & Hp' & Ht' & Hl')].
  assert (Hnew : match lr2 with None => [r] | Some acc => acc ++ [r] end <> []
                 /\ merged lr1 (to_dataframe r)
                    = concat (map to_dataframe
                                match lr2 with None => [r] | Some acc => acc ++ [r] end)).
  { destruct lr1 as [acc |], lr2 as [l |]; try contradiction; simpl.
    - destruct Hl as [Hne ->]. split; [by destruct l |].
      rewrite map_app, concat_app. simpl. by rewrite app_nil_r.
    - split; [done | by rewrite app_nil_r]. }
  simpl. split; [exact Hnew |]. repeat split; assumption || apply Hnew.
Qed.

Lemma sim_handle (ev : event) (s1 : JCarbonChunkingCallback)
    (s2 : Chunking (list Report)) :
  same_state s1 s2 ->
  sim (fun _ l2 => l2 = match ev with
                        | EpochBegin _ _ l | TrainBatchEnd _ _ l | EpochEnd _ l => l
                        end)
      (handle ev s1) (handle2 ev s2).
Proof.
  intros Hs. destruct ev as [epoch now logs | batch now logs | epoch logs]; simpl.
  - eapply (sim_bind eq).
    + unfold on_epoch_begin.
      eapply (sim_bind eq); [by apply sim_set_time |]. intros _ _ t1 t2 _ Ht.
      eapply (sim_bind eq).
      * destruct Ht as (Hb & Hr & Hp & Ht & Hl). simpl.
        split; [reflexivity |]. repeat split; assumption.
      * intros _ _ u1 u2 _ Hu. by apply sim_in_base.
    + intros _ _ t1 t2 _ Ht. simpl. by split.
  - unfold on_train_batch_end, on_train_batch_end2.
    eapply (sim_bind eq); [by apply sim_read_time |]. intros t ? t1 t2 <- Ht.
    eapply (sim_bind same_state); [by apply sim_get |].
    intros self1 self2 u1 u2 (_ & _ & Hp & _) Hu. rewrite Hp.
    destruct (chunk_elapsed now t (chunking_period_sec self2)); [| simpl; by split].
    eapply (sim_bind eq); [by apply sim_set_time |]. intros _ _ v1 v2 _ Hv.
    eapply sim_bind; [by apply sim_absorb |]. intros s l w1 w2 _ Hw.
    unfold bind at 1. rewrite add_jcarbon_log_digest.
    eapply (sim_bind eq); [by apply sim_in_base |]. intros _ _ x1 x2 _ Hx.
    simpl. by split.
  - unfold on_epoch_end, on_epoch_end2.
    eapply sim_bind; [by apply sim_absorb |]. intros s l w1 w2 [Hne ->] Hw.
    unfold bind. rewrite add_jcarbon_log_digest.
    rewrite pd_concat_nonempty by (by destruct l).
    destruct Hw as (Hb & Hr & Hp & Ht & Hl). simpl.
    split; [reflexivity |]. repeat split; try assumption. simpl. by rewrite Hr.
Qed.

(** ** One session after the other: a backend that does not fail *)

Section Reliable.

Hypothesis Hrel : reliable.

Lemma invoke_reliable (c : call) (self : JCarbonCallback) :
  invoke c self = Returns tt (set_client (client self ++ [ok c]) self).
Proof. unfold invoke. rewrite Hrel. reflexivity. Qed.

Lemma start_jcarbon_reliable (self : JCarbonCallback) :
  start_jcarbon self = Returns tt (set_client (client self ++ opening self) self).
Proof.
  unfold start_jcarbon, bind, get. rewrite invoke_reliable. simpl.
  rewrite invoke_reliable. simpl. rewrite <- app_assoc. reflexivity.
Qed.

Lemma stop_jcarbon_reliable (self : JCarbonCallback) :
  stop_jcarbon self =
  Returns (reads (client self ++ [ok (Stop (pid self))]))
          (set_client (client self ++ closing self) self).
Proof.
  unfold stop_jcarbon, client_read, bind, get. rewrite invoke_reliable. simpl.
  rewrite invoke_reliable. simpl. rewrite <- app_assoc. reflexivity.
Qed.

Lemma on_epoch_begin_reliable {L} (epoch : Z) (now : float) (logs : option Logs)
    (self : Chunking L) :
  on_epoch_begin epoch now logs self =
  Returns tt (after_calls (opening (base self))
                (set_last_report (Value None) (set_time (Value now) self))).
Proof.
  unfold on_epoch_begin, bind, modify, in_base, lift. simpl.
  rewrite start_jcarbon_reliable. reflexivity.
Qed.

Lemma absorb_report_reliable (self : JCarbonChunkingCallback) (lr : option Series) :
  last_report self = Value lr ->
  let s := merged lr (to_dataframe (reads (client (base self)
                                             ++ [ok (Stop (pid (base self)))]))) in
  absorb_report self =
  Returns s (set_last_report (Value (Some s)) (after_calls (closing (base self)) self)).
Proof.
  intros Hlr s. unfold absorb_report, bind, read_attr. rewrite Hlr.
  unfold in_base, lift. destruct lr as [acc |];
    rewrite stop_jcarbon_reliable; simpl; [| reflexivity].
  subst s. simpl. rewrite app_nil_r. reflexivity.
Qed.


Lemma on_train_batch_end_idle (batch : Z) (curr last : float) (logs : option Logs)
    (self : JCarbonChunkingCallback) :
  time self = Value last ->
  chunk_elapsed curr last (chunking_period_sec self) = false ->
  on_train_batch_end batch curr logs self = Returns logs self.
Proof.
  intros Ht Hc. unfold on_train_batch_end, bind, read_attr, get.
  rewrite Ht, Hc. reflexivity.
Qed.

Lemma on_train_batch_end_fires (batch : Z) (curr last : float) (logs : option Logs)
    (self : JCarbonChunkingCallback) (lr : option Series) :
  time self = Value last ->
  last_report self = Value lr ->
  chunk_elapsed curr last (chunking_period_sec self) = true ->
  let s := merged lr (to_dataframe (reads (client (base self)
                                             ++ [ok (Stop (pid (base self)))]))) in
  on_train_batch_end batch curr logs self =
  Returns (digest s logs)
    (after_calls (closing (base self) ++ opening (base self))
       (set_last_report (Value (Some s)) (set_time (Value curr) self))).
Proof.
  intros Ht Hlr Hc s. unfold on_train_batch_end, bind, read_attr, get.
  rewrite Ht, Hc. unfold modify.
  rewrite (absorb_report_reliable (set_time (Value curr) self) lr Hlr). simpl.
  rewrite add_jcarbon_log_digest. unfold in_base, lift.
  rewrite start_jcarbon_reliable. simpl.
  unfold after_calls, set_base, set_last_report, set_time, set_client. simpl.
  rewrite <- app_assoc. reflexivity.
Qed.

Lemma on_epoch_end_reliable (epoch : Z) (logs : option Logs)
    (self : JCarbonChunkingCallback) (lr : option Series) :
  last_report self = Value lr ->
  let s := merged lr (to_dataframe (reads (client (base self)
                                             ++ [ok (Stop (pid (base self)))]))) in
  on_epoch_end epoch logs self =
  Returns (digest s logs)
    (set_reports (<[epoch := to_epoch_frame s epoch]> (reports self))
       (set_last_report (Value (Some s)) (after_calls (closing (base self)) self))).
Proof.
  intros Hlr s. unfold on_epoch_end, bind.
  rewrite (absorb_report_reliable self lr Hlr). simpl.
  rewrite add_jcarbon_log_digest. reflexivity.
Qed.

(** The batches of an epoch: one stop and one start per boundary crossed,
    and nothing else. *)
Lemma run_batches (batches : list (Z * float * option Logs)) :
  forall (self : JCarbonChunkingCallback) (last : float) (lr : option Series),
    time self = Value last ->
    last_report self = Value lr ->
    exists outs self' last' lr',
      run handle (batch_events batches) self = Returns outs self'
      /\ base self' =
         set_client
           (client (base self)
            ++ concat (replicate
                         (crossings (chunking_period_sec self) last (batch_times batches))
                         (closing (base self) ++ opening (base self))))
           (base self)
      /\ reports self' = reports self
      /\ chunking_period_sec self' = chunking_period_sec self
      /\ time self' = Value last'
      /\ last_report self' = Value lr'.
Proof.
  induction batches as [| [[b t] l] batches IH]; intros self last lr Ht Hlr.
  - exists [], self, last, lr. simpl. rewrite app_nil_r.
    destruct self as [[] ? ? ? ?]; simpl in *. repeat split; done.
  - simpl. unfold bind.
    destruct (chunk_elapsed t last (chunking_period_sec self)) eqn:Hc.
    + rewrite (on_train_batch_end_fires b t last l self lr Ht Hlr Hc).
      set (s := merged lr _).
      set (self1 := after_calls _ _).
      destruct (IH self1 t (Some s) eq_refl eq_refl)
        as (outs & self' & last' & lr' & Hrun & Hb & Hr & Hp & Ht' & Hlr').
      fold (batch_events batches). rewrite Hrun.
      exists (digest s l :: outs), self', last', lr'.
      repeat split; try done.
      rewrite Hb. subst self1. simpl.
      unfold set_client; simpl. f_equal.
      rewrite <- !app_assoc. reflexivity.
    + rewrite (on_train_batch_end_idle b t last l self Ht Hc).
      destruct (IH self last lr Ht Hlr)
        as (outs & self' & last' & lr' & Hrun & Hb & Hr & Hp & Ht' & Hlr').
      fold (batch_events batches). rewrite Hrun.
      exists (l :: outs), self', last', lr'. repeat split; done.
Qed.


(** A whole epoch. *)
Lemma run_epoch (self : JCarbonChunkingCallback) (epoch : Z) (t0 : float)
    (logs0 : option Logs) (batches : list (Z * float * option Logs))
    (logs1 : option Logs) :
  exists outs self' s,
    run handle (epoch_events epoch t0 logs0 batches logs1) self = Returns outs self'
    /\ length outs = S (S (length batches))
    /\ base self' =
       set_client
         (client (base self)
          ++ epoch_calls (base self)
               (crossings (chunking_period_sec self) t0 (batch_times batches)))
         (base self)
    /\ reports self' = <[epoch := to_epoch_frame s epoch]> (reports self)
    /\ chunking_period_sec self' = chunking_period_sec self
    /\ last_report self' = Value (Some s).
Proof.
  unfold epoch_events. rewrite run_cons.
  change (handle (EpochBegin epoch t0 logs0) self)
    with (bind (on_epoch_begin epoch t0 logs0) (fun _ => ret logs0) self).
  unfold bind at 1. rewrite on_epoch_begin_reliable. unfold ret at 1.
  set (self0 := after_calls _ _).
  fold (batch_events batches). rewrite run_app.
  destruct (run_batches batches self0 t0 None eq_refl eq_refl)
    as (outs & self1 & last' & lr' & Hrun & Hb & Hr & Hp & Ht' & Hlr').
  rewrite Hrun. rewrite run_cons.
  change (handle (EpochEnd epoch logs1) self1) with (on_epoch_end epoch logs1 self1).
  rewrite (on_epoch_end_reliable epoch logs1 self1 lr' Hlr').
  set (s := merged lr' _). simpl run. unfold ret.
  eexists _, _, s. split; [reflexivity |].
  apply run_length in Hrun. unfold batch_events in Hrun. rewrite length_map in Hrun.
  repeat split.
  - simpl. rewrite length_app. simpl. lia.
  - simpl. rewrite Hb. subst self0. unfold epoch_calls, set_client. simpl. f_equal.
    rewrite <- !app_assoc. reflexivity.
  - simpl. rewrite Hr. reflexivity.
  - simpl. rewrite Hp. reflexivity.
Qed.


Lemma crossings_flags (period last : float) (ts : list float) :
  crossings period last ts = length (List.filter id (boundary_flags period last ts)).
Proof.
  revert last. induction ts as [| t ts IH]; intros last; simpl; [reflexivity |].
  destruct (chunk_elapsed t last period); simpl; by rewrite IH.
Qed.

(** The handler of a batch end calls the backend exactly at the crossings. *)
Lemma firings_batches (batches : list (Z * float * option Logs)) :
  forall (self : JCarbonChunkingCallback) (last : float) (lr : option Series),
    time self = Value last ->
    last_report self = Value lr ->
    firings (fun s => client (base s)) handle (batch_events batches) self
    = boundary_flags (chunking_period_sec self) last (batch_times batches).
Proof.
  induction batches as [| [[b t] l] batches IH]; intros self last lr Ht Hlr;
    [reflexivity |].
  simpl. destruct (chunk_elapsed t last (chunking_period_sec self)) eqn:Hc.
  - rewrite (on_train_batch_end_fires b t last l self lr Ht Hlr Hc). simpl.
    f_equal.
    + rewrite length_app. simpl.
      apply negb_true_iff, Nat.eqb_neq. lia.
    + fold (batch_events batches). fold (batch_times batches).
      erewrite IH; [reflexivity | reflexivity | reflexivity].
  - rewrite (on_train_batch_end_idle b t last l self Ht Hc). simpl.
    f_equal.
    + apply negb_false_iff, Nat.eqb_refl.
    + fold (batch_events batches). fold (batch_times batches).
      erewrite IH; [reflexivity | exact Ht | exact Hlr].
Qed.

(** C1. In an epoch handled by [JCarbonChunkingCallback] (epoch begin,
    any number of batch ends, epoch end) the backend receives as many
    [start] calls as [stop] calls, namely one more than the number of batch
    ends at which the chunk boundary was crossed; starts and stops
    alternate, so every start is matched by a stop of the same epoch, and
    no session is open when [on_epoch_end] returns. *)
Theorem chunking_epoch_start_stop_pairs (self : JCarbonChunkingCallback)
    (epoch : Z) (t0 : float) (logs0 : option Logs)
    (batches : list (Z * float * option Logs)) (logs1 : option Logs) :
  exists outs self' new,
    run handle (epoch_events epoch t0 logs0 batches logs1) self = Returns outs self'
    /\ client (base self') = client (base self) ++ new
    /\ count is_start new
       = S (crossings (chunking_period_sec self) t0 (batch_times batches))
    /\ count is_stop new = count is_start new
    /\ alternates false new = true
    /\ session_open (client (base self')) = false.
Proof.
  destruct (run_epoch self epoch t0 logs0 batches logs1)
    as (outs & self' & s & Hrun & _ & Hb & _).
  set (n := crossings _ _ _) in *.
  exists outs, self', (epoch_calls (base self) n).
  destruct (count_epoch_calls (base self) n) as (Hs & Hp & _).
  split; [exact Hrun |]. rewrite Hb. simpl.
  repeat split.
  - exact Hs.
  - by rewrite Hs, Hp.
  - apply alternates_epoch_calls.
  - rewrite session_open_app. unfold epoch_calls.
    rewrite app_assoc. apply session_closed_after.
Qed.

(** C6. An epoch without batches (epoch begin, then epoch end) returns
    after exactly one start and one stop, and stores under the epoch one
    report: the rows of the one window read, the window that was opened at
    the epoch begin, each row stamped with the epoch. No event of the epoch
    reaches [on_train_batch_end], the only place where the chunk boundary is
    tested, so the reference time is still the one of the epoch begin and
    the chunking period plays no part in the outcome. *)
Theorem zero_iteration_epoch (self : JCarbonChunkingCallback) (epoch : Z)
    (t0 : float) (logs0 logs1 : option Logs) :
  let b := base self in
  let window :=
    to_dataframe (reads (client b ++ opening b ++ [ok (Stop (pid b))])) in
  exists logs' frame,
    run handle (epoch_events epoch t0 logs0 [] logs1) self =
    Returns [logs0; logs']
      {| base := set_client (client b ++ opening b ++ closing b) b;
         reports := <[epoch := frame]> (reports self);
         chunking_period_sec := chunking_period_sec self;
         time := Value t0;
         last_report := Value (Some window) |}
    /\ frame.*1 = window
    /\ Forall (fun x => x.2 = epoch) frame
    /\ add_jcarbon_log window logs1 self = Returns logs' self
    /\ forallb (fun ev => negb (is_batch_end ev))
         (epoch_events epoch t0 logs0 [] logs1) = true
    /\ count is_start (opening b ++ closing b) = 1%nat
    /\ count is_stop (opening b ++ closing b) = 1%nat.
Proof.
  intros b window. exists (digest window logs1), (to_epoch_frame window epoch).
  split; [| split; [| split; [| split]]].
  - unfold epoch_events. simpl. unfold bind at 1. unfold bind at 1.
    rewrite on_epoch_begin_reliable. simpl. unfold bind.
    erewrite on_epoch_end_reliable by reflexivity. simpl.
    unfold ret. f_equal.
    + subst window b. simpl. rewrite <- app_assoc. reflexivity.
    + subst window b. unfold set_reports, set_last_report, after_calls, set_base,
        set_time, set_client. simpl. rewrite <- !app_assoc. reflexivity.
  - apply to_epoch_frame_rows.
  - apply to_epoch_frame_stamped.
  - apply add_jcarbon_log_digest.
  - by repeat split.
Qed.

(** C2. With a chunking period of 2 seconds and the reference time set
    at the epoch begin (clock 0), batch ends at clock 0.5, 1.0, 1.5, 2.1
    and 2.6 cross the chunk boundary exactly once: the handler calls the
    backend at the fourth of them (clock 2.1) and at no other. *)
Theorem chunk_boundary_fires_once (self : JCarbonChunkingCallback) (epoch : Z)
    (logs0 : option Logs) (batches : list (Z * float * option Logs)) :
  chunking_period_sec self = 2%float ->
  batch_times batches = [0.5; 1; 1.5; 2.1; 2.6]%float ->
  firings (fun s => client (base s)) handle (batch_events batches)
    (state_of (on_epoch_begin epoch 0%float logs0 self))
  = [false; false; false; true; false].
Proof.
  intros Hp Hts. rewrite on_epoch_begin_reliable. simpl state_of.
  erewrite firings_batches by reflexivity. simpl chunking_period_sec.
  rewrite Hp, Hts. vm_compute. reflexivity.
Qed.

End Reliable.


(** C10. Every [start] the chunking callback issues follows a [purge]
    that went through, whatever the events and whatever the backend answers:
    [start_jcarbon] is the only place a session is started, and it purges
    first. In a complete epoch there are therefore as many purges as starts,
    one for the epoch begin and one for each chunk boundary crossed, not a
    single purge before the first session. *)
Theorem purge_before_every_start (evs : list event) (self : JCarbonChunkingCallback) :
  purged_starts (client (base self)) = true ->
  purged_starts (client (base (state_of (run handle evs self)))) = true
  /\ (reliable ->
      forall epoch t0 logs0 batches logs1,
      exists outs self' new,
        run handle (epoch_events epoch t0 logs0 batches logs1) self = Returns outs self'
        /\ client (base self') = client (base self) ++ new
        /\ count is_purge new = count is_start new
        /\ count is_start new
           = S (crossings (chunking_period_sec self) t0 (batch_times batches))).
Proof.
  intros Hinit. split.
  - destruct (purged_run (fun s : JCarbonChunkingCallback => client (base s))
                handle evs purged_handle self) as (d & Hd & Hp).
    simpl in Hd. rewrite Hd. by apply purged_from_app.
  - intros Hrel epoch t0 logs0 batches logs1.
    destruct (run_epoch Hrel self epoch t0 logs0 batches logs1)
      as (outs & self' & s & Hrun & _ & Hb & _).
    set (n := crossings _ _ _) in *.
    exists outs, self', (epoch_calls (base self) n).
    destruct (count_epoch_calls (base self) n) as (Hs & _ & Hpu).
    rewrite Hb, Hs, Hpu. by repeat split.
Qed.

(** C3, as the code has it. Driven by the same events against the same
    backend from states that agree, [JCarbonChunkingCallback] and
    [JCarbonChunkingCallback2] end the same way (both return, or both raise
    the same exception), having made the same backend calls and holding the
    same [reports]; the second class hands every [logs] dictionary back as it
    received it, since it never computes the digest. *)
Theorem chunking_modes_same_reports (evs : list event)
    (s1 : JCarbonChunkingCallback) (s2 : Chunking (list Report)) :
  same_state s1 s2 ->
  sim (fun o1 o2 => o2 = events_logs evs /\ length o1 = length o2)
      (run handle evs s1) (run handle2 evs s2).
Proof.
  revert s1 s2. induction evs as [| ev evs IH]; intros s1 s2 Hs.
  - simpl. split; [by split | exact Hs].
  - simpl run. eapply sim_bind; [by apply sim_handle |].
    intros l1 l2 t1 t2 -> Ht.
    eapply sim_bind; [by apply IH |].
    intros o1 o2 u1 u2 [-> Hlen] Hu. simpl. split; [| exact Hu].
    split; [| by rewrite Hlen]. by destruct ev.
Qed.

Ltac after_failure :=
  repeat split; try assumption;
  try (rewrite session_open_app; reflexivity).

(** C9, as the code has it. When the handler of a batch end crosses the
    chunk boundary and raises, the exception comes from the backend and
    [self.time] already holds the current clock. If it was [stop] that
    failed, the accumulation and the session are as before the event; if it
    was [read], the accumulation is as before but the session has been
    stopped; if it was [purge] or [start], the window read has already been
    added to the accumulation and no session is open. *)
Theorem boundary_failure_state (batch : Z) (curr last : float) (logs : option Logs)
    (self self' : JCarbonChunkingCallback) (lr : option Series) (e : exn) :
  time self = Value last ->
  last_report self = Value lr ->
  chunk_elapsed curr last (chunking_period_sec self) = true ->
  on_train_batch_end batch curr logs self = Raises e self' ->
  let b := base self in
  let stop := Stop (pid b) in
  let read := Read (pid b) (signals b) in
  let start := Start (pid b) (period_ms b) in
  e = RpcError /\ time self' = Value curr /\ reports self' = reports self
  /\ ((client (base self') = client b ++ [ko stop]
       /\ last_report self' = Value lr
       /\ session_open (client (base self')) = session_open (client b))
      \/ (client (base self') = client b ++ [ok stop; ko read]
          /\ last_report self' = Value lr
          /\ session_open (client (base self')) = false)
      \/ (exists tail,
            (tail = [ko Purge] \/ tail = [ok Purge; ko start])
            /\ client (base self') = client b ++ [ok stop; ok read] ++ tail
            /\ last_report self'
               = Value (Some (merged lr (to_dataframe (reads (client b ++ [ok stop])))))
            /\ session_open (client (base self')) = false)).
Proof.
  intros Ht Hlr Hc H b stop read start.
  unfold on_train_batch_end, bind, read_attr, get in H. rewrite Ht, Hc in H.
  unfold modify in H. rewrite absorb_report_eq in H. simpl in H. rewrite Hlr in H.
  unfold in_base, lift, stop_jcarbon, client_read, start_jcarbon, bind, get, invoke
    in H.
  simpl in H. fold b in H. fold stop in H.
  destruct (fails (client b) stop) eqn:F1; simpl in H.
  { inversion H; subst e self'. simpl. repeat split. left. after_failure. }
  fold read in H.
  destruct (fails (client b ++ [{| issued := stop; failed := false |}]) read) eqn:F2;
    simpl in H.
  { inversion H; subst e self'. simpl. repeat split. right. left.
    rewrite <- app_assoc. after_failure. }
  rewrite add_jcarbon_log_digest in H. simpl in H.
  destruct (fails _ Purge) eqn:F3; simpl in H.
  { inversion H; subst e self'. simpl. repeat split. right. right.
    exists [ko Purge]. rewrite <- !app_assoc. split; [by left |]. after_failure. }
  fold start in H.
  destruct (fails _ start) eqn:F4; simpl in H; [| discriminate].
  inversion H; subst e self'. simpl. repeat split. right. right.
  exists [ok Purge; ko start]. rewrite <- !app_assoc. split; [by right |].
  after_failure.
Qed.

(** ** The digest, group by group *)

Lemma groupby_cpu_samples :
  groupby cpu_samples = [(("CPU", "0", "JOULES", "rapl"), cpu_samples)].
Proof. vm_compute. reflexivity. Qed.

Lemma write_energy_sum_overwrites (m : Logs) (k1 k2 : key) (g1 g2 : Series) :
  key_unit k1 = "JOULES" -> key_unit k2 = "JOULES" -> key_type k1 = key_type k2 ->
  write_energy_sum (write_energy_sum m (k1, g1)) (k2, g2) = write_energy_sum m (k2, g2).
Proof.
  intros H1 H2 Ht. unfold write_energy_sum. simpl.
  rewrite !bool_decide_eq_true_2 by assumption. rewrite Ht.
  apply insert_insert_eq.
Qed.

Lemma groupby_mixed_samples :
  groupby mixed_samples = [(("CPU", "0", "JOULES", "rapl"), mixed_samples)].
Proof. vm_compute. reflexivity. Qed.

Lemma groupby_tenths :
  groupby tenths = [(("CPU", "0", "JOULES", "rapl"), tenths)].
Proof. vm_compute. reflexivity. Qed.

(** C4, as the code has it. For every Series and every non-empty [logs]
    dictionary, [add_jcarbon_log] returns and has gone through the groups of
    [(component_type, component_id, unit, source)], one per key present,
    each holding the rows of its key, and has written for each group whose
    unit is JOULES the sum of its strictly positive values under
    ['<component_type>-J']; when a component type has a single JOULES group
    that sum is what the dictionary holds afterwards. A reading that does
    not compare greater than zero adds nothing to the sum. For the samples
    [+3.0, -1.0, +2.0] of CPU energy the value logged under ['CPU-J'] is
    [5.0]; it is [5.0] as well when the group also holds a zero, a NaN and
    an infinite negative reading; for ten readings of [0.1] it is [1.0]. *)
Theorem add_jcarbon_log_energy_sums {S} (df : Series) (m : Logs) (st : S) :
  m <> ∅ ->
  add_jcarbon_log df (Some m) st
  = Returns (Some (fold_left write_energy_sum (groupby df) m)) st
  /\ (forall k g, (k, g) ∈ groupby df <->
                  k ∈ map key_of df /\ g = filter (fun r => key_of r = k) df)
  /\ NoDup (groupby df).*1
  /\ (forall k g,
        (k, g) ∈ groupby df -> key_unit k = "JOULES" ->
        (forall k', k' ∈ map key_of df -> key_unit k' = "JOULES" ->
                    key_type k' = key_type k -> k' = k) ->
        fold_left write_energy_sum (groupby df) m !! (key_type k +:+ "-J")
        = Some (positive_sum g))
  /\ (forall g1 g2 r,
        PrimFloat.ltb 0%float (sample_value r) = false ->
        positive_sum (g1 ++ r :: g2) = positive_sum (g1 ++ g2))
  /\ add_jcarbon_log cpu_samples (Some m) st
     = Returns (Some (<[ "CPU-J" := 5%float ]> m)) st
  /\ add_jcarbon_log mixed_samples (Some m) st
     = Returns (Some (<[ "CPU-J" := 5%float ]> m)) st
  /\ add_jcarbon_log tenths (Some m) st
     = Returns (Some (<[ "CPU-J" := 1%float ]> m)) st.
Proof.
  intros Hm. split; [| split; [| split; [| split; [| split; [| split; [| split]]]]]].
  - by rewrite add_jcarbon_log_digest, digest_nonempty.
  - apply elem_of_groupby.
  - apply NoDup_groupby.
  - intros k g Hin Hu Huniq.
    destruct (list_elem_of_split _ _ Hin) as (gs1 & gs2 & Hsplit).
    rewrite Hsplit. apply fold_write_energy_sum_last; [exact Hu |].
    intros [k' g'] Hin' [Hu' Ht']. simpl in *.
    assert (Hk : k' = k).
    { apply Huniq; try assumption.
      apply (elem_of_groupby df k' g'). rewrite Hsplit.
      apply elem_of_app. right. by right. }
    subst k'. pose proof (NoDup_groupby df) as Hnd.
    rewrite Hsplit, fmap_app, fmap_cons in Hnd. simpl in Hnd.
    apply NoDup_app in Hnd as (_ & _ & Hnd). apply NoDup_cons in Hnd as [Hnot _].
    apply Hnot. by apply (list_elem_of_fmap_2 fst _ (k, g')).
  - intros g1 g2 r. apply positive_sum_skips.
  - rewrite add_jcarbon_log_digest, digest_nonempty by exact Hm.
    rewrite groupby_cpu_samples. reflexivity.
  - rewrite add_jcarbon_log_digest, digest_nonempty by exact Hm.
    rewrite groupby_mixed_samples. reflexivity.
  - rewrite add_jcarbon_log_digest, digest_nonempty by exact Hm.
    rewrite groupby_tenths. reflexivity.
Qed.

(** C8. The key of the digest is made of the component type and the unit
    label alone, so two JOULES groups of one component type write the same
    key and the later write replaces the earlier one; for a non-empty [logs]
    dictionary the value logged for a component type is the sum of the
    strictly positive values of the last JOULES group of that type in the
    order of iteration, a reading that does not compare greater than zero
    adding nothing to it. With two CPU sockets, the second of which also
    reports a negative reading, a NaN and a zero, it is the sum of the
    second socket (7.0), not the total of the component type (9.0). *)
Theorem digest_last_group_wins {S} (df : Series) (m : Logs) (st : S)
    (gs1 gs2 : list (key * Series)) (k : key) (g : Series) :
  m <> ∅ ->
  groupby df = gs1 ++ (k, g) :: gs2 ->
  key_unit k = "JOULES" ->
  (forall kg, kg ∈ gs2 ->
     ~ (key_unit kg.1 = "JOULES" /\ key_type kg.1 = key_type k)) ->
  (exists m', add_jcarbon_log df (Some m) st = Returns (Some m') st
              /\ m' !! (key_type k +:+ "-J") = Some (positive_sum g))
  /\ g = filter (fun r => key_of r = k) df
  /\ (forall m0 k1 g1,
        key_unit k1 = "JOULES" -> key_type k1 = key_type k ->
        write_energy_sum (write_energy_sum m0 (k1, g1)) (k, g)
        = write_energy_sum m0 (k, g))
  /\ (forall g1 g2 r,
        PrimFloat.ltb 0%float (sample_value r) = false ->
        positive_sum (g1 ++ r :: g2) = positive_sum (g1 ++ g2))
  /\ (exists m', add_jcarbon_log two_socket_samples (Some keras_logs) st
                 = Returns (Some m') st
                 /\ m' !! "CPU-J" = Some 7%float
                 /\ positive_sum (energy_of_type "CPU" two_socket_samples) = 9%float).
Proof.
  intros Hm Hsplit Hu Hlast. split; [| split; [| split; [| split]]].
  - eexists. split.
    + by rewrite add_jcarbon_log_digest, digest_nonempty.
    + rewrite Hsplit. by apply fold_write_energy_sum_last.
  - apply (elem_of_groupby df k g). rewrite Hsplit.
    apply elem_of_app. right. by left.
  - intros m0 k1 g1 Hu1 Ht1. by apply write_energy_sum_overwrites.
  - intros g1 g2 r. apply positive_sum_skips.
  - eexists. split; [| split].
    + rewrite add_jcarbon_log_digest. reflexivity.
    + vm_compute. reflexivity.
    + vm_compute. reflexivity.
Qed.

(** ** The timestamp table *)

(** What [on_epoch_end] of the timestamp-tracking class leaves behind when it
    returns: the rows of the epoch, stamped, under the epoch's key of
    [timestamps]; [batch_timestamps] set to the rows of the epoch whatever
    it held; the buffer of the epoch untouched (the next [on_epoch_begin]
    resets it). *)
Lemma x_on_epoch_end_returns (epoch : Z) (self self' : JCarbonExperimentCallback) :
  x_on_epoch_end epoch self = Returns tt self' ->
  exists cur,
    curr_batch_timestamps self = Value cur
    /\ curr_batch_timestamps self' = Value cur
    /\ batch_timestamps self' = Some (from_dict cur)
    /\ timestamps self'
       = <[epoch := assign_epoch (from_dict cur) epoch]> (timestamps self).
Proof.
  unfold x_on_epoch_end, bind, in_chunking, lift, get.
  destruct (on_epoch_end epoch None (chunking self)) as [l c | e c]; [| discriminate].
  simpl. unfold bind, read_attr, modify, ret. simpl. intros H.
  destruct (batch_timestamps self); simpl in H;
    destruct (curr_batch_timestamps self) as [| cur] eqn:Hcur; try discriminate H;
    exists cur; inversion H; subst; simpl; rewrite ?app_nil_r; by repeat split.
Qed.

Lemma x_on_epoch_begin_clears (epoch : Z) (now : float)
    (self self' : JCarbonExperimentCallback) :
  x_on_epoch_begin epoch now self = Returns tt self' ->
  curr_batch_timestamps self' = Value None
  /\ timestamps self' = timestamps self
  /\ batch_timestamps self' = batch_timestamps self.
Proof.
  unfold x_on_epoch_begin, bind, in_chunking, lift.
  destruct (on_epoch_begin epoch now None (chunking self)) as [u c | e c];
    [| discriminate].
  simpl. intros H. inversion H; subst. by repeat split.
Qed.


(** ** What the handlers leave alone *)

Section Keeps.

Context {S X : Type} (f : S -> X).

Lemma keeps_ret {A} (a : A) : keeps f (ret a).
Proof. by intros s. Qed.

Lemma keeps_raise {A} (e : exn) : keeps f (raise (A:=A) e).
Proof. by intros s. Qed.

Lemma keeps_get : keeps f get.
Proof. by intros s. Qed.

Lemma keeps_read_attr {A} (field : S -> attr A) : keeps f (read_attr field).
Proof. intros s. unfold read_attr. by destruct (field s). Qed.

Lemma keeps_getitem {V} (d : S -> gmap Z V) (k : Z) : keeps f (getitem d k).
Proof. intros s. unfold getitem. by destruct (d s !! k). Qed.

Lemma keeps_modify (g : S -> S) : (forall s, f (g s) = f s) -> keeps f (modify g).
Proof. intros Hg s. apply Hg. Qed.

Lemma keeps_bind {A B} (m : M S A) (k : A -> M S B) :
  keeps f m -> (forall a, keeps f (k a)) -> keeps f (bind m k).
Proof.
  intros Hm Hk s. unfold bind. specialize (Hm s).
  destruct (m s) as [a s1 | e s1]; simpl in *; [| exact Hm].
  by rewrite Hk.
Qed.

Lemma keeps_lift {T A} (proj : S -> T) (upd : T -> S -> S) (m : M T A) :
  (forall t s, f (upd t s) = f s) -> keeps f (lift proj upd m).
Proof.
  intros Hupd s. unfold lift. destruct (m (proj s)); simpl; apply Hupd.
Qed.

Lemma keeps_lift_part {T A} (proj : S -> T) (upd : T -> S -> S) (f' : T -> X)
    (m : M T A) :
  (forall s, f s = f' (proj s)) -> (forall t s, f (upd t s) = f' t) ->
  keeps f' m -> keeps f (lift proj upd m).
Proof.
  intros Hproj Hupd Hm s. unfold lift. specialize (Hm (proj s)).
  destruct (m (proj s)); simpl in *; by rewrite Hupd, Hproj.
Qed.

Lemma keeps_pd_concat {R} (objs : list (list R)) : keeps f (pd_concat objs).
Proof. destruct objs; [apply keeps_raise | apply keeps_ret]. Qed.

Lemma keeps_add_jcarbon_log (df : Series) (logs : option Logs) :
  keeps f (add_jcarbon_log df logs).
Proof. intros s. by rewrite add_jcarbon_log_digest. Qed.

Lemma keeps_add_jcarbon_log_list (df : list Series) (logs : option Logs) :
  keeps f (add_jcarbon_log_list df logs).
Proof. intros s. unfold add_jcarbon_log_list. by destruct (truthy logs). Qed.

Lemma keeps_py_int (x : num) : keeps f (py_int x).
Proof.
  intros s. unfold py_int. destruct x as [fl | z]; [| reflexivity].
  by destruct (Prim2SF fl) as [| | | [] ? ?].
Qed.

Lemma keeps_run (h : event -> M S (option Logs)) (evs : list event) :
  (forall ev, keeps f (h ev)) -> keeps f (run h evs).
Proof.
  intros Hh. induction evs as [| ev evs IH]; simpl; [apply keeps_ret |].
  apply keeps_bind; [apply Hh |]. intros l.
  apply keeps_bind; [exact IH |]. intros ls. apply keeps_ret.
Qed.

Lemma keeps_xrun (h : xevent -> M S unit) (evs : list xevent) :
  (forall ev, keeps f (h ev)) -> keeps f (xrun h evs).
Proof.
  intros Hh. induction evs as [| ev evs IH]; simpl; [apply keeps_ret |].
  apply keeps_bind; [apply Hh | intros _; exact IH].
Qed.

End Keeps.

(** One step through the structure of a method. *)
Ltac keeps_step :=
  first
    [ apply keeps_ret | apply keeps_raise | apply keeps_get | apply keeps_read_attr
    | apply keeps_getitem | apply keeps_pd_concat | apply keeps_add_jcarbon_log
    | apply keeps_add_jcarbon_log_list | apply keeps_py_int
    | apply keeps_modify; intros; reflexivity
    | apply keeps_lift; intros; reflexivity
    | apply keeps_bind; [| intros]
    | match goal with
      | |- keeps _ (match ?x with _ => _ end) => destruct x
      end ].

(** The settings of a [JCarbonCallback]. *)
Lemma keeps_invoke {X} (g : JCarbonCallback -> X) (c : call) :
  (forall h b, g (set_client h b) = g b) -> keeps g (invoke c).
Proof.
  intros Hg self. unfold invoke. by destruct (fails (client self) c); simpl.
Qed.

Lemma keeps_start_jcarbon {X} (g : JCarbonCallback -> X) :
  (forall h b, g (set_client h b) = g b) -> keeps g start_jcarbon.
Proof.
  intros Hg. unfold start_jcarbon.
  apply keeps_bind; [by apply keeps_invoke |]. intros _.
  apply keeps_bind; [apply keeps_get |]. intros self. by apply keeps_invoke.
Qed.

Lemma keeps_stop_jcarbon {X} (g : JCarbonCallback -> X) :
  (forall h b, g (set_client h b) = g b) -> keeps g stop_jcarbon.
Proof.
  intros Hg. unfold stop_jcarbon, client_read.
  apply keeps_bind; [apply keeps_get |]. intros self.
  apply keeps_bind; [by apply keeps_invoke |]. intros _.
  apply keeps_bind; [apply keeps_get |]. intros self'.
  apply keeps_bind; [by apply keeps_invoke |]. intros _. apply keeps_ret.
Qed.

Ltac keeps_settings :=
  first
    [ apply (keeps_lift_part _ base set_base settings); [by intros | by intros |]
    | apply (keeps_lift_part _ chunking set_chunking (fun c => settings (base c)));
      [by intros | by intros |]
    | apply keeps_start_jcarbon; by intros
    | apply keeps_stop_jcarbon; by intros
    | apply keeps_invoke; by intros ].

Ltac keeps_auto := repeat first [keeps_step | keeps_settings].

Lemma keeps_handle_settings (ev : event) :
  keeps (fun s : JCarbonChunkingCallback => settings (base s)) (handle ev).
Proof.
  destruct ev; unfold handle, on_epoch_begin, on_train_batch_end, on_epoch_end,
    absorb_report, in_base; keeps_auto.
Qed.

Lemma keeps_handle2_settings (ev : event) :
  keeps (fun s : Chunking (list Report) => settings (base s)) (handle2 ev).
Proof.
  destruct ev; unfold handle2, on_epoch_begin, on_train_batch_end2, on_epoch_end2,
    absorb_report2, in_base; keeps_auto.
Qed.

Lemma keeps_handle_period (ev : event) :
  keeps (chunking_period_sec (L:=Series)) (handle ev).
Proof.
  destruct ev; unfold handle, on_epoch_begin, on_train_batch_end, on_epoch_end,
    absorb_report, in_base; keeps_auto.
Qed.

Lemma keeps_handle2_period (ev : event) :
  keeps (chunking_period_sec (L:=list Report)) (handle2 ev).
Proof.
  destruct ev; unfold handle2, on_epoch_begin, on_train_batch_end2, on_epoch_end2,
    absorb_report2, in_base; keeps_auto.
Qed.

Lemma keeps_absorb_report_reports : keeps (reports (L:=Series)) absorb_report.
Proof. unfold absorb_report, in_base. keeps_auto. Qed.

Lemma keeps_absorb_report2_reports : keeps (reports (L:=list Report)) absorb_report2.
Proof. unfold absorb_report2, in_base. keeps_auto. Qed.

(** X1. No handler of the two chunking classes ever changes the settings
    the object was built with: along any run, whatever the events and the
    backend, the process id, the sampling period, the signals and the chunking
    period are the ones of the start. *)
Theorem chunking_settings_never_change (evs : list event)
    (s1 : JCarbonChunkingCallback) (s2 : Chunking (list Report)) :
  let s1' := state_of (run handle evs s1) in
  let s2' := state_of (run handle2 evs s2) in
  settings (base s1') = settings (base s1)
  /\ chunking_period_sec s1' = chunking_period_sec s1
  /\ settings (base s2') = settings (base s2)
  /\ chunking_period_sec s2' = chunking_period_sec s2.
Proof.
  repeat split.
  - apply (keeps_run (fun s : JCarbonChunkingCallback => settings (base s))),
      keeps_handle_settings.
  - apply (keeps_run chunking_period_sec), keeps_handle_period.
  - apply (keeps_run (fun s : Chunking (list Report) => settings (base s))),
      keeps_handle2_settings.
  - apply (keeps_run chunking_period_sec), keeps_handle2_period.
Qed.

Lemma on_epoch_end_raises_keeps_reports (epoch : Z) (logs : option Logs) (e : exn)
    (s s' : JCarbonChunkingCallback) :
  on_epoch_end epoch logs s = Raises e s' -> reports s' = reports s.
Proof.
  intros H. unfold on_epoch_end, bind in H.
  pose proof (keeps_absorb_report_reports s) as Hk.
  destruct (absorb_report s) as [x t | e' t]; simpl in Hk.
  - rewrite add_jcarbon_log_digest in H. discriminate H.
  - inversion H; subst. exact Hk.
Qed.

Lemma on_epoch_end2_raises_keeps_reports (epoch : Z) (logs : option Logs) (e : exn)
    (s s' : Chunking (list Report)) :
  on_epoch_end2 epoch logs s = Raises e s' -> reports s' = reports s.
Proof.
  intros H. unfold on_epoch_end2, bind in H.
  pose proof (keeps_absorb_report2_reports s) as Hk.
  destruct (absorb_report2 s) as [l t | e' t]; simpl in Hk.
  - destruct (pd_concat (map to_dataframe l) t) as [x u | e' u] eqn:Hc;
      [discriminate H |].
    inversion H; subst. unfold pd_concat in Hc.
    destruct (map to_dataframe l); inversion Hc; subst. exact Hk.
  - inversion H; subst. exact Hk.
Qed.

(** X2. In the two chunking classes [reports] changes only when
    [on_epoch_end] returns: the other handlers never touch it, and an
    [on_epoch_end] that raises leaves no entry behind and the entries of the
    earlier epochs as they were. *)
Theorem reports_change_only_at_epoch_end (ev : event)
    (s1 : JCarbonChunkingCallback) (s2 : Chunking (list Report)) :
  (reports (state_of (handle ev s1)) = reports s1
   \/ exists epoch logs, ev = EpochEnd epoch logs /\ returned (handle ev s1) = true)
  /\ (reports (state_of (handle2 ev s2)) = reports s2
      \/ exists epoch logs, ev = EpochEnd epoch logs /\ returned (handle2 ev s2) = true).
Proof.
  split.
  - destruct ev as [epoch now logs | batch now logs | epoch logs].
    + left. revert s1. change (keeps (reports (L:=Series))
                                 (handle (EpochBegin epoch now logs))).
      unfold handle, on_epoch_begin, in_base. keeps_auto.
    + left. revert s1. change (keeps (reports (L:=Series))
                                 (handle (TrainBatchEnd batch now logs))).
      unfold handle, on_train_batch_end, absorb_report, in_base. keeps_auto.
    + simpl. destruct (on_epoch_end epoch logs s1) as [l t | e t] eqn:H.
      * right. by exists epoch, logs.
      * left. by apply on_epoch_end_raises_keeps_reports in H.
  - destruct ev as [epoch now logs | batch now logs | epoch logs].
    + left. revert s2. change (keeps (reports (L:=list Report))
                                 (handle2 (EpochBegin epoch now logs))).
      unfold handle2, on_epoch_begin, in_base. keeps_auto.
    + left. revert s2. change (keeps (reports (L:=list Report))
                                 (handle2 (TrainBatchEnd batch now logs))).
      unfold handle2, on_train_batch_end2, absorb_report2, in_base. keeps_auto.
    + simpl. destruct (on_epoch_end2 epoch logs s2) as [l t | e t] eqn:H.
      * right. by exists epoch, logs.
      * left. by apply on_epoch_end2_raises_keeps_reports in H.
Qed.

(** X3. On a freshly built chunking object every handler other than
    [on_epoch_begin] raises [AttributeError], since [time] and [last_report]
    are first assigned there: the run stops at once, with no call to the
    backend and the object as it was built. *)
Theorem handlers_before_first_epoch_begin (ev : event) (evs : list event)
    (getpid period : Z) (sigs : list string) (chunk : float) :
  is_epoch_begin ev = false ->
  run handle (ev :: evs) (new_chunking getpid period sigs chunk)
  = Raises AttributeError (new_chunking getpid period sigs chunk)
  /\ run handle2 (ev :: evs) (new_chunking getpid period sigs chunk)
     = Raises AttributeError (new_chunking getpid period sigs chunk).
Proof. destruct ev; [discriminate | by split | by split]. Qed.

(** ** The windows of an epoch *)

Lemma windows_read_app (d1 d2 h : list entry) :
  windows_read h (d1 ++ d2) = windows_read h d1 ++ windows_read (h ++ d1) d2.
Proof.
  revert h. induction d1 as [| e d1 IH]; intros h; simpl.
  - by rewrite app_nil_r.
  - rewrite IH, <- !app_assoc. reflexivity.
Qed.

Lemma windows_read_opening (h : list entry) (b : JCarbonCallback) :
  windows_read h (opening b) = [].
Proof. reflexivity. Qed.

Lemma windows_read_closing (h : list entry) (b : JCarbonCallback) :
  windows_read h (closing b) = [reads (h ++ [ok (Stop (pid b))])].
Proof. reflexivity. Qed.

Lemma windows_read_chunks (b : JCarbonCallback) (n : nat) (h : list entry) :
  length (windows_read h (concat (replicate n (closing b ++ opening b)))) = n.
Proof.
  revert h. induction n as [| n IH]; intros h; [reflexivity |].
  cbn [replicate concat]. rewrite windows_read_app, length_app, IH. reflexivity.
Qed.

Lemma absorb_all_some (ws : list Report) (acc : Series) :
  absorb_all (Some acc) ws = Some (acc ++ concat (map to_dataframe ws)).
Proof.
  revert acc. induction ws as [| w ws IH]; intros acc; simpl.
  - by rewrite app_nil_r.
  - unfold absorb_all in *. simpl. rewrite IH, <- app_assoc. reflexivity.
Qed.

Lemma absorb_all_none (w : Report) (ws : list Report) :
  absorb_all None (w :: ws) = Some (concat (map to_dataframe (w :: ws))).
Proof. unfold absorb_all. simpl. apply absorb_all_some. Qed.

Section Windows.

Hypothesis Hrel : reliable.

Lemma run_batches_windows (batches : list (Z * float * option Logs)) :
  forall (self : JCarbonChunkingCallback) (last : float) (lr : option Series),
    time self = Value last ->
    last_report self = Value lr ->
    let d := concat (replicate
                       (crossings (chunking_period_sec self) last (batch_times batches))
                       (closing (base self) ++ opening (base self))) in
    exists outs self' last',
      run handle (batch_events batches) self = Returns outs self'
      /\ base self' = set_client (client (base self) ++ d) (base self)
      /\ last_report self'
         = Value (absorb_all lr (windows_read (client (base self)) d))
      /\ reports self' = reports self
      /\ time self' = Value last'.
Proof.
  induction batches as [| [[b t] l] batches IH]; intros self last lr Ht Hlr;
    cbv zeta.
  - exists [], self, last. simpl. rewrite app_nil_r.
    destruct self as [[] ? ? ? ?]; simpl in *. repeat split; done.
  - cbn [batch_events batch_times map crossings fst snd]. rewrite run_cons.
    change (handle (TrainBatchEnd b t l) self) with (on_train_batch_end b t l self).
    destruct (chunk_elapsed t last (chunking_period_sec self)) eqn:Hc.
    + rewrite (on_train_batch_end_fires Hrel b t last l self lr Ht Hlr Hc).
      set (w := reads _). set (self1 := after_calls _ _).
      destruct (IH self1 t (Some (merged lr (to_dataframe w))) eq_refl eq_refl)
        as (outs & self' & last' & Hrun & Hb & Hlr' & Hr & Ht').
      fold (batch_events batches). rewrite Hrun.
      exists (digest (merged lr (to_dataframe w)) l :: outs), self', last'.
      split; [reflexivity |]. cbn [replicate concat].
      split; [| split; [| split]]; try done.
      * rewrite Hb. unfold self1, set_client; simpl. f_equal.
        by rewrite <- !app_assoc.
      * rewrite Hlr'. rewrite windows_read_app. simpl. reflexivity.
    + rewrite (on_train_batch_end_idle b t last l self Ht Hc).
      destruct (IH self last lr Ht Hlr)
        as (outs & self' & last' & Hrun & Hb & Hlr' & Hr & Ht').
      fold (batch_events batches). rewrite Hrun.
      exists (l :: outs), self', last'. repeat split; done.
Qed.

Lemma run_epoch_windows (self : JCarbonChunkingCallback) (epoch : Z) (t0 : float)
    (logs0 : option Logs) (batches : list (Z * float * option Logs))
    (logs1 : option Logs) :
  let new := epoch_calls (base self)
               (crossings (chunking_period_sec self) t0 (batch_times batches)) in
  let acc := concat (map to_dataframe (windows_read (client (base self)) new)) in
  exists outs self',
    run handle (epoch_events epoch t0 logs0 batches logs1) self
    = Returns (logs0 :: outs ++ [digest acc logs1]) self'
    /\ base self' = set_client (client (base self) ++ new) (base self)
    /\ reports self' = <[epoch := to_epoch_frame acc epoch]> (reports self)
    /\ last_report self' = Value (Some acc).
Proof.
  intros new acc. unfold epoch_events. rewrite run_cons.
  change (handle (EpochBegin epoch t0 logs0) self)
    with (bind (on_epoch_begin epoch t0 logs0) (fun _ => ret logs0) self).
  unfold bind at 1. rewrite (on_epoch_begin_reliable Hrel). unfold ret at 1.
  set (self0 := after_calls _ _).
  fold (batch_events batches). rewrite run_app.
  destruct (run_batches_windows batches self0 t0 None eq_refl eq_refl)
    as (outs & self1 & last' & Hrun & Hb & Hlr & Hr & Ht').
  rewrite Hrun. rewrite run_cons.
  change (handle (EpochEnd epoch logs1) self1) with (on_epoch_end epoch logs1 self1).
  rewrite (on_epoch_end_reliable Hrel epoch logs1 self1 _ Hlr).
  simpl run. unfold ret.
  set (n := crossings _ _ _) in *.
  set (blocks := concat (replicate n _)) in *.
  assert (Hacc : merged (absorb_all None (windows_read (client (base self0)) blocks))
                   (to_dataframe (reads (client (base self1)
                                           ++ [ok (Stop (pid (base self1)))])))
                 = acc).
  { subst acc new. unfold epoch_calls. fold blocks.
    rewrite Hb.
    change (client (set_client ?h _)) with h.
    change (pid (set_client _ ?b)) with (pid b).
    change (base self0) with (set_client (client (base self) ++ opening (base self))
                                (base self)).
    change (client (set_client ?h _)) with h.
    rewrite (windows_read_app (opening (base self))), windows_read_opening, app_nil_l.
    rewrite (windows_read_app blocks), windows_read_closing.
    destruct (windows_read (client (base self) ++ opening (base self)) blocks)
      as [| w ws] eqn:Hws.
    - simpl. by rewrite app_nil_r.
    - rewrite absorb_all_none. cbn [merged].
      rewrite (map_app _ (w :: ws)), concat_app. simpl.
      by rewrite !app_nil_r. }
  rewrite Hacc. eexists outs, _. split; [reflexivity |].
  cbn [base reports last_report set_reports set_last_report after_calls set_base].
  repeat match goal with
         | |- context [merged ?a ?b] =>
             replace (merged a b) with acc by (symmetry; exact Hacc)
         end.
  split; [| split].
  - rewrite Hb. subst self0 new. unfold epoch_calls, set_client. simpl. f_equal.
    fold blocks. by rewrite <- !app_assoc.
  - by rewrite Hr.
  - reflexivity.
Qed.

Lemma windows_read_epoch_calls (h : list entry) (b : JCarbonCallback) (n : nat) :
  length (windows_read h (epoch_calls b n)) = S n.
Proof.
  unfold epoch_calls.
  rewrite windows_read_app, windows_read_opening, app_nil_l.
  rewrite windows_read_app, windows_read_closing, length_app, windows_read_chunks.
  simpl. lia.
Qed.

(** X4. With a backend that does not fail, the report an epoch leaves in
    [reports] holds the rows of every window read during the epoch, one
    window per chunk boundary crossed and one for the epoch end, in the order
    they were read, each row stamped with the epoch; the entries of the other
    epochs are untouched. *)
Theorem epoch_report_concatenates_windows (self : JCarbonChunkingCallback)
    (epoch : Z) (t0 : float) (logs0 : option Logs)
    (batches : list (Z * float * option Logs)) (logs1 : option Logs) :
  exists outs self' new frame,
    run handle (epoch_events epoch t0 logs0 batches logs1) self = Returns outs self'
    /\ client (base self') = client (base self) ++ new
    /\ length (windows_read (client (base self)) new)
       = S (crossings (chunking_period_sec self) t0 (batch_times batches))
    /\ reports self' !! epoch = Some frame
    /\ frame.*1 = concat (map to_dataframe (windows_read (client (base self)) new))
    /\ Forall (fun x => x.2 = epoch) frame
    /\ (forall e, e <> epoch -> reports self' !! e = reports self !! e).
Proof.
  destruct (run_epoch_windows self epoch t0 logs0 batches logs1)
    as (outs & self' & Hrun & Hb & Hr & _).
  eexists _, self', _, _. split; [exact Hrun |]. rewrite Hb, Hr.
  split; [reflexivity |]. split; [apply windows_read_epoch_calls |].
  split; [apply lookup_insert_eq |].
  split; [apply to_epoch_frame_rows |].
  split; [apply to_epoch_frame_stamped |].
  intros e He. by apply lookup_insert_ne.
Qed.

(** X5. With a backend that does not fail, the [logs] dictionary that
    [on_epoch_end] hands back is the one [add_jcarbon_log] leaves when it is
    given the whole accumulation of the epoch, all windows together, not
    the window read last. *)
Theorem epoch_end_logs_digest_of_whole_epoch (self : JCarbonChunkingCallback)
    (epoch : Z) (t0 : float) (logs0 : option Logs)
    (batches : list (Z * float * option Logs)) (logs1 : option Logs) :
  exists outs self' new logs',
    run handle (epoch_events epoch t0 logs0 batches logs1) self = Returns outs self'
    /\ client (base self') = client (base self) ++ new
    /\ last outs = Some logs'
    /\ add_jcarbon_log
         (concat (map to_dataframe (windows_read (client (base self)) new)))
         logs1 self'
       = Returns logs' self'.
Proof.
  destruct (run_epoch_windows self epoch t0 logs0 batches logs1)
    as (outs & self' & Hrun & Hb & _).
  eexists _, self', _, _. split; [exact Hrun |]. rewrite Hb.
  split; [reflexivity |].
  split; [rewrite app_comm_cons; apply last_snoc |].
  apply add_jcarbon_log_digest.
Qed.

End Windows.

(** ** Merging window by window, merging at the end *)

Section Merge.

Hypothesis Hrel : reliable.

Lemma absorb_report2_reliable (self : Chunking (list Report))
    (lr : option (list Report)) :
  last_report self = Value lr ->
  let l := default [] lr ++ [reads (client (base self) ++ [ok (Stop (pid (base self)))])] in
  absorb_report2 self =
  Returns l (set_last_report (Value (Some l)) (after_calls (closing (base self)) self)).
Proof.
  intros Hlr l. rewrite absorb_report2_eq, Hlr. unfold in_base, lift.
  rewrite (stop_jcarbon_reliable Hrel). subst l. by destruct lr.
Qed.

Lemma on_train_batch_end2_fires (batch : Z) (curr last : float) (logs : option Logs)
    (self : Chunking (list Report)) (lr : option (list Report)) :
  time self = Value last ->
  last_report self = Value lr ->
  chunk_elapsed curr last (chunking_period_sec self) = true ->
  let l := default [] lr ++ [reads (client (base self) ++ [ok (Stop (pid (base self)))])] in
  on_train_batch_end2 batch curr logs self =
  Returns logs
    (after_calls (closing (base self) ++ opening (base self))
       (set_last_report (Value (Some l)) (set_time (Value curr) self))).
Proof.
  intros Ht Hlr Hc l. unfold on_train_batch_end2, bind, read_attr, get.
  rewrite Ht, Hc. unfold modify.
  rewrite (absorb_report2_reliable (set_time (Value curr) self) lr Hlr).
  unfold in_base, lift. rewrite (start_jcarbon_reliable Hrel). simpl.
  unfold after_calls, set_base, set_last_report, set_time, set_client. simpl.
  rewrite <- app_assoc. reflexivity.
Qed.

Lemma on_epoch_end2_reliable (epoch : Z) (logs : option Logs)
    (self : Chunking (list Report)) (lr : option (list Report)) :
  last_report self = Value lr ->
  let l := default [] lr ++ [reads (client (base self) ++ [ok (Stop (pid (base self)))])] in
  on_epoch_end2 epoch logs self =
  Returns logs
    (set_reports (<[epoch := to_epoch_frame (concat (map to_dataframe l)) epoch]>
                    (reports self))
       (set_last_report (Value (Some l)) (after_calls (closing (base self)) self))).
Proof.
  intros Hlr l. unfold on_epoch_end2, bind.
  rewrite (absorb_report2_reliable self lr Hlr). fold l.
  rewrite pd_concat_nonempty; [reflexivity |].
  subst l. rewrite map_app. intros H. apply app_eq_nil in H as [_ H]. discriminate H.
Qed.

(** Two chunk boundaries and the epoch end, in the first class: the
    accumulation is built window by window. *)
Lemma merge_window_by_window (s1 : JCarbonChunkingCallback) (last t1 t2 : float)
    (b1 b2 epoch : Z) (l1 l2 l3 : option Logs) :
  time s1 = Value last ->
  last_report s1 = Value None ->
  chunk_elapsed t1 last (chunking_period_sec s1) = true ->
  chunk_elapsed t2 t1 (chunking_period_sec s1) = true ->
  let h := client (base s1) in
  let b := base s1 in
  let r1 := reads (h ++ [ok (Stop (pid b))]) in
  let r2 := reads ((h ++ closing b ++ opening b) ++ [ok (Stop (pid b))]) in
  let r3 := reads ((h ++ (closing b ++ opening b) ++ closing b ++ opening b)
                     ++ [ok (Stop (pid b))]) in
  let acc := (to_dataframe r1 ++ to_dataframe r2) ++ to_dataframe r3 in
  exists outs s1',
    run handle [TrainBatchEnd b1 t1 l1; TrainBatchEnd b2 t2 l2; EpochEnd epoch l3] s1
    = Returns outs s1'
    /\ client (base s1')
       = h ++ (closing b ++ opening b) ++ (closing b ++ opening b) ++ closing b
    /\ last_report s1' = Value (Some acc)
    /\ reports s1' = <[epoch := to_epoch_frame acc epoch]> (reports s1).
Proof.
  intros Ht1 Hlr1 Hc1 Hc2 h b r1 r2 r3 acc.
  rewrite run_cons.
  change (handle (TrainBatchEnd b1 t1 l1) s1) with (on_train_batch_end b1 t1 l1 s1).
  rewrite (on_train_batch_end_fires Hrel b1 t1 last l1 s1 None Ht1 Hlr1 Hc1).
  fold h b r1. cbn [merged].
  set (s1a := after_calls _ _).
  rewrite run_cons.
  change (handle (TrainBatchEnd b2 t2 l2) s1a) with (on_train_batch_end b2 t2 l2 s1a).
  rewrite (on_train_batch_end_fires Hrel b2 t2 t1 l2 s1a (Some (to_dataframe r1))
             eq_refl eq_refl Hc2).
  change (client (base s1a)) with (h ++ closing b ++ opening b).
  change (pid (base s1a)) with (pid b). change (base s1a) with
    (set_client (h ++ closing b ++ opening b) b).
  change (closing (set_client _ b)) with (closing b).
  change (opening (set_client _ b)) with (opening b).
  fold r2. cbn [merged].
  set (s1b := after_calls _ _).
  rewrite run_cons.
  change (handle (EpochEnd epoch l3) s1b) with (on_epoch_end epoch l3 s1b).
  rewrite (on_epoch_end_reliable Hrel epoch l3 s1b
             (Some (to_dataframe r1 ++ to_dataframe r2)) eq_refl).
  change (client (base s1b)) with ((h ++ closing b ++ opening b) ++ closing b ++ opening b).
  change (pid (base s1b)) with (pid b).
  rewrite <- (app_assoc h (closing b ++ opening b) (closing b ++ opening b)).
  fold r3. cbn [merged run ret]. fold acc.
  eexists _, _. split; [reflexivity |].
  split; [| split; reflexivity].
  cbn. rewrite <- !app_assoc. reflexivity.
Qed.

(** The same events in the second class: the list grows by one report at a
    time and is merged in one step at the epoch end. *)
Lemma merge_at_epoch_end (s2 : Chunking (list Report)) (last t1 t2 : float)
    (b1 b2 epoch : Z) (l1 l2 l3 : option Logs) :
  time s2 = Value last ->
  last_report s2 = Value None ->
  chunk_elapsed t1 last (chunking_period_sec s2) = true ->
  chunk_elapsed t2 t1 (chunking_period_sec s2) = true ->
  let h := client (base s2) in
  let b := base s2 in
  let r1 := reads (h ++ [ok (Stop (pid b))]) in
  let r2 := reads ((h ++ closing b ++ opening b) ++ [ok (Stop (pid b))]) in
  let r3 := reads ((h ++ (closing b ++ opening b) ++ closing b ++ opening b)
                     ++ [ok (Stop (pid b))]) in
  exists outs s2',
    run handle2 [TrainBatchEnd b1 t1 l1; TrainBatchEnd b2 t2 l2; EpochEnd epoch l3] s2
    = Returns outs s2'
    /\ client (base s2')
       = h ++ (closing b ++ opening b) ++ (closing b ++ opening b) ++ closing b
    /\ last_report s2' = Value (Some [r1; r2; r3])
    /\ reports s2'
       = <[epoch := to_epoch_frame (concat (map to_dataframe [r1; r2; r3])) epoch]>
           (reports s2).
Proof.
  intros Ht2 Hlr2 Hc1 Hc2 h b r1 r2 r3.
  rewrite run_cons.
  change (handle2 (TrainBatchEnd b1 t1 l1) s2) with (on_train_batch_end2 b1 t1 l1 s2).
  rewrite (on_train_batch_end2_fires b1 t1 last l1 s2 None Ht2 Hlr2 Hc1).
  fold h b r1. cbn [default app].
  set (s2a := after_calls _ _).
  rewrite run_cons.
  change (handle2 (TrainBatchEnd b2 t2 l2) s2a) with (on_train_batch_end2 b2 t2 l2 s2a).
  rewrite (on_train_batch_end2_fires b2 t2 t1 l2 s2a (Some [r1]) eq_refl eq_refl Hc2).
  change (client (base s2a)) with (h ++ closing b ++ opening b).
  change (pid (base s2a)) with (pid b). change (base s2a) with
    (set_client (h ++ closing b ++ opening b) b).
  change (closing (set_client _ b)) with (closing b).
  change (opening (set_client _ b)) with (opening b).
  fold r2. cbn [default app].
  set (s2b := after_calls _ _).
  rewrite run_cons.
  change (handle2 (EpochEnd epoch l3) s2b) with (on_epoch_end2 epoch l3 s2b).
  rewrite (on_epoch_end2_reliable epoch l3 s2b (Some [r1; r2]) eq_refl).
  change (client (base s2b)) with ((h ++ closing b ++ opening b) ++ closing b ++ opening b).
  change (pid (base s2b)) with (pid b).
  rewrite <- (app_assoc h (closing b ++ opening b) (closing b ++ opening b)).
  fold r3. cbn [default app run ret].
  eexists _, _. split; [reflexivity |].
  split; [| split; reflexivity].
  cbn. rewrite <- !app_assoc. reflexivity.
Qed.

(** C7. Merging the report windows is associative, along the code that
    merges them. Two chunk boundaries and the epoch end read three reports
    [r1], [r2], [r3]. The first chunking class merges window by window: it
    concatenates [r1] and [r2] at the second boundary and appends [r3] to
    that accumulation at the epoch end. The second class keeps the list
    [[r1; r2; r3]] and concatenates it in one step at the epoch end. Both
    store the same report under the epoch: the rows of [r1], then those of
    [r2], then those of [r3], so no window is dropped, and the rows of every
    group are those of [r1], [r2] and [r3] with that key, in that order. *)
Theorem report_merge_associative (s1 : JCarbonChunkingCallback)
    (s2 : Chunking (list Report)) (last t1 t2 : float) (b1 b2 epoch : Z)
    (l1 l2 l3 : option Logs) :
  same_state s1 s2 ->
  time s1 = Value last ->
  last_report s1 = Value None ->
  chunk_elapsed t1 last (chunking_period_sec s1) = true ->
  chunk_elapsed t2 t1 (chunking_period_sec s1) = true ->
  let evs := [TrainBatchEnd b1 t1 l1; TrainBatchEnd b2 t2 l2; EpochEnd epoch l3] in
  exists r1 r2 r3 new outs1 s1' outs2 s2' frame,
    run handle evs s1 = Returns outs1 s1'
    /\ run handle2 evs s2 = Returns outs2 s2'
    /\ client (base s1') = client (base s1) ++ new
    /\ client (base s2') = client (base s1) ++ new
    /\ windows_read (client (base s1)) new = [r1; r2; r3]
    /\ last_report s1'
       = Value (Some ((to_dataframe r1 ++ to_dataframe r2) ++ to_dataframe r3))
    /\ last_report s2' = Value (Some [r1; r2; r3])
    /\ reports s1' !! epoch = Some frame
    /\ reports s2' !! epoch = Some frame
    /\ frame.*1 = to_dataframe r1 ++ to_dataframe r2 ++ to_dataframe r3
    /\ Forall (fun x => x.2 = epoch) frame
    /\ (forall k g, (k, g) ∈ groupby frame.*1 ->
          g = filter (fun r => key_of r = k) (to_dataframe r1)
              ++ filter (fun r => key_of r = k) (to_dataframe r2)
              ++ filter (fun r => key_of r = k) (to_dataframe r3)).
Proof.
  intros (Hb & Hr & Hp & Ht & Hl) Ht1 Hlr1 Hc1 Hc2 evs.
  assert (Ht2 : time s2 = Value last) by (by rewrite <- Ht).
  assert (Hlr2 : last_report s2 = Value None).
  { rewrite Hlr1 in Hl. simpl in Hl. by destruct (last_report s2) as [| []]. }
  destruct (merge_window_by_window s1 last t1 t2 b1 b2 epoch l1 l2 l3 Ht1 Hlr1 Hc1 Hc2)
    as (outs1 & s1' & Hrun1 & Hcl1 & Hacc1 & Hrep1).
  rewrite Hp in Hc1, Hc2.
  destruct (merge_at_epoch_end s2 last t1 t2 b1 b2 epoch l1 l2 l3 Ht2 Hlr2 Hc1 Hc2)
    as (outs2 & s2' & Hrun2 & Hcl2 & Hacc2 & Hrep2).
  rewrite <- Hb, <- Hr in *.
  set (h := client (base s1)) in *. set (b := base s1) in *.
  set (r1 := reads (h ++ [ok (Stop (pid b))])) in *.
  set (r2 := reads ((h ++ closing b ++ opening b) ++ [ok (Stop (pid b))])) in *.
  set (r3 := reads ((h ++ (closing b ++ opening b) ++ closing b ++ opening b)
                      ++ [ok (Stop (pid b))])) in *.
  exists r1, r2, r3,
    ((closing b ++ opening b) ++ (closing b ++ opening b) ++ closing b),
    outs1, s1', outs2, s2',
    (to_epoch_frame ((to_dataframe r1 ++ to_dataframe r2) ++ to_dataframe r3) epoch).
  split; [exact Hrun1 |]. split; [exact Hrun2 |].
  split; [exact Hcl1 |]. split; [exact Hcl2 |].
  split.
  { rewrite !windows_read_app, !windows_read_closing, !windows_read_opening.
    rewrite !app_nil_r. subst r1 r2 r3. cbn [app].
    by rewrite <- !app_assoc. }
  split; [exact Hacc1 |]. split; [exact Hacc2 |].
  split; [rewrite Hrep1; apply lookup_insert_eq |].
  split.
  { rewrite Hrep2, lookup_insert_eq. cbn [map concat].
    by rewrite app_nil_r, app_assoc. }
  rewrite to_epoch_frame_rows, <- app_assoc.
  split; [reflexivity |].
  split; [rewrite app_assoc; apply to_epoch_frame_stamped |].
  intros k g Hg. apply elem_of_groupby in Hg as [_ ->].
  by rewrite !filter_app.
Qed.

End Merge.

(** ** More on the digest *)

Lemma written_snoc (gs : list (key * Series)) (kg : key * Series) (K : string) :
  written (gs ++ [kg]) K
  = if bool_decide (key_unit kg.1 = "JOULES" /\ key_type kg.1 +:+ "-J" = K)
    then Some (positive_sum kg.2) else written gs K.
Proof. unfold written. by rewrite fold_left_app. Qed.

Lemma lookup_fold_write_energy_sum (gs : list (key * Series)) (m : Logs) (K : string) :
  fold_left write_energy_sum gs m !! K
  = match written gs K with
    | Some v => Some v
    | None => m !! K
    end.
Proof.
  induction gs as [| kg gs IH] using rev_ind; [reflexivity |].
  rewrite fold_left_app, written_snoc. simpl. unfold write_energy_sum at 1.
  case_bool_decide as Hu; case_bool_decide as HK.
  - destruct HK as [_ <-]. apply lookup_insert_eq.
  - rewrite lookup_insert_ne; [exact IH |]. intros Heq. apply HK. by split.
  - by destruct HK.
  - exact IH.
Qed.

Lemma written_in_report (df : Series) (K : string) (v : float) :
  written (groupby df) K = Some v ->
  exists r, r ∈ df /\ sample_unit r = "JOULES" /\ K = component_type r +:+ "-J".
Proof.
  assert (Hgen : forall gs : list (key * Series),
             (forall kg, kg ∈ gs -> kg.1 ∈ map key_of df) ->
             written gs K = Some v ->
             exists r, r ∈ df /\ sample_unit r = "JOULES"
                       /\ K = component_type r +:+ "-J").
  { induction gs as [| kg gs IH] using rev_ind; intros Hin Hw; [discriminate |].
    rewrite written_snoc in Hw. case_bool_decide as HK.
    - destruct HK as [Hu <-].
      assert (Hk : kg.1 ∈ map key_of df) by (apply Hin, elem_of_app; right; by left).
      apply list_elem_of_fmap in Hk as (r & Hr & Hrin).
      exists r. split; [exact Hrin |]. rewrite Hr in *. by split.
    - apply IH; [| exact Hw]. intros kg' Hkg'. apply Hin, elem_of_app. by left. }
  apply Hgen. intros [k g] Hin. by apply elem_of_groupby in Hin as [Hk _].
Qed.

Lemma fold_write_energy_sum_nonempty (gs : list (key * Series)) (m : Logs) :
  m <> ∅ -> fold_left write_energy_sum gs m <> ∅.
Proof.
  intros Hm. apply map_choose in Hm as (k & v & Hk). intros Hempty.
  pose proof (lookup_fold_write_energy_sum gs m k) as H.
  rewrite Hempty, lookup_empty, Hk in H. by destruct (written gs k).
Qed.

(** X6. [add_jcarbon_log] never raises, whatever units the report holds
    (a unit outside the [UNITS] table is never looked up), hands [None] back
    as [None], and changes only keys of the form ['<component_type>-J'] for a
    component type that has a JOULES sample in the report: every other entry
    of [logs], such as the loss, is as it was. *)
Theorem add_jcarbon_log_touches_only_energy_keys {S} (df : Series)
    (logs : option Logs) (st : S) :
  exists logs',
    add_jcarbon_log df logs st = Returns logs' st
    /\ (logs = None <-> logs' = None)
    /\ (forall m m' K,
          logs = Some m -> logs' = Some m' ->
          (forall r, r ∈ df -> sample_unit r = "JOULES" ->
                     K <> component_type r +:+ "-J") ->
          m' !! K = m !! K).
Proof.
  exists (digest df logs). split; [apply add_jcarbon_log_digest |].
  unfold digest. split.
  - destruct logs as [m |]; simpl; [| done].
    destruct (negb _); simpl; split; discriminate.
  - intros m m' K -> Hm' HK. destruct (truthy (Some m)); simpl in Hm';
      inversion Hm'; subst; [| reflexivity].
    rewrite lookup_fold_write_energy_sum.
    destruct (written (groupby df) K) as [v |] eqn:Hw; [| reflexivity].
    apply written_in_report in Hw as (r & Hr & Hu & HKr). by destruct (HK r Hr Hu).
Qed.

(** X7. A report without a JOULES sample leaves [logs] exactly as it was:
    the other units are not summarised. *)
Theorem add_jcarbon_log_ignores_other_units {S} (df : Series) (logs : option Logs)
    (st : S) :
  (forall r, r ∈ df -> sample_unit r <> "JOULES") ->
  add_jcarbon_log df logs st = Returns logs st.
Proof.
  intros Hdf. rewrite add_jcarbon_log_digest. f_equal.
  unfold digest. destruct (truthy logs); [| reflexivity].
  destruct logs as [m |]; [| reflexivity]. simpl. f_equal.
  apply map_eq. intros K. rewrite lookup_fold_write_energy_sum.
  destruct (written (groupby df) K) as [v |] eqn:Hw; [| reflexivity].
  apply written_in_report in Hw as (r & Hr & Hu & _). by destruct (Hdf r Hr).
Qed.

(** X8. The digest is idempotent: logging the same report a second time
    into the dictionary changes nothing, so the chunking callback may log a
    growing accumulation at every boundary without counting a window twice. *)
Theorem add_jcarbon_log_idempotent {S} (df : Series) (logs : option Logs) (st : S) :
  (logs' <- add_jcarbon_log df logs ;; add_jcarbon_log df logs')%py st
  = add_jcarbon_log df logs st.
Proof.
  unfold bind. rewrite !add_jcarbon_log_digest. f_equal.
  destruct logs as [m |]; [| reflexivity].
  destruct (truthy (Some m)) eqn:Ht.
  - apply truthy_nonempty in Ht. rewrite (digest_nonempty df m Ht).
    rewrite digest_nonempty by (by apply fold_write_energy_sum_nonempty).
    f_equal. apply map_eq. intros K. rewrite !lookup_fold_write_energy_sum.
    by destruct (written (groupby df) K).
  - unfold digest. by rewrite Ht, Ht.
Qed.

(** ** The epoch callback and the batch callback *)

Lemma rrun_cons {S} (h : revent -> M S (option Logs)) (ev : revent)
    (evs : list revent) (s : S) :
  rrun h (ev :: evs) s =
  match h ev s with
  | Returns l s1 =>
      match rrun h evs s1 with
      | Returns ls s2 => Returns (l :: ls) s2
      | Raises e s2 => Raises e s2
      end
  | Raises e s1 => Raises e s1
  end.
Proof.
  simpl. unfold bind. destruct (h ev s) as [l s1 | e s1]; [| reflexivity].
  destruct (rrun h evs s1); reflexivity.
Qed.

(** X9. [JCarbonBatchCallback.on_train_batch_end] for a batch whose
    [on_train_batch_begin] never ran (no entry in [reports]) raises [KeyError]
    before anything else happens: the backend is not called, so a session that
    is open stays open, and the object is unchanged. *)
Theorem batch_end_without_begin (batch : Z) (logs : option Logs)
    (self : Reporting (list Series)) :
  r_reports self !! batch = None ->
  b_on_train_batch_end batch logs self = Raises KeyError self.
Proof.
  intros H. unfold b_on_train_batch_end, bind, getitem. by rewrite H.
Qed.

Section Plain.

Hypothesis Hrel : reliable.

Lemma e_on_epoch_end_reliable (epoch : Z) (logs : option Logs)
    (self : Reporting Series) :
  let b := r_base self in
  let w := to_dataframe (reads (client b ++ [ok (Stop (pid b))])) in
  e_on_epoch_end epoch logs self =
  Returns (digest w logs)
    {| r_base := set_client (client b ++ closing b) b;
       r_reports := <[epoch := w]> (r_reports self) |}.
Proof.
  intros b w. unfold e_on_epoch_end, bind, in_rbase, lift.
  rewrite (stop_jcarbon_reliable Hrel). simpl. unfold getitem. simpl.
  rewrite lookup_insert_eq. apply add_jcarbon_log_digest.
Qed.

(** X10. With a backend that does not fail, an epoch of the chunking
    callback in which no chunk boundary is crossed does what
    [JCarbonEpochCallback] does: the same backend calls, the same [logs]
    handed back at the epoch end, and the same rows in [reports], those of
    the one window read at the epoch end, which the chunking callback stamps
    with the epoch and the epoch callback does not. *)
Theorem unchunked_epoch_is_epoch_callback (s : Reporting Series)
    (c : JCarbonChunkingCallback) (epoch : Z) (t0 : float) (logs0 : option Logs)
    (batches : list (Z * float * option Logs)) (logs1 : option Logs) :
  r_base s = base c ->
  crossings (chunking_period_sec c) t0 (batch_times batches) = 0%nat ->
  let b := base c in
  let w := to_dataframe (reads (client b ++ opening b ++ [ok (Stop (pid b))])) in
  exists outs s' outs' c' frame,
    rrun ehandle [REpochBegin epoch logs0; REpochEnd epoch logs1] s = Returns outs s'
    /\ run handle (epoch_events epoch t0 logs0 batches logs1) c = Returns outs' c'
    /\ r_base s' = base c'
    /\ client (base c') = client b ++ opening b ++ closing b
    /\ last outs = last outs'
    /\ r_reports s' !! epoch = Some w
    /\ reports c' !! epoch = Some frame
    /\ frame.*1 = w
    /\ Forall (fun x => x.2 = epoch) frame.
Proof.
  intros Hb Hn b w.
  destruct (run_epoch_windows Hrel c epoch t0 logs0 batches logs1)
    as (outs' & c' & Hrun & Hb' & Hr & _).
  rewrite Hn in *.
  rewrite rrun_cons.
  change (ehandle (REpochBegin epoch logs0) s)
    with (bind (e_on_epoch_begin epoch logs0) (fun _ => ret logs0) s).
  unfold bind at 1, e_on_epoch_begin, in_rbase, lift.
  rewrite (start_jcarbon_reliable Hrel). unfold ret at 1.
  rewrite rrun_cons.
  change (ehandle (REpochEnd epoch logs1) ?x) with (e_on_epoch_end epoch logs1 x).
  rewrite e_on_epoch_end_reliable. simpl rrun. unfold ret.
  eexists _, _, _, c', (to_epoch_frame w epoch).
  split; [reflexivity |]. split; [exact Hrun |].
  rewrite Hb', Hr, Hb.
  assert (Hw : windows_read (client (base c)) (epoch_calls (base c) 0)
               = [reads ((client (base c) ++ opening (base c))
                           ++ [ok (Stop (pid (base c)))])]).
  { unfold epoch_calls. cbn [replicate concat]. rewrite app_nil_l.
    by rewrite windows_read_app, windows_read_opening, windows_read_closing. }
  rewrite !Hw. cbn [map concat]. rewrite app_nil_r.
  split; [| split; [| split; [| split; [| split; [| split]]]]].
  - unfold epoch_calls, set_client. simpl. f_equal. by rewrite <- !app_assoc.
  - unfold epoch_calls. simpl. reflexivity.
  - rewrite app_comm_cons, last_snoc. subst w b. simpl. by rewrite <- !app_assoc.
  - subst w b. simpl. rewrite lookup_insert_eq. by rewrite <- !app_assoc.
  - subst w b. rewrite lookup_insert_eq. by rewrite <- !app_assoc.
  - apply to_epoch_frame_rows.
  - apply to_epoch_frame_stamped.
Qed.

Lemma b_on_train_batch_begin_reliable (batch : Z) (logs : option Logs)
    (self : Reporting (list Series)) :
  b_on_train_batch_begin batch logs self =
  Returns tt
    {| r_base := set_client (client (r_base self) ++ opening (r_base self)) (r_base self);
       r_reports := <[batch := []]> (r_reports self) |}.
Proof.
  unfold b_on_train_batch_begin, bind, in_rbase, lift.
  by rewrite (start_jcarbon_reliable Hrel).
Qed.

Lemma b_on_train_batch_end_reliable (batch : Z) (logs : option Logs)
    (self : Reporting (list Series)) (l : list Series) :
  r_reports self !! batch = Some l ->
  let b := r_base self in
  let w := to_dataframe (reads (client b ++ [ok (Stop (pid b))])) in
  let self' := {| r_base := set_client (client b ++ closing b) b;
                  r_reports := <[batch := l ++ [w]]> (r_reports self) |} in
  b_on_train_batch_end batch logs self =
  if truthy logs then Raises AttributeError self' else Returns logs self'.
Proof.
  intros Hl b w self'. unfold b_on_train_batch_end, bind, getitem, in_rbase, lift.
  rewrite Hl, (stop_jcarbon_reliable Hrel). simpl.
  rewrite lookup_insert_eq. unfold add_jcarbon_log_list.
  by destruct (truthy logs).
Qed.

(** X11. With a backend that does not fail, one batch of
    [JCarbonBatchCallback] stops the session and appends the window to
    [reports], and then raises [AttributeError] exactly when [logs] is a
    non-empty dictionary, because [add_jcarbon_log] is handed the list of the
    batch and a list has no [groupby]; only with [logs] absent or empty does
    the handler return. *)
Theorem batch_callback_raises_with_logs (self : Reporting (list Series))
    (batch : Z) (logs0 logs : option Logs) :
  let b := r_base self in
  let w := to_dataframe (reads (client b ++ opening b ++ [ok (Stop (pid b))])) in
  let self' := {| r_base := set_client (client b ++ opening b ++ closing b) b;
                  r_reports := <[batch := [w]]> (r_reports self) |} in
  rrun bhandle [RBatchBegin batch logs0; RBatchEnd batch logs] self
  = if truthy logs then Raises AttributeError self'
    else Returns [logs0; logs] self'.
Proof.
  intros b w self'. rewrite rrun_cons.
  change (bhandle (RBatchBegin batch logs0) self)
    with (bind (b_on_train_batch_begin batch logs0) (fun _ => ret logs0) self).
  unfold bind at 1. rewrite b_on_train_batch_begin_reliable. unfold ret at 1.
  rewrite rrun_cons.
  change (bhandle (RBatchEnd batch logs) ?x) with (b_on_train_batch_end batch logs x).
  erewrite b_on_train_batch_end_reliable by apply lookup_insert_eq.
  cbn [r_base r_reports client pid set_client].
  subst self' w b. rewrite insert_insert_eq, <- !app_assoc. simpl.
  by destruct (truthy logs).
Qed.

End Plain.

(** ** The timestamp-tracking callback *)

Lemma keeps_on_epoch_begin_period {L} (epoch : Z) (now : float) (logs : option Logs) :
  keeps (chunking_period_sec (L:=L)) (on_epoch_begin epoch now logs).
Proof. unfold on_epoch_begin, in_base. keeps_auto. Qed.

Lemma keeps_on_train_batch_end_period (batch : Z) (now : float) (logs : option Logs) :
  keeps (chunking_period_sec (L:=Series)) (on_train_batch_end batch now logs).
Proof. apply (keeps_handle_period (TrainBatchEnd batch now logs)). Qed.

Lemma keeps_on_epoch_end_period (epoch : Z) (logs : option Logs) :
  keeps (chunking_period_sec (L:=Series)) (on_epoch_end epoch logs).
Proof. apply (keeps_handle_period (EpochEnd epoch logs)). Qed.

Ltac keeps_inherited :=
  first
    [ apply (keeps_lift_part _ chunking set_chunking chunking_period_sec);
      [by intros | by intros |]
    | apply keeps_on_epoch_begin_period
    | apply keeps_on_train_batch_end_period
    | apply keeps_on_epoch_end_period ].

Lemma keeps_xhandle_period (ev : xevent) :
  keeps (fun s => chunking_period_sec (chunking s)) (xhandle ev).
Proof.
  destruct ev; unfold xhandle, x_on_epoch_begin, x_on_train_batch_begin,
    x_on_train_batch_end, x_on_epoch_end, in_chunking; cbv zeta;
    repeat first [keeps_step | keeps_inherited].
Qed.

(** X12. [JCarbonExperimentCallback.__init__] does not pass its
    [chunking_period_sec] on: whatever value it is given, the object is the one
    built with the default, and along any run its chunk boundary is tested
    against the default period of 2 seconds. *)
Theorem experiment_ignores_chunking_period (getpid period : Z) (sigs : list string)
    (chunk : float) (evs : list xevent) :
  new_experiment getpid period sigs chunk
  = new_experiment getpid period sigs DEFAULT_PERIOD_SECS
  /\ chunking_period_sec
       (chunking (state_of (xrun xhandle evs (new_experiment getpid period sigs chunk))))
     = 2%float.
Proof.
  split; [reflexivity |].
  by rewrite (keeps_xrun (fun s => chunking_period_sec (chunking s)) xhandle evs
                keeps_xhandle_period).
Qed.

Lemma bind_in_chunking_returns {A B} (m : M JCarbonChunkingCallback A)
    (k : A -> M JCarbonExperimentCallback B) (s s' : JCarbonExperimentCallback) (b : B) :
  (forall a, keeps chunking (k a)) ->
  bind (in_chunking m) k s = Returns b s' ->
  exists a, m (chunking s) = Returns a (chunking s').
Proof.
  intros Hk. unfold bind, in_chunking, lift.
  destruct (m (chunking s)) as [a c | e c]; [| discriminate].
  intros H. exists a. specialize (Hk a (set_chunking c s)). rewrite H in Hk.
  simpl in Hk. by rewrite Hk.
Qed.

Lemma xhandle_inherited (ev : xevent) (s s' : JCarbonExperimentCallback) :
  xhandle ev s = Returns tt s' ->
  exists outs, run handle (inherited ev) (chunking s) = Returns outs (chunking s').
Proof.
  destruct ev as [epoch now | batch now | batch now now' | epoch]; simpl; intros H.
  - apply bind_in_chunking_returns in H as [a Ha]; [| intros; keeps_auto].
    exists [None]. unfold bind. by rewrite Ha.
  - inversion H; subst. by exists [].
  - apply bind_in_chunking_returns in H as [a Ha];
      [| intros; cbv zeta; keeps_auto].
    exists [a]. unfold bind. by rewrite Ha.
  - apply bind_in_chunking_returns in H as [a Ha]; [| intros; keeps_auto].
    exists [a]. unfold bind. by rewrite Ha.
Qed.

(** X13. Tracking timestamps does not disturb the energy side: when a run
    of [JCarbonExperimentCallback] returns, the state it inherits from
    [JCarbonChunkingCallback] (backend calls made, [reports], accumulation,
    reference time) is the one the chunking callback reaches on the same
    epoch and batch-end events, called without [logs]. *)
Theorem timestamp_tracking_keeps_energy_side (evs : list xevent)
    (s s' : JCarbonExperimentCallback) :
  xrun xhandle evs s = Returns tt s' ->
  exists outs,
    run handle (concat (map inherited evs)) (chunking s) = Returns outs (chunking s').
Proof.
  revert s. induction evs as [| ev evs IH]; intros s H.
  - inversion H; subst. by exists [].
  - simpl in H. unfold bind in H.
    destruct (xhandle ev s) as [[] s1 | e s1] eqn:Hev; [| discriminate].
    apply xhandle_inherited in Hev as [o1 Ho1].
    apply IH in H as [o2 Ho2].
    exists (o1 ++ o2). simpl. by rewrite run_app, Ho1, Ho2.
Qed.

Lemma xrun_app {S} (h : xevent -> M S unit) (evs1 evs2 : list xevent) (s : S) :
  xrun h (evs1 ++ evs2) s =
  match xrun h evs1 s with
  | Returns _ s1 => xrun h evs2 s1
  | Raises e s1 => Raises e s1
  end.
Proof.
  revert s. induction evs1 as [| ev evs1 IH]; intros s; simpl; [reflexivity |].
  unfold bind. destruct (h ev s) as [u s1 | e s1]; [apply IH | reflexivity].
Qed.

Lemma py_int_clock {S} (t : float) (z : Z) (s : S) :
  clock_nanos t = Some z -> py_int (nanos (PyFloat t)) s = Returns z s.
Proof.
  unfold clock_nanos, py_int, nanos.
  destruct (Prim2SF (1000000000 * t)) as [| | | sg m e]; simpl;
    intros H; inversion H; reflexivity.
Qed.

Section Timeline.

Hypothesis Hrel : reliable.

Lemma on_train_batch_end_returns (batch : Z) (now last : float) (logs : option Logs)
    (c : JCarbonChunkingCallback) (lr : option Series) :
  time c = Value last ->
  last_report c = Value lr ->
  exists l c' last' lr',
    on_train_batch_end batch now logs c = Returns l c'
    /\ time c' = Value last' /\ last_report c' = Value lr'.
Proof.
  intros Ht Hlr. destruct (chunk_elapsed now last (chunking_period_sec c)) eqn:Hc.
  - rewrite (on_train_batch_end_fires Hrel batch now last logs c lr Ht Hlr Hc).
    by eexists _, _, _, _.
  - rewrite (on_train_batch_end_idle batch now last logs c Ht Hc).
    by eexists _, _, _, _.
Qed.

(** One batch: its begin and its end add one row to the buffer of the
    epoch. *)
Lemma x_batch_adds_row (b : Z * float * float * float) (s : JCarbonExperimentCallback)
    (last : float) (lr : option Series) (cur : option (list BatchRow)) :
  time (chunking s) = Value last ->
  last_report (chunking s) = Value lr ->
  curr_batch_timestamps s = Value cur ->
  is_Some (clock_nanos b.1.1.2) ->
  is_Some (clock_nanos b.1.2) ->
  exists s' last' lr',
    xrun xhandle [XBatchBegin b.1.1.1 b.1.1.2; XBatchEnd b.1.1.1 b.1.2 b.2] s
    = Returns tt s'
    /\ time (chunking s') = Value last'
    /\ last_report (chunking s') = Value lr'
    /\ curr_batch_timestamps s' = Value (Some (from_dict cur ++ [batch_row b]))
    /\ timestamps s' = timestamps s
    /\ batch_timestamps s' = batch_timestamps s.
Proof.
  destruct b as [[[i t1] t2] t3]. simpl.
  intros Ht Hlr Hcur [z1 Hz1] [z2 Hz2].
  destruct (on_train_batch_end_returns i t3 last None (chunking s) lr Ht Hlr)
    as (l & c' & last' & lr' & Hend & Ht' & Hlr').
  cbn -[py_int nanos on_train_batch_end].
  unfold bind, x_on_train_batch_begin, modify, x_on_train_batch_end, bind,
    in_chunking, lift. cbn -[py_int nanos on_train_batch_end]. rewrite Hend.
  rewrite (py_int_clock t2 z2) by exact Hz2. cbn -[py_int nanos].
  unfold read_attr. cbn -[py_int nanos].
  rewrite (py_int_clock t1 z1) by exact Hz1. cbn -[py_int nanos].
  rewrite Hcur. unfold batch_row. cbn -[py_int nanos clock_nanos].
  rewrite Hz1, Hz2. cbn.
  destruct cur as [rows |]; cbn; eexists _, last', lr';
    (split; [reflexivity |]); cbn; by repeat split.
Qed.

Lemma x_batches_add_rows (batches : list (Z * float * float * float)) :
  forall (s : JCarbonExperimentCallback) (last : float) (lr : option Series)
         (cur : option (list BatchRow)),
    time (chunking s) = Value last ->
    last_report (chunking s) = Value lr ->
    curr_batch_timestamps s = Value cur ->
    Forall (fun b => is_Some (clock_nanos b.1.1.2) /\ is_Some (clock_nanos b.1.2))
      batches ->
    exists s' last' lr' cur',
      xrun xhandle
        (concat (map (fun b => [XBatchBegin b.1.1.1 b.1.1.2;
                                XBatchEnd b.1.1.1 b.1.2 b.2]) batches)) s
      = Returns tt s'
      /\ time (chunking s') = Value last'
      /\ last_report (chunking s') = Value lr'
      /\ curr_batch_timestamps s' = Value cur'
      /\ from_dict cur' = from_dict cur ++ map batch_row batches
      /\ timestamps s' = timestamps s
      /\ batch_timestamps s' = batch_timestamps s.
Proof.
  induction batches as [| b batches IH]; intros s last lr cur Ht Hlr Hcur Hfin.
  - exists s, last, lr, cur. simpl. rewrite app_nil_r. by repeat split.
  - apply Forall_cons in Hfin as [[Hb1 Hb2] Hfin].
    destruct (x_batch_adds_row b s last lr cur Ht Hlr Hcur Hb1 Hb2)
      as (s1 & last1 & lr1 & Hrun1 & Ht1 & Hlr1 & Hcur1 & Hts1 & Hbt1).
    destruct (IH s1 last1 lr1 _ Ht1 Hlr1 Hcur1 Hfin)
      as (s' & last' & lr' & cur' & Hrun & Ht' & Hlr' & Hcur' & Hrows & Hts & Hbt).
    exists s', last', lr', cur'.
    cbn [map concat]. rewrite xrun_app, Hrun1, Hrun.
    repeat split; try done.
    + rewrite Hrows. simpl. by rewrite <- app_assoc.
    + by rewrite Hts.
    + by rewrite Hbt.
Qed.

(** X14. With a backend that does not fail and clock readings that are
    numbers, an epoch of [JCarbonExperimentCallback] returns and leaves under
    the epoch's key of [timestamps] exactly one row per batch, in the order the
    batches ran, each with the batch index it was called with (repeated or
    skipped indices are kept as they come), the begin and end clocks in
    nanoseconds, and the epoch; an epoch without batches leaves an empty
    table. *)
Theorem timeline_has_one_row_per_batch (s : JCarbonExperimentCallback) (epoch : Z)
    (t0 : float) (batches : list (Z * float * float * float)) :
  Forall (fun b => is_Some (clock_nanos b.1.1.2) /\ is_Some (clock_nanos b.1.2))
    batches ->
  exists s',
    xrun xhandle (xepoch_events epoch t0 batches) s = Returns tt s'
    /\ timestamps s' !! epoch = Some (assign_epoch (map batch_row batches) epoch)
    /\ (forall e, e <> epoch -> timestamps s' !! e = timestamps s !! e).
Proof.
  intros Hfin. unfold xepoch_events.
  change (xrun xhandle (?ev :: ?evs) s) with (bind (xhandle ev) (fun _ => xrun xhandle evs) s).
  unfold bind at 1. cbn [xhandle]. unfold x_on_epoch_begin, bind, in_chunking, lift.
  rewrite (on_epoch_begin_reliable Hrel). unfold modify at 1.
  set (s0 := set_curr_batch_timestamps _ _).
  destruct (x_batches_add_rows batches s0 t0 None None eq_refl eq_refl eq_refl Hfin)
    as (s1 & last' & lr' & cur' & Hrun & Ht' & Hlr' & Hcur' & Hrows & Hts & Hbt).
  rewrite xrun_app, Hrun. simpl xrun. unfold bind at 1.
  unfold x_on_epoch_end, bind, in_chunking, lift.
  rewrite (on_epoch_end_reliable Hrel epoch None (chunking s1) lr' Hlr').
  unfold get, read_attr. cbn [batch_timestamps set_chunking curr_batch_timestamps].
  assert (Hdf : from_dict cur' = map batch_row batches) by (by rewrite Hrows).
  destruct (batch_timestamps s1); cbn; rewrite Hcur'; cbn;
    rewrite ?app_nil_r, Hdf, Hts;
    eexists; (split; [reflexivity |]); cbn;
    (split; [apply lookup_insert_eq | intros e He; by apply lookup_insert_ne]).
Qed.

(** C5. At every epoch end of the timestamp-tracking class that follows
    an epoch begin, [on_epoch_end] returns and leaves under the epoch's key
    of [timestamps], the table that holds the stamped rows, the rows
    buffered during the epoch, every one stamped with the epoch; the rows
    stored for the other epochs stay as they were. The buffer of the epoch
    is left as it is by [on_epoch_end]; the [on_epoch_begin] that follows
    returns, resets it to [None] before any row of the next epoch is
    recorded, and leaves [timestamps] alone. *)
Theorem epoch_rows_stamped_and_kept (epoch next : Z) (now : float)
    (self : JCarbonExperimentCallback) (lr : option Series)
    (cur : option (list BatchRow)) :
  last_report (chunking self) = Value lr ->
  curr_batch_timestamps self = Value cur ->
  exists self' frame self'',
    x_on_epoch_end epoch self = Returns tt self'
    /\ timestamps self' !! epoch = Some frame
    /\ frame.*1 = default [] cur
    /\ Forall (fun x => x.2 = epoch) frame
    /\ (forall e, e <> epoch -> timestamps self' !! e = timestamps self !! e)
    /\ curr_batch_timestamps self' = Value cur
    /\ x_on_epoch_begin next now self' = Returns tt self''
    /\ curr_batch_timestamps self'' = Value None
    /\ timestamps self'' = timestamps self'.
Proof.
  intros Hlr Hcur.
  assert (Hend : exists self', x_on_epoch_end epoch self = Returns tt self').
  { unfold x_on_epoch_end, bind, in_chunking, lift, get.
    rewrite (on_epoch_end_reliable Hrel epoch None (chunking self) lr Hlr).
    cbv beta iota.
    change (batch_timestamps (set_chunking ?c self)) with (batch_timestamps self).
    destruct (batch_timestamps self);
      unfold bind, read_attr, modify, ret, pd_concat; simpl; rewrite Hcur; simpl;
      eexists; reflexivity. }
  destruct Hend as [self' Hend].
  destruct (x_on_epoch_end_returns _ _ _ Hend) as (cur' & Hc & Hc' & Hbt & Hts).
  rewrite Hcur in Hc. injection Hc as <-.
  assert (Hbeg : exists self'', x_on_epoch_begin next now self' = Returns tt self'').
  { unfold x_on_epoch_begin, bind, in_chunking, lift.
    rewrite (on_epoch_begin_reliable Hrel). simpl. eexists; reflexivity. }
  destruct Hbeg as [self'' Hbeg].
  destruct (x_on_epoch_begin_clears _ _ _ _ Hbeg) as (Hclr & Hts' & _).
  exists self', (assign_epoch (from_dict cur) epoch), self''.
  split; [exact Hend |]. rewrite Hts.
  split; [apply lookup_insert_eq |].
  split; [rewrite assign_epoch_rows; by destruct cur |].
  split; [apply assign_epoch_stamped |].
  split; [intros e He; by apply lookup_insert_ne |].
  split; [exact Hc' |]. split; [exact Hbeg |]. split; [exact Hclr |].
  by rewrite Hts', Hts.
Qed.

End Timeline.

(** ** The chunk boundary test *)

Lemma SFltb_irrefl (x : spec_float) : SFltb x x = false.
Proof.
  unfold SFltb. destruct x as [| [] | | [] m e]; simpl; try reflexivity;
    rewrite Z.compare_refl; change (Pos.compare_cont Eq m m) with (Pos.compare m m);
    by rewrite Pos.compare_refl.
Qed.

(** X15. The chunk boundary test is strict: a batch that ends exactly
    [chunking_period_sec] after the reference time does not cross the
    boundary; the handler returns with the object and [logs] untouched and no
    backend call. *)
Theorem boundary_test_is_strict (batch : Z) (curr last : float) (logs : option Logs)
    (self : JCarbonChunkingCallback) :
  time self = Value last ->
  chunking_period_sec self = PrimFloat.sub curr last ->
  on_train_batch_end batch curr logs self = Returns logs self.
Proof.
  intros Ht Hp. apply (on_train_batch_end_idle batch curr last logs self Ht).
  rewrite Hp. unfold chunk_elapsed. rewrite ltb_spec. apply SFltb_irrefl.
Qed.

(** ** The dumping callback *)

Lemma report_path_inj (dir : string) (e1 e2 : Z) :
  report_path dir e1 = report_path dir e2 -> e1 = e2.
Proof.
  unfold report_path. intros H.
  apply String.app_inj in H. apply String.app_inj in H.
  apply append_suffix_inj in H. by apply (inj pretty).
Qed.

(** X16. The dump files do not collide: for one output directory the paths
    of two epochs are equal only if the epochs are, and the default
    directories of two process ids are equal only if the process ids are. *)
Theorem dump_paths_do_not_collide (dir : string) (e1 e2 p1 p2 period : Z)
    (sigs : list string) :
  (report_path dir e1 = report_path dir e2 <-> e1 = e2)
  /\ (output_path (new_dumping p1 period sigs None)
      = output_path (new_dumping p2 period sigs None) <-> p1 = p2).
Proof.
  split; split; try (by intros ->).
  - apply report_path_inj.
  - simpl. unfold default_output_path. intros H.
    apply String.app_inj in H. by apply (inj pretty).
Qed.

(** X17. [JCarbonDumpingEpochCallback.on_epoch_end] stops the session and
    then asks for one dump, to the file of the epoch under the output path,
    with the process id and signals of the object; when [stop] fails no dump
    is requested. It never reads a report. *)
Theorem dumping_epoch_end_stops_then_dumps (epoch : Z)
    (self : JCarbonDumpingEpochCallback) :
  let b := d_base self in
  let r := d_on_epoch_end epoch self in
  let stop_failed := fails (client b) (Stop (pid b)) in
  client (d_base (state_of r))
  = client b ++ [{| issued := Stop (pid b); failed := stop_failed |}]
  /\ output_path (state_of r) = output_path self
  /\ dumps (state_of r)
     = (if stop_failed then dumps self
        else dumps self
             ++ [{| dump_after := S (length (client b));
                    dump_pid := pid b;
                    dump_path := report_path (output_path self) epoch;
                    dump_signals := signals b;
                    dump_failed := dump_fails (client b ++ [ok (Stop (pid b))])
                                     (report_path (output_path self) epoch) |}])
  /\ returned r = negb stop_failed
                  && negb (dump_fails (client b ++ [ok (Stop (pid b))])
                             (report_path (output_path self) epoch)).
Proof.
  intros b r stop_failed. subst r.
  unfold d_on_epoch_end, bind, get, in_dbase, lift, invoke, client_dump.
  fold b. fold stop_failed. destruct stop_failed; simpl; [by repeat split |].
  rewrite length_app, Nat.add_1_r.
  by destruct (dump_fails _ _); simpl.
Qed.

(** ** The NVML callback *)

Lemma keeps_nhandle_reports (ev : revent) :
  keeps (n_reports (Sm:=Sampler) (NR:=NvmlReport)) (nhandle ev).
Proof.
  destruct ev; unfold nhandle, n_on_epoch_begin, n_on_epoch_end; cbv zeta;
    keeps_auto.
Qed.

Lemma keeps_rrun {S X} (f : S -> X) (h : revent -> M S (option Logs))
    (evs : list revent) :
  (forall ev, keeps f (h ev)) -> keeps f (rrun h evs).
Proof.
  intros Hh. induction evs as [| ev evs IH]; simpl; [apply keeps_ret |].
  apply keeps_bind; [apply Hh |]. intros l.
  apply keeps_bind; [exact IH |]. intros ls. apply keeps_ret.
Qed.

Lemma rrun_app {S} (h : revent -> M S (option Logs)) (evs1 evs2 : list revent) (s : S) :
  rrun h (evs1 ++ evs2) s =
  match rrun h evs1 s with
  | Returns o1 s1 =>
      match rrun h evs2 s1 with
      | Returns o2 s2 => Returns (o1 ++ o2) s2
      | Raises e s2 => Raises e s2
      end
  | Raises e s1 => Raises e s1
  end.
Proof.
  revert s. induction evs1 as [| ev evs1 IH]; intros s; simpl.
  - destruct (rrun h evs2 s); reflexivity.
  - unfold bind. destruct (h ev s) as [l s1 | e s1]; [| reflexivity].
    rewrite IH. destruct (rrun h evs1 s1) as [o1 s2 | e s2]; [| reflexivity].
    unfold ret. destruct (rrun h evs2 s2); reflexivity.
Qed.

Lemma nvml_epochs (epochs : list (Z * option Logs * option Logs)) :
  forall self : Nvml Sampler NvmlReport,
  exists outs,
    rrun nhandle (plain_epochs epochs) self
    = Returns outs
        {| n_reports := n_reports self;
           n_sampler := Nat.iter (2 * length epochs) sample_nvml (n_sampler self);
           n_last_report :=
             match epochs with
             | [] => n_last_report self
             | _ => Value (Some [create_report
                                   (samples (Nat.iter (2 * length epochs) sample_nvml
                                               (n_sampler self)))])
             end |}.
Proof.
  induction epochs as [| [[e l0] l1] epochs IH]; intros self.
  - exists []. by destruct self.
  - unfold plain_epochs. cbn [map concat]. fold (plain_epochs epochs).
    rewrite rrun_app.
    set (self1 := {| n_reports := n_reports self;
                     n_sampler := sample_nvml (sample_nvml (n_sampler self));
                     n_last_report :=
                       Value (Some [create_report
                                      (samples (sample_nvml (sample_nvml
                                                               (n_sampler self))))]) |}).
    assert (H1 : rrun nhandle [REpochBegin e l0; REpochEnd e l1] self
                 = Returns [l0; l1] self1) by reflexivity.
    cbn [fst snd]. rewrite H1.
    destruct (IH self1) as [outs Hrun]. rewrite Hrun.
    exists ([l0; l1] ++ outs). f_equal. subst self1. cbn [n_reports n_sampler].
    assert (Hit : forall n x, Nat.iter n sample_nvml (sample_nvml x)
                              = sample_nvml (Nat.iter n sample_nvml x)).
    { induction n as [| n IHn]; intros x; simpl; [reflexivity | by rewrite IHn]. }
    replace (2 * length ((e, l0, l1) :: epochs))%nat
      with (S (S (2 * length epochs)))%nat by (simpl; lia).
    cbn [Nat.iter nat_rect]. rewrite !Hit.
    f_equal. destruct epochs; reflexivity.
Qed.

(** X18. [JCarbonNvmlCallback] never stores anything in [reports],
    whatever events it handles and whether or not the run ends with an
    exception. The class has no handler for the batch events: a run that
    starts with one raises [AttributeError] and leaves the object as it was.
    After complete epochs run on a fresh object the sampler has been asked
    to sample twice per epoch, and [last_report] holds a single report, made
    from the samples the sampler holds after the last of these calls. *)
Theorem nvml_callback_never_fills_reports (evs : list revent)
    (self : Nvml Sampler NvmlReport) (sm : Sampler)
    (e : Z * option Logs * option Logs) (epochs : list (Z * option Logs * option Logs)) :
  n_reports (state_of (rrun nhandle evs self)) = n_reports self
  /\ (forall b l,
        rrun nhandle (RBatchBegin b l :: evs) self = Raises AttributeError self
        /\ rrun nhandle (RBatchEnd b l :: evs) self = Raises AttributeError self)
  /\ exists outs,
       rrun nhandle (plain_epochs (e :: epochs)) (new_nvml sm)
       = Returns outs
           {| n_reports := ∅;
              n_sampler := Nat.iter (2 * length (e :: epochs)) sample_nvml sm;
              n_last_report :=
                Value (Some [create_report
                               (samples (Nat.iter (2 * length (e :: epochs))
                                           sample_nvml sm))]) |}.
Proof.
  split; [| split].
  - apply (keeps_rrun n_reports), keeps_nhandle_reports.
  - intros b l. split; reflexivity.
  - apply (nvml_epochs (e :: epochs) (new_nvml sm)).
Qed.

(** ** A purge before every start, in the other classes *)

Lemma purged_getitem {S V} (log : S -> list entry) (d : S -> gmap Z V) (k : Z) :
  adds_purged_starts log (getitem d k).
Proof.
  intros s. exists []. unfold getitem. rewrite app_nil_r. by destruct (d s !! k).
Qed.

Lemma purged_add_jcarbon_log_list {S} (log : S -> list entry) (df : list Series)
    (logs : option Logs) :
  adds_purged_starts log (add_jcarbon_log_list df logs).
Proof.
  intros s. exists []. unfold add_jcarbon_log_list. rewrite app_nil_r.
  by destruct (truthy logs).
Qed.

Lemma purged_rrun {S} (log : S -> list entry) (h : revent -> M S (option Logs))
    (evs : list revent) :
  (forall ev, adds_purged_starts log (h ev)) -> adds_purged_starts log (rrun h evs).
Proof.
  intros Hh. induction evs as [| ev evs IH]; simpl.
  - apply purged_ret.
  - apply purged_bind; [apply Hh |]. intros l.
    apply purged_bind; [exact IH |]. intros ls. apply purged_ret.
Qed.

Lemma purged_in_rbase {R A} (m : M JCarbonCallback A) :
  adds_purged_starts client m ->
  adds_purged_starts (fun s : Reporting R => client (r_base s)) (in_rbase m).
Proof. intros Hm. by apply (purged_lift _ r_base set_r_base client). Qed.

Lemma purged_handle2 (ev : event) :
  adds_purged_starts (fun s : Chunking (list Report) => client (base s)) (handle2 ev).
Proof.
  assert (Habs : adds_purged_starts
                   (fun s : Chunking (list Report) => client (base s)) absorb_report2).
  { unfold absorb_report2.
    apply purged_bind; [apply purged_read_attr |]. intros lr.
    apply purged_bind.
    - destruct lr as [acc |];
        (apply purged_bind; [apply purged_in_base, purged_stop_jcarbon |]);
        intros r; apply purged_ret.
    - intros s. apply purged_bind; [by apply purged_modify |].
      intros _. apply purged_ret. }
  destruct ev as [epoch now logs | batch now logs | epoch logs]; simpl.
  - apply purged_bind; [| intros; apply purged_ret]. unfold on_epoch_begin.
    apply purged_bind; [by apply purged_modify |]. intros _.
    apply purged_bind; [by apply purged_modify |]. intros _.
    apply purged_in_base, purged_start_jcarbon.
  - unfold on_train_batch_end2.
    apply purged_bind; [apply purged_read_attr |]. intros t.
    apply purged_bind; [apply purged_get |]. intros self.
    destruct (chunk_elapsed now t (chunking_period_sec self)); [| apply purged_ret].
    apply purged_bind; [by apply purged_modify |]. intros _.
    apply purged_bind; [exact Habs |]. intros s.
    apply purged_bind; [apply purged_in_base, purged_start_jcarbon |].
    intros _. apply purged_ret.
  - unfold on_epoch_end2.
    apply purged_bind; [exact Habs |]. intros l.
    apply purged_bind; [apply purged_pd_concat |]. intros s.
    apply purged_bind; [apply purged_get |]. intros self.
    apply purged_bind; [by apply purged_modify |]. intros _. apply purged_ret.
Qed.

Lemma purged_ehandle (ev : revent) :
  adds_purged_starts (fun s : Reporting Series => client (r_base s)) (ehandle ev).
Proof.
  destruct ev as [epoch logs | epoch logs | batch logs | batch logs]; simpl;
    try apply purged_ret.
  - apply purged_bind; [| intros; apply purged_ret].
    apply purged_in_rbase, purged_start_jcarbon.
  - unfold e_on_epoch_end.
    apply purged_bind; [apply purged_in_rbase, purged_stop_jcarbon |]. intros r.
    apply purged_bind; [apply purged_get |]. intros self.
    apply purged_bind; [by apply purged_modify |]. intros _.
    apply purged_bind; [apply purged_getitem |]. intros df.
    apply purged_add_jcarbon_log.
Qed.

Lemma purged_bhandle (ev : revent) :
  adds_purged_starts (fun s : Reporting (list Series) => client (r_base s)) (bhandle ev).
Proof.
  destruct ev as [epoch logs | epoch logs | batch logs | batch logs]; simpl;
    try apply purged_ret.
  - apply purged_bind; [| intros; apply purged_ret]. unfold b_on_train_batch_begin.
    apply purged_bind; [apply purged_in_rbase, purged_start_jcarbon |]. intros _.
    apply purged_bind; [apply purged_get |]. intros self. by apply purged_modify.
  - unfold b_on_train_batch_end.
    apply purged_bind; [apply purged_getitem |]. intros l.
    apply purged_bind; [apply purged_in_rbase, purged_stop_jcarbon |]. intros r.
    apply purged_bind; [apply purged_get |]. intros self.
    apply purged_bind; [by apply purged_modify |]. intros _.
    apply purged_bind; [apply purged_getitem |]. intros l'.
    apply purged_add_jcarbon_log_list.
Qed.

(** X19. In the list-accumulation class, the epoch callback and the batch
    callback too, every [start] that is issued follows a [purge] that went
    through, whatever the events and whatever the backend answers. *)
Theorem purge_before_every_start_elsewhere (evs : list event) (revs : list revent)
    (s2 : Chunking (list Report)) (se : Reporting Series)
    (sb : Reporting (list Series)) :
  purged_starts (client (base s2)) = true ->
  purged_starts (client (r_base se)) = true ->
  purged_starts (client (r_base sb)) = true ->
  purged_starts (client (base (state_of (run handle2 evs s2)))) = true
  /\ purged_starts (client (r_base (state_of (rrun ehandle revs se)))) = true
  /\ purged_starts (client (r_base (state_of (rrun bhandle revs sb)))) = true.
Proof.
  intros H2 He Hb. split; [| split].
  - destruct (purged_run (fun s : Chunking (list Report) => client (base s))
                handle2 evs purged_handle2 s2) as (d & Hd & Hp).
    simpl in Hd. rewrite Hd. by apply purged_from_app.
  - destruct (purged_rrun (fun s : Reporting Series => client (r_base s))
                ehandle revs purged_ehandle se) as (d & Hd & Hp).
    simpl in Hd. rewrite Hd. by apply purged_from_app.
  - destruct (purged_rrun (fun s : Reporting (list Series) => client (r_base s))
                bhandle revs purged_bhandle sb) as (d & Hd & Hp).
    simpl in Hd. rewrite Hd. by apply purged_from_app.
Qed.

End Callbacks.

Arguments handle {Report}.
Arguments handle2 {Report}.
Arguments xhandle {Report}.
Arguments on_train_batch_end {Report}.
Arguments same_state {Report}.
Arguments sim {Report} to_dataframe {A B} RA r1 r2.
Arguments x_on_epoch_end {Report}.
Arguments windows_read {Report}.

(** ** The properties at work on sample runs *)

Lemma never_fails_reliable : reliable never_fails.
Proof. intros h c. reflexivity. Qed.

Lemma keras_logs_nonempty : keras_logs <> ∅.
Proof. intros H. apply (f_equal size) in H. vm_compute in H. discriminate. Qed.

Lemma chunking_epoch_start_stop_pairs_witness :
  reliable never_fails
  /\ exists outs self' new,
       run (handle id never_fails reads_cpu)
         (epoch_events 0 0%float (Some keras_logs) five_batches (Some keras_logs))
         chunker
       = Returns outs self'
       /\ client (base self') = client (base chunker) ++ new
       /\ count is_start new
          = S (crossings (chunking_period_sec chunker) 0%float (batch_times five_batches))
       /\ count is_stop new = count is_start new
       /\ alternates false new = true
       /\ session_open (client (base self')) = false.
Proof.
  split.
  - intros h c. reflexivity.
  - exact (chunking_epoch_start_stop_pairs _ id never_fails reads_cpu
             (fun h c => eq_refl) chunker 0 0%float (Some keras_logs) five_batches
             (Some keras_logs)).
Defined.

Lemma chunk_boundary_fires_once_witness :
  reliable never_fails
  /\ chunking_period_sec chunker = 2%float
  /\ batch_times five_batches = [0.5; 1; 1.5; 2.1; 2.6]%float
  /\ firings (fun s => client (base s)) (handle id never_fails reads_cpu)
       (batch_events five_batches)
       (state_of (on_epoch_begin never_fails 0 0%float None chunker))
     = [false; false; false; true; false].
Proof.
  split; [| split; [| split]].
  - intros h c. reflexivity.
  - reflexivity.
  - reflexivity.
  - exact (chunk_boundary_fires_once _ id never_fails reads_cpu (fun h c => eq_refl)
             chunker 0 None five_batches eq_refl eq_refl).
Defined.

Lemma zero_iteration_epoch_witness :
  reliable never_fails
  /\ (exists logs' frame,
        run (handle id never_fails reads_numbered)
          (epoch_events 0 0%float None [] (Some keras_logs)) chunker
        = Returns [None; logs']
            {| base := set_client (opening (base chunker) ++ closing (base chunker))
                         (base chunker);
               reports := <[ 0 := frame ]> ∅;
               chunking_period_sec := 2%float;
               time := Value 0%float;
               last_report := Value (Some [window_sample 3]) |}
        /\ frame.*1 = [window_sample 3]
        /\ Forall (fun x => x.2 = 0) frame
        /\ add_jcarbon_log [window_sample 3] (Some keras_logs) chunker
           = Returns logs' chunker)
  /\ run (handle id never_fails reads_numbered)
       (epoch_events 0 0%float None [] (Some keras_logs)) chunker
     = Returns [None; Some (<[ "CPU-J" := 1%float ]> keras_logs)]
         {| base := set_client (opening (base chunker) ++ closing (base chunker))
                      (base chunker);
            reports := {[ 0 := [(window_sample 3, 0)] ]};
            chunking_period_sec := 2%float;
            time := Value 0%float;
            last_report := Value (Some [window_sample 3]) |}.
Proof.
  split; [| split].
  - intros h c. reflexivity.
  - destruct (zero_iteration_epoch _ id never_fails reads_numbered (fun h c => eq_refl)
                chunker 0 0%float None (Some keras_logs))
      as (logs' & frame & Hrun & Hrows & Hst & Hlog & _).
    exists logs', frame. split; [exact Hrun |]. split; [exact Hrows |].
    split; [exact Hst | exact Hlog].
  - vm_compute. reflexivity.
Defined.

Lemma purge_before_every_start_witness :
  purged_starts (client (base chunker)) = true
  /\ purged_starts
       (client (base (state_of
          (run (handle id (fails_nth 5) reads_cpu)
             (epoch_events 0 0%float None five_batches None) chunker))))
     = true.
Proof.
  split.
  - reflexivity.
  - exact (proj1 (purge_before_every_start _ id (fails_nth 5) reads_cpu
                    (epoch_events 0 0%float None five_batches None) chunker eq_refl)).
Defined.

Lemma chunking_modes_same_reports_witness :
  same_state id chunker chunker2
  /\ sim id
       (fun o1 o2 =>
          o2 = events_logs (epoch_events 0 0%float None five_batches (Some keras_logs))
          /\ length o1 = length o2)
       (run (handle id never_fails reads_cpu)
          (epoch_events 0 0%float None five_batches (Some keras_logs)) chunker)
       (run (handle2 id never_fails reads_cpu)
          (epoch_events 0 0%float None five_batches (Some keras_logs)) chunker2).
Proof.
  assert (H : same_state id chunker chunker2) by (repeat split).
  split.
  - exact H.
  - exact (chunking_modes_same_reports _ id never_fails reads_cpu
             (epoch_events 0 0%float None five_batches (Some keras_logs))
             chunker chunker2 H).
Defined.

(** The eager class logs the digest of the epoch, the list class does not:
    the two do not write the same entries into the metrics map. *)
Lemma chunking_modes_differ_in_logs :
  logged_at_end
    (run (handle id never_fails reads_cpu)
       (epoch_events 0 0%float None [] (Some keras_logs)) chunker) "CPU-J"
  = Some 5%float
  /\ logged_at_end
       (run (handle2 id never_fails reads_cpu)
          (epoch_events 0 0%float None [] (Some keras_logs)) chunker2) "CPU-J"
     = None.
Proof. split; vm_compute; reflexivity. Qed.

Lemma add_jcarbon_log_energy_sums_witness :
  keras_logs <> ∅
  /\ add_jcarbon_log cpu_samples (Some keras_logs) tt
     = Returns (Some (<[ "CPU-J" := 5%float ]> keras_logs)) tt
  /\ add_jcarbon_log mixed_samples (Some keras_logs) tt
     = Returns (Some (<[ "CPU-J" := 5%float ]> keras_logs)) tt
  /\ add_jcarbon_log tenths (Some keras_logs) tt
     = Returns (Some (<[ "CPU-J" := 1%float ]> keras_logs)) tt
  /\ fold_left PrimFloat.add (map sample_value tenths) 0%float
     = 0.99999999999999989%float.
Proof.
  split; [exact keras_logs_nonempty |].
  destruct (add_jcarbon_log_energy_sums cpu_samples keras_logs tt keras_logs_nonempty)
    as (_ & _ & _ & _ & _ & H1 & H2 & H3).
  split; [exact H1 |]. split; [exact H2 |]. split; [exact H3 |].
  vm_compute. reflexivity.
Defined.

(** An empty [logs] dictionary is false in Python: nothing is written, although
    the CPU group has an energy sum of 5.0. *)
Lemma add_jcarbon_log_skips_empty_logs :
  add_jcarbon_log cpu_samples (Some ∅) tt = Returns (Some ∅) tt
  /\ (∅ : Logs) !! "CPU-J" = None
  /\ positive_sum cpu_samples = 5%float.
Proof. repeat split. Qed.

Lemma digest_last_group_wins_witness :
  let g := [sample "CPU" "1" 3%float; sample "CPU" "1" (-5)%float;
            sample "CPU" "1" PrimFloat.nan; sample "CPU" "1" 4%float;
            sample "CPU" "1" 0%float] in
  keras_logs <> ∅
  /\ groupby two_socket_samples
     = [(("CPU", "0", "JOULES", "rapl"), [sample "CPU" "0" 2%float]);
        (("CPU", "1", "JOULES", "rapl"), g);
        (("GPU", "0", "JOULES", "rapl"), [sample "GPU" "0" 7%float])]
  /\ (exists m', add_jcarbon_log two_socket_samples (Some keras_logs) tt
                 = Returns (Some m') tt
                 /\ m' !! "CPU-J" = Some (positive_sum g))
  /\ positive_sum g = 7%float
  /\ positive_sum (energy_of_type "CPU" two_socket_samples) = 9%float.
Proof.
  intros g. split; [exact keras_logs_nonempty |].
  assert (Hg : groupby two_socket_samples
               = [(("CPU", "0", "JOULES", "rapl"), [sample "CPU" "0" 2%float])]
                 ++ (("CPU", "1", "JOULES", "rapl"), g)
                    :: [(("GPU", "0", "JOULES", "rapl"), [sample "GPU" "0" 7%float])])
    by (vm_compute; reflexivity).
  split; [exact Hg |]. split; [| split; vm_compute; reflexivity].
  refine (proj1 (digest_last_group_wins two_socket_samples keras_logs tt
             [(("CPU", "0", "JOULES", "rapl"), [sample "CPU" "0" 2%float])]
             [(("GPU", "0", "JOULES", "rapl"), [sample "GPU" "0" 7%float])]
             ("CPU", "1", "JOULES", "rapl") g
             keras_logs_nonempty Hg eq_refl _)).
  intros kg Hin [_ Ht]. apply list_elem_of_singleton in Hin. subst kg.
  discriminate Ht.
Defined.

(** Two CPU sockets and an empty [logs] dictionary: the two groups are there,
    the second with a positive sum of 7.0, and nothing is logged for the
    component type, neither the sum of the last group nor any other value;
    the same with no dictionary at all. *)
Lemma digest_nothing_logged_without_metrics :
  map fst (groupby two_socket_samples)
  = [("CPU", "0", "JOULES", "rapl"); ("CPU", "1", "JOULES", "rapl");
     ("GPU", "0", "JOULES", "rapl")]
  /\ positive_sum (filter (fun r => key_of r = ("CPU", "1", "JOULES", "rapl"))
                    two_socket_samples) = 7%float
  /\ add_jcarbon_log two_socket_samples (Some ∅) tt = Returns (Some ∅) tt
  /\ (∅ : Logs) !! "CPU-J" = None
  /\ add_jcarbon_log two_socket_samples None tt = Returns None tt.
Proof. repeat split; vm_compute; reflexivity. Qed.

Lemma report_merge_associative_witness :
  let s1 := state_of (on_epoch_begin never_fails 0 0%float None chunker) in
  let s2 := state_of (on_epoch_begin never_fails 0 0%float None chunker2) in
  let evs := [TrainBatchEnd 0 2.5%float (Some keras_logs);
              TrainBatchEnd 1 5%float (Some keras_logs);
              EpochEnd 0 (Some keras_logs)] in
  let rows := [window_sample 3; window_sample 7; window_sample 11] in
  reliable never_fails
  /\ same_state id s1 s2
  /\ time s1 = Value 0%float
  /\ last_report s1 = Value None
  /\ chunk_elapsed 2.5%float 0%float (chunking_period_sec s1) = true
  /\ chunk_elapsed 5%float 2.5%float (chunking_period_sec s1) = true
  /\ (exists r1 r2 r3 new outs1 s1' outs2 s2' frame,
        run (handle id never_fails reads_numbered) evs s1 = Returns outs1 s1'
        /\ run (handle2 id never_fails reads_numbered) evs s2 = Returns outs2 s2'
        /\ client (base s1') = client (base s1) ++ new
        /\ client (base s2') = client (base s1) ++ new
        /\ windows_read reads_numbered (client (base s1)) new = [r1; r2; r3]
        /\ last_report s1' = Value (Some ((r1 ++ r2) ++ r3))
        /\ last_report s2' = Value (Some [r1; r2; r3])
        /\ reports s1' !! 0 = Some frame
        /\ reports s2' !! 0 = Some frame
        /\ frame.*1 = r1 ++ r2 ++ r3
        /\ Forall (fun x => x.2 = 0) frame)
  /\ last_report (state_of (run (handle id never_fails reads_numbered) evs s1))
     = Value (Some rows)
  /\ last_report (state_of (run (handle2 id never_fails reads_numbered) evs s2))
     = Value (Some [[window_sample 3]; [window_sample 7]; [window_sample 11]])
  /\ reports (state_of (run (handle id never_fails reads_numbered) evs s1)) !! 0
     = Some (map (fun r => (r, 0)) rows)
  /\ reports (state_of (run (handle2 id never_fails reads_numbered) evs s2)) !! 0
     = Some (map (fun r => (r, 0)) rows).
Proof.
  intros s1 s2 evs rows.
  assert (Hs : same_state id s1 s2) by (repeat split).
  split; [intros h c; reflexivity |].
  split; [exact Hs |].
  split; [reflexivity |]. split; [reflexivity |].
  split; [reflexivity |]. split; [reflexivity |].
  split; [| repeat split].
  destruct (report_merge_associative _ id never_fails reads_numbered
              (fun h c => eq_refl) s1 s2 0%float 2.5%float 5%float 0 1 0
              (Some keras_logs) (Some keras_logs) (Some keras_logs)
              Hs eq_refl eq_refl eq_refl eq_refl)
    as (r1 & r2 & r3 & new & outs1 & s1' & outs2 & s2' & frame
        & H1 & H2 & H3 & H4 & H5 & H6 & H7 & H8 & H9 & H10 & H11 & _).
  exists r1, r2, r3, new, outs1, s1', outs2, s2', frame.
  repeat (split; [assumption |]). assumption.
Defined.

Lemma boundary_failure_state_witness :
  let self := state_of (on_epoch_begin (fails_nth 2) 0 0%float None chunker) in
  let r := on_train_batch_end id (fails_nth 2) reads_cpu 0 2.5%float
             (Some keras_logs) self in
  time self = Value 0%float
  /\ last_report self = Value None
  /\ chunk_elapsed 2.5%float 0%float (chunking_period_sec self) = true
  /\ r = Raises RpcError (state_of r)
  /\ time (state_of r) = Value 2.5%float
  /\ last_report (state_of r) = Value None
  /\ session_open (client (base (state_of r))) = true.
Proof.
  intros self r.
  assert (Hr : r = Raises RpcError (state_of r)) by (vm_compute; reflexivity).
  pose proof (boundary_failure_state _ id (fails_nth 2) reads_cpu 0 2.5%float 0%float
                (Some keras_logs) self (state_of r) None RpcError
                eq_refl eq_refl eq_refl Hr) as (_ & Ht & _ & _).
  repeat split; try exact Ht; try exact Hr.
Defined.

(** When it is [read] that fails, the session that was open before the event
    has been stopped; when it is [purge], the accumulation has changed too. *)
Lemma boundary_failure_changes_session :
  let self := state_of (on_epoch_begin never_fails 0 0%float None chunker) in
  let r3 := on_train_batch_end id (fails_nth 3) reads_cpu 0 2.5%float
              (Some keras_logs) self in
  let r4 := on_train_batch_end id (fails_nth 4) reads_cpu 0 2.5%float
              (Some keras_logs) self in
  session_open (client (base self)) = true
  /\ last_report self = Value None
  /\ returned r3 = false
  /\ last_report (state_of r3) = Value None
  /\ session_open (client (base (state_of r3))) = false
  /\ returned r4 = false
  /\ last_report (state_of r4) = Value (Some cpu_samples)
  /\ session_open (client (base (state_of r4))) = false.
Proof. repeat split. Qed.

(** Two epochs of one batch each: after the second [on_epoch_end] the
    intermediate table [batch_timestamps], whose rows carry no epoch, holds
    the row of the second epoch only; each epoch's rows, stamped with the
    epoch, are under the epoch's key of [timestamps]. *)
Lemma timeline_table_keeps_last_epoch_only :
  let r := xrun (xhandle id never_fails reads_cpu) two_epochs tracker in
  let row0 := {| bt_batch := 0; bt_start := 100250000000; bt_end := 100500000000 |} in
  let row1 := {| bt_batch := 7; bt_start := 101250000000; bt_end := 101500000000 |} in
  returned r = true
  /\ batch_timestamps (state_of r) = Some [row1]
  /\ timestamps (state_of r) !! 0 = Some [(row0, 0)]
  /\ timestamps (state_of r) !! 1 = Some [(row1, 1)].
Proof. repeat split. Qed.

Lemma epoch_rows_stamped_and_kept_witness :
  let self := state_of (xrun (xhandle id never_fails reads_cpu) (take 7 two_epochs)
                          tracker) in
  let row0 := {| bt_batch := 0; bt_start := 100250000000; bt_end := 100500000000 |} in
  let row1 := {| bt_batch := 7; bt_start := 101250000000; bt_end := 101500000000 |} in
  reliable never_fails
  /\ last_report (chunking self) = Value None
  /\ curr_batch_timestamps self = Value (Some [row1])
  /\ timestamps self !! 0 = Some [(row0, 0)]
  /\ timestamps self !! 1 = None
  /\ exists self' self'',
       x_on_epoch_end id never_fails reads_cpu 1 self = Returns tt self'
       /\ timestamps self' !! 1 = Some [(row1, 1)]
       /\ timestamps self' !! 0 = Some [(row0, 0)]
       /\ x_on_epoch_begin never_fails 2 102%float self' = Returns tt self''
       /\ curr_batch_timestamps self'' = Value None
       /\ timestamps self'' !! 1 = Some [(row1, 1)]
       /\ timestamps self'' !! 0 = Some [(row0, 0)].
Proof.
  intros self row0 row1.
  split; [intros h c; reflexivity |].
  split; [reflexivity |]. split; [reflexivity |].
  split; [reflexivity |]. split; [reflexivity |].
  destruct (epoch_rows_stamped_and_kept _ id never_fails reads_cpu (fun h c => eq_refl)
              1 2 102%float self None (Some [row1]) eq_refl eq_refl)
    as (self' & frame & self'' & Hend & Hf & Hrows & Hst & Hold & _ & Hbeg & Hclr & Hts).
  assert (Hframe : frame = [(row1, 1)]).
  { destruct frame as [| [r e] [| x frame]]; try discriminate Hrows.
    apply Forall_cons in Hst as [He _]. simpl in He, Hrows.
    injection Hrows as ->. by rewrite He. }
  exists self', self''. rewrite Hts, Hf, Hframe, (Hold 0) by discriminate.
  repeat split; try reflexivity; assumption.
Defined.

Arguments ehandle {Report}.
Arguments bhandle {Report}.
Arguments b_on_train_batch_end {Report}.

(** ** The further properties at work on sample runs *)

Lemma handlers_before_first_epoch_begin_witness :
  is_epoch_begin (EpochEnd 0 (Some keras_logs)) = false
  /\ run (handle id never_fails reads_cpu) [EpochEnd 0 (Some keras_logs)] chunker
     = Raises AttributeError chunker
  /\ run (handle2 id never_fails reads_cpu) [EpochEnd 0 (Some keras_logs)] chunker2
     = Raises AttributeError chunker2.
Proof.
  split; [reflexivity |].
  exact (handlers_before_first_epoch_begin _ id never_fails reads_cpu
           (EpochEnd 0 (Some keras_logs)) [] 4242 DEFAULT_PERIOD_MS DEFAULT_SIGNALS
           DEFAULT_PERIOD_SECS eq_refl).
Defined.

Lemma epoch_report_concatenates_windows_witness :
  let r := run (handle id never_fails reads_numbered)
             (epoch_events 0 0%float None five_batches (Some keras_logs)) chunker in
  reliable never_fails
  /\ (exists outs self' new frame,
        r = Returns outs self'
        /\ client (base self') = client (base chunker) ++ new
        /\ length (windows_read reads_numbered (client (base chunker)) new)
           = S (crossings (chunking_period_sec chunker) 0%float
                  (batch_times five_batches))
        /\ reports self' !! 0 = Some frame
        /\ frame.*1
           = concat (map id (windows_read reads_numbered (client (base chunker)) new))
        /\ Forall (fun x => x.2 = 0) frame
        /\ (forall e, e <> 0 -> reports self' !! e = reports chunker !! e))
  /\ crossings (chunking_period_sec chunker) 0%float (batch_times five_batches) = 1%nat
  /\ reports (state_of r) !! 0 = Some [(window_sample 3, 0); (window_sample 7, 0)].
Proof.
  intros r. split; [| split; [| split]].
  - intros h c. reflexivity.
  - exact (epoch_report_concatenates_windows _ id never_fails reads_numbered
             (fun h c => eq_refl) chunker 0 0%float None five_batches
             (Some keras_logs)).
  - reflexivity.
  - reflexivity.
Defined.

Lemma epoch_end_logs_digest_of_whole_epoch_witness :
  let r := run (handle id never_fails reads_cpu)
             (epoch_events 0 0%float None five_batches (Some keras_logs)) chunker in
  reliable never_fails
  /\ (exists outs self' new logs',
        r = Returns outs self'
        /\ client (base self') = client (base chunker) ++ new
        /\ last outs = Some logs'
        /\ add_jcarbon_log
             (concat (map id (windows_read reads_cpu (client (base chunker)) new)))
             (Some keras_logs) self'
           = Returns logs' self')
  /\ logged_at_end r "CPU-J" = Some 10%float
  /\ positive_sum cpu_samples = 5%float
  /\ positive_sum (cpu_samples ++ cpu_samples) = 10%float.
Proof.
  intros r. split; [| split; [| split; [| split]]].
  - intros h c. reflexivity.
  - exact (epoch_end_logs_digest_of_whole_epoch _ id never_fails reads_cpu
             (fun h c => eq_refl) chunker 0 0%float None five_batches
             (Some keras_logs)).
  - vm_compute. reflexivity.
  - vm_compute. reflexivity.
  - vm_compute. reflexivity.
Defined.

Lemma activity_samples_no_energy (r : Row) :
  r ∈ activity_samples -> sample_unit r <> "JOULES".
Proof.
  intros Hr. unfold activity_samples in Hr.
  repeat (apply elem_of_cons in Hr as [-> | Hr]; [discriminate |]).
  by apply elem_of_nil in Hr.
Qed.

Lemma add_jcarbon_log_ignores_other_units_witness :
  (forall r, r ∈ activity_samples -> sample_unit r <> "JOULES")
  /\ add_jcarbon_log activity_samples (Some keras_logs) tt
     = Returns (Some keras_logs) tt.
Proof.
  split.
  - exact activity_samples_no_energy.
  - exact (add_jcarbon_log_ignores_other_units activity_samples (Some keras_logs) tt
             activity_samples_no_energy).
Defined.

Lemma batch_end_without_begin_witness :
  r_reports batch_callback !! 3 = None
  /\ b_on_train_batch_end id never_fails reads_cpu 3 (Some keras_logs) batch_callback
     = Raises KeyError batch_callback.
Proof.
  split; [reflexivity |].
  exact (batch_end_without_begin _ id never_fails reads_cpu 3 (Some keras_logs)
           batch_callback eq_refl).
Defined.

Lemma unchunked_epoch_is_epoch_callback_witness :
  let re := rrun (ehandle id never_fails reads_numbered)
              [REpochBegin 0 None; REpochEnd 0 (Some keras_logs)] epoch_callback in
  let rc := run (handle id never_fails reads_numbered)
              (epoch_events 0 0%float None quiet_batches (Some keras_logs)) chunker in
  reliable never_fails
  /\ r_base epoch_callback = base chunker
  /\ crossings (chunking_period_sec chunker) 0%float (batch_times quiet_batches) = 0%nat
  /\ (exists outs s' outs' c' frame,
        re = Returns outs s'
        /\ rc = Returns outs' c'
        /\ r_base s' = base c'
        /\ client (base c') = opening (base chunker) ++ closing (base chunker)
        /\ last outs = last outs'
        /\ r_reports s' !! 0 = Some [window_sample 3]
        /\ reports c' !! 0 = Some frame
        /\ frame.*1 = [window_sample 3]
        /\ Forall (fun x => x.2 = 0) frame)
  /\ r_reports (state_of re) !! 0 = Some [window_sample 3]
  /\ reports (state_of rc) !! 0 = Some [(window_sample 3, 0)].
Proof.
  intros re rc. split; [| split; [| split; [| split; [| split]]]].
  - intros h c. reflexivity.
  - reflexivity.
  - reflexivity.
  - exact (unchunked_epoch_is_epoch_callback _ id never_fails reads_numbered
             (fun h c => eq_refl) epoch_callback chunker 0 0%float None quiet_batches
             (Some keras_logs) eq_refl eq_refl).
  - reflexivity.
  - reflexivity.
Defined.

Lemma batch_callback_raises_with_logs_witness :
  reliable never_fails
  /\ rrun (bhandle id never_fails reads_cpu)
       [RBatchBegin 0 (Some keras_logs); RBatchEnd 0 (Some keras_logs)] batch_callback
     = Raises AttributeError
         {| r_base := set_client (opening (r_base batch_callback)
                                    ++ closing (r_base batch_callback))
                        (r_base batch_callback);
            r_reports := {[ 0 := [cpu_samples] ]} |}.
Proof.
  split.
  - intros h c. reflexivity.
  - exact (batch_callback_raises_with_logs _ id never_fails reads_cpu
             (fun h c => eq_refl) batch_callback 0 (Some keras_logs) (Some keras_logs)).
Defined.

Lemma timestamp_tracking_keeps_energy_side_witness :
  let s' := state_of (xrun (xhandle id never_fails reads_cpu) two_epochs tracker) in
  xrun (xhandle id never_fails reads_cpu) two_epochs tracker = Returns tt s'
  /\ exists outs,
       run (handle id never_fails reads_cpu) (concat (map inherited two_epochs))
         (chunking tracker)
       = Returns outs (chunking s').
Proof.
  intros s'.
  assert (H : xrun (xhandle id never_fails reads_cpu) two_epochs tracker
              = Returns tt s') by (vm_compute; reflexivity).
  split; [exact H |].
  exact (timestamp_tracking_keeps_energy_side _ id never_fails reads_cpu two_epochs
           tracker s' H).
Defined.

Lemma tracked_batches_clocks :
  Forall (fun b => is_Some (clock_nanos b.1.1.2) /\ is_Some (clock_nanos b.1.2))
    tracked_batches.
Proof. repeat (constructor; [split; by eexists |]). constructor. Qed.

Lemma timeline_has_one_row_per_batch_witness :
  reliable never_fails
  /\ Forall (fun b => is_Some (clock_nanos b.1.1.2) /\ is_Some (clock_nanos b.1.2))
       tracked_batches
  /\ exists s',
       xrun (xhandle id never_fails reads_cpu) (xepoch_events 3 100%float tracked_batches)
         tracker
       = Returns tt s'
       /\ timestamps s' !! 3 = Some (assign_epoch (map batch_row tracked_batches) 3)
       /\ (forall e, e <> 3 -> timestamps s' !! e = timestamps tracker !! e).
Proof.
  split; [| split].
  - intros h c. reflexivity.
  - exact tracked_batches_clocks.
  - exact (timeline_has_one_row_per_batch _ id never_fails reads_cpu
             (fun h c => eq_refl) tracker 3 100%float tracked_batches
             tracked_batches_clocks).
Defined.

Lemma boundary_test_is_strict_witness :
  let self := state_of (on_epoch_begin never_fails 0 0%float None chunker) in
  time self = Value 0%float
  /\ chunking_period_sec self = PrimFloat.sub 2%float 0%float
  /\ on_train_batch_end id never_fails reads_cpu 0 2%float (Some keras_logs) self
     = Returns (Some keras_logs) self.
Proof.
  intros self. split; [reflexivity |]. split; [reflexivity |].
  exact (boundary_test_is_strict _ id never_fails reads_cpu 0 2%float 0%float
           (Some keras_logs) self eq_refl eq_refl).
Defined.

Lemma purge_before_every_start_elsewhere_witness :
  purged_starts (client (base chunker2)) = true
  /\ purged_starts (client (r_base epoch_callback)) = true
  /\ purged_starts (client (r_base batch_callback)) = true
  /\ purged_starts
       (client (base (state_of
          (run (handle2 id (fails_nth 5) reads_cpu)
             (epoch_events 0 0%float None five_batches None) chunker2)))) = true
  /\ purged_starts
       (client (r_base (state_of
          (rrun (ehandle id (fails_nth 1) reads_cpu)
             [REpochBegin 0 None; REpochEnd 0 None] epoch_callback)))) = true
  /\ purged_starts
       (client (r_base (state_of
          (rrun (bhandle id (fails_nth 3) reads_cpu)
             [RBatchBegin 0 None; RBatchEnd 0 None] batch_callback)))) = true.
Proof.
  split; [reflexivity |]. split; [reflexivity |]. split; [reflexivity |].
  split; [| split].
  - exact (proj1 (purge_before_every_start_elsewhere _ id (fails_nth 5) reads_cpu
             (epoch_events 0 0%float None five_batches None) [] chunker2
             epoch_callback batch_callback eq_refl eq_refl eq_refl)).
  - exact (proj1 (proj2 (purge_before_every_start_elsewhere _ id (fails_nth 1) reads_cpu
             [] [REpochBegin 0 None; REpochEnd 0 None] chunker2
             epoch_callback batch_callback eq_refl eq_refl eq_refl))).
  - exact (proj2 (proj2 (purge_before_every_start_elsewhere _ id (fails_nth 3) reads_cpu
             [] [RBatchBegin 0 None; RBatchEnd 0 None] chunker2
             epoch_callback batch_callback eq_refl eq_refl eq_refl))).
Defined.
